(** * The zone-detection and variety-suitability engine of the NABARD
      recommendation pipeline

    A shallow embedding of [Reco_Engine_v1/engine/recommendation_engine.py]
    (the scoring routine only) and of
    [Reco_Engine_v2/engine/recommendation_engine.py] (zone detection, profile
    construction, scoring, ranking, the carbon blend and the batch loop).

    Conventions of the embedding:
    - Python [float] and [int] values are rationals ([Q]); arithmetic is
      exact, so IEEE rounding, infinities and NaN are outside the model
      (the one place where the source tests for NaN, the raw soil pH, has a
      [reading] type with an explicit [NaN]).  Equalities between computed
      numbers are stated with [==].
    - A Python exception is a value of [outcome]; [try]/[except] is
      [try_except].  [/] on a zero divisor raises [ZeroDivisionError].
    - [x ** 0.5] has no rational model: the square root is a parameter
      [sqrt] of the definitions that use it, and the theorems assume of it
      only what they need.
    - A [dict] whose iteration order matters is an association list in
      insertion order; a [dict] with a fixed set of keys is a record.
    - Writing files, logging, clocks and UUIDs are not modelled; the
      function that writes one farm's JSON file is a parameter that may
      raise. *)

From Stdlib Require Import QArith Qround Lqa Lia ZArith.
From Stdlib Require Import List String Bool Sorted Permutation DecimalString.
Import ListNotations.
Open Scope string_scope.
Open Scope list_scope.
Open Scope Q_scope.

(* ================================================================== *)
(** * Python values and operators *)

Inductive exn : Type :=
| ZeroDivisionError
| ValueError (msg : string)
| KeyError (key : string).

Inductive outcome (A : Type) : Type :=
| Returns (a : A)
| Raises (e : exn).

Arguments Returns {A} a.
Arguments Raises {A} e.

Definition bind {A B : Type} (m : outcome A) (k : A -> outcome B) : outcome B :=
  match m with
  | Returns a => k a
  | Raises e => Raises e
  end.

Notation "x <- m ;; k" := (bind m (fun x => k))
  (at level 61, m at next level, right associativity).

(** [try: body  except Exception: return d]. *)
Definition try_except {A : Type} (body : outcome A) (d : A) : A :=
  match body with
  | Returns a => a
  | Raises _ => d
  end.

Definition Qleb (x y : Q) : bool := Qle_bool x y.
Definition Qltb (x y : Q) : bool := negb (Qle_bool y x).
Definition Qgtb (x y : Q) : bool := Qltb y x.
Definition Qgeb (x y : Q) : bool := Qleb y x.

Notation "x <=? y" := (Qleb x y) (at level 70, no associativity) : Q_scope.
Notation "x <? y" := (Qltb x y) (at level 70, no associativity) : Q_scope.
Notation "x >? y" := (Qgtb x y) (at level 70, no associativity) : Q_scope.
Notation "x >=? y" := (Qgeb x y) (at level 70, no associativity) : Q_scope.

(** [a / b]: true division, raising on a zero divisor. *)
Definition truediv (a b : Q) : outcome Q :=
  if Qeq_bool b 0 then Raises ZeroDivisionError else Returns (a / b).

(** [max(a, b)] and [min(a, b)] keep the first argument unless the second
    is strictly larger (smaller). *)
Definition py_max (a b : Q) : Q := if b >? a then b else a.
Definition py_min (a b : Q) : Q := if b <? a then b else a.

(** [round(x, ndigits)] for [ndigits >= 0]: to the nearest multiple of
    [10 ** -ndigits], halves to the even neighbour. *)
Definition round_half_even (x : Q) : Z :=
  let f := Qfloor x in
  let r := x - inject_Z f in
  if r <? 1 # 2 then f
  else if r >? 1 # 2 then (f + 1)%Z
  else if Z.even f then f else (f + 1)%Z.

Definition py_round (x : Q) (ndigits : nat) : Q :=
  inject_Z (round_half_even (x * inject_Z (10 ^ Z.of_nat ndigits)))
  / inject_Z (10 ^ Z.of_nat ndigits).

(** [x in xs] for a list of strings. *)
Definition str_in (x : string) (xs : list string) : bool :=
  existsb (String.eqb x) xs.

(** [needle in hay] for two strings: substring containment. *)
Fixpoint str_contains (needle hay : string) : bool :=
  String.prefix needle hay
  || match hay with
     | EmptyString => false
     | String _ rest => str_contains needle rest
     end.

(** Truth value of [None] or a string. *)
Definition truthy (o : option string) : bool :=
  match o with
  | None => false
  | Some s => negb (String.eqb s "")
  end.

(** [str(n)] and [f"{n:03d}"] for a natural number. *)
Definition str_of_nat (n : nat) : string :=
  NilZero.string_of_uint (Nat.to_uint n).

Fixpoint zeros (k : nat) : string :=
  match k with
  | O => EmptyString
  | S k' => String.append "0" (zeros k')
  end.

Definition format_03d (n : nat) : string :=
  let digits := str_of_nat n in
  String.append (zeros (3 - String.length digits)) digits.

(** [xs[i]] where the index is known to be in range. *)
Definition item (xs : list string) (i : nat) : string := nth i xs EmptyString.

(** [range(a, b)]. *)
Definition range (a b : nat) : list nat := seq a (b - a).

(** An [int] as a number. *)
Definition num (n : nat) : Q := inject_Z (Z.of_nat n).

(** [s.lower()] on ASCII letters; other characters are kept. *)
Definition lower_char (c : Ascii.ascii) : Ascii.ascii :=
  let n := Ascii.nat_of_ascii c in
  if ((65 <=? n) && (n <=? 90))%nat then Ascii.ascii_of_nat (n + 32) else c.

Fixpoint lower (s : string) : string :=
  match s with
  | EmptyString => EmptyString
  | String c rest => String (lower_char c) (lower rest)
  end.

(** [any(word in text for word in words)]. *)
Definition any_word_in (words : list string) (text : string) : bool :=
  existsb (fun word => str_contains word text) words.

(** [xs[:n]] for any integer [n]: a negative [n] counts from the end. *)
Definition slice_to {A : Type} (xs : list A) (n : Z) : list A :=
  if (0 <=? n)%Z then firstn (Z.to_nat n) xs
  else firstn (Z.to_nat (Z.of_nat (List.length xs) + n)) xs.

(** [xs.tail(n)] of a data frame: the last [n] rows. *)
Definition tail_rows {A : Type} (n : nat) (xs : list A) : list A :=
  skipn (List.length xs - n) xs.

Definition Qsum (xs : list Q) : Q := fold_left Qplus xs 0.

(** [Series.mean()] of a series that is not empty. *)
Definition mean (xs : list Q) : Q := Qsum xs / inject_Z (Z.of_nat (List.length xs)).

(** [Series.unique()]: the distinct values, in order of first appearance. *)
Fixpoint unique (xs : list string) : list string :=
  match xs with
  | [] => []
  | x :: rest => x :: filter (fun y => negb (String.eqb x y)) (unique rest)
  end.

(** [xs.sort(key=key, reverse=True)]: the sort is stable, and [reverse]
    keeps the original order of elements with equal keys.  The stable
    sorted arrangement of a list is unique, so insertion from the right
    computes it. *)
Section StableSort.
Context {A : Type} (key : A -> Q).

Fixpoint insert_desc (x : A) (xs : list A) : list A :=
  match xs with
  | [] => [x]
  | y :: rest => if key y >? key x then y :: insert_desc x rest
                 else x :: y :: rest
  end.

Definition sort_desc (xs : list A) : list A :=
  fold_right insert_desc [] xs.

End StableSort.

(* ================================================================== *)
(** * Data model *)

(** [EnhancedFarmProfile]: the dataclass is the same in both engines.
    [temp_variability] is [None] when pandas yields NaN (a single row);
    [analysis_date] is a clock reading and is left out. *)
Record EnhancedFarmProfile : Type := {
  farm_id : string;
  lat : Q;
  lon : Q;
  total_rainfall : Q;
  rainy_days : Z;
  avg_temp : Q;
  avg_humidity : Q;
  kharif_rainfall : Q;
  rabi_rainfall : Q;
  ndvi_mean : Q;
  evi_mean : Q;
  lai_mean : Q;
  vegetation_health : string;
  soil_ph_avg : Q;
  clay_pct_avg : Q;
  sand_pct_avg : Q;
  silt_pct_avg : Q;
  soc_avg : Q;
  cec_avg : Q;
  texture : string;
  nutrient_status : string;
  ph_status : string;
  heat_stress_days : Z;
  drought_stress_days : Z;
  temp_variability : option Q;
  recent_rainfall : Q;
  recent_avg_temp : Q;
  recent_avg_humidity : Q;
  detected_zone : string
}.

(** A catalog entry as the CSV loader builds it; a two-element list
    [[lo, hi]] is a pair. *)
Module Variety.
Record t : Type := {
  id : string;
  name : string;
  category : string;
  zones : list string;
  carbon_potential : Q;
  market_value : string;
  ph_tolerance : Q * Q;
  rainfall_range : Q * Q;
  temp_range : Q * Q;
  water_requirement : string;
  soil_preference : string;
  climate_suitability : string;
  characteristics : string;
  special_features : string
}.
End Variety.

(** [self.database]: three lists, iterated in this order. *)
Record Database : Type := {
  rice_varieties : list Variety.t;
  agroforestry_species : list Variety.t;
  crop_varieties : list Variety.t
}.

Module Zone.
Record characteristics_t : Type := {
  climate_type : string;
  elevation : string;
  major_crops : list string
}.

Record t : Type := {
  name : string;
  lat_range : Q * Q;
  lon_range : Q * Q;
  rainfall_range : Q * Q;
  temp_range : Q * Q;
  states : list string;
  characteristics : characteristics_t
}.
End Zone.

(** The weight table [self.recommendation_rules]. *)
Module Rules.
Record zone_compatibility_t : Type := {
  exact_match : Q;
  adjacent_zone : Q;
  climate_similarity : Q
}.
Record climate_compatibility_t : Type := {
  rainfall_match : Q;
  temperature_match : Q;
  humidity_tolerance : Q
}.
Record soil_compatibility_t : Type := {
  ph_match : Q;
  texture_match : Q;
  nutrient_match : Q
}.
Record vegetation_health_t : Type := {
  ndvi_bonus : Q;
  stress_penalty : Q
}.
Record economic_factors_t : Type := {
  market_value : Q;
  carbon_potential : Q
}.
Record t : Type := {
  zone_compatibility : zone_compatibility_t;
  climate_compatibility : climate_compatibility_t;
  soil_compatibility : soil_compatibility_t;
  vegetation_health : vegetation_health_t;
  economic_factors : economic_factors_t
}.
End Rules.

(** The attributes of an engine object ([self]). *)
Record Engine : Type := {
  database : Database;
  zone_mappings : list (string * Zone.t);
  recommendation_rules : Rules.t
}.

(* ================================================================== *)
(** * Engine v1: the scoring routine *)

Module V1.

Definition _initialize_enhanced_rules : Rules.t := {|
  Rules.zone_compatibility := {|
    Rules.exact_match := 0.50;
    Rules.adjacent_zone := 0.20;
    Rules.climate_similarity := 0.05 |};
  Rules.climate_compatibility := {|
    Rules.rainfall_match := 0.25;
    Rules.temperature_match := 0.20;
    Rules.humidity_tolerance := 0.10 |};
  Rules.soil_compatibility := {|
    Rules.ph_match := 0.25;
    Rules.texture_match := 0.15;
    Rules.nutrient_match := 0.10 |};
  Rules.vegetation_health := {|
    Rules.ndvi_bonus := 0.05;
    Rules.stress_penalty := 0.10 |};
  Rules.economic_factors := {|
    Rules.market_value := 0.05;
    Rules.carbon_potential := 0.10 |}
|}.

(** No handler surrounds the body in this engine: a zero range bound on
    the side the farm value misses raises [ZeroDivisionError] to the
    caller. *)
Definition calculate_enhanced_suitability_score
  (self : Engine) (farm_profile : EnhancedFarmProfile) (variety : Variety.t)
  : outcome Q :=
  let rules := recommendation_rules self in
  let total_score := 0.0 in
  (* Zone compatibility *)
  let zone_score :=
    if str_in (detected_zone farm_profile) (Variety.zones variety)
    then Rules.exact_match (Rules.zone_compatibility rules)
    else Rules.climate_similarity (Rules.zone_compatibility rules) in
  let total_score := total_score + zone_score in
  (* Climate compatibility *)
  let climate_score := 0.0 in
  let rainfall_range := Variety.rainfall_range variety in
  let farm_rainfall := total_rainfall farm_profile in
  rainfall_match <-
    (if (fst rainfall_range <=? farm_rainfall) && (farm_rainfall <=? snd rainfall_range)
     then Returns 1.0
     else
       distance <-
         (if farm_rainfall <? fst rainfall_range
          then truediv (fst rainfall_range - farm_rainfall) (fst rainfall_range)
          else truediv (farm_rainfall - snd rainfall_range) (snd rainfall_range)) ;;
       Returns (py_max 0 (1.0 - distance))) ;;
  let climate_score :=
    climate_score + rainfall_match * Rules.rainfall_match (Rules.climate_compatibility rules) in
  let temp_range := Variety.temp_range variety in
  let farm_temp := avg_temp farm_profile in
  temp_match <-
    (if (fst temp_range <=? farm_temp) && (farm_temp <=? snd temp_range)
     then Returns 1.0
     else
       distance <-
         (if farm_temp <? fst temp_range
          then truediv (fst temp_range - farm_temp) (fst temp_range)
          else truediv (farm_temp - snd temp_range) (snd temp_range)) ;;
       Returns (py_max 0 (1.0 - distance))) ;;
  let climate_score :=
    climate_score + temp_match * Rules.temperature_match (Rules.climate_compatibility rules) in
  let total_score := total_score + climate_score in
  (* Soil compatibility *)
  let soil_score := 0.0 in
  let ph_range := Variety.ph_tolerance variety in
  let farm_ph := soil_ph_avg farm_profile in
  ph_match <-
    (if (fst ph_range <=? farm_ph) && (farm_ph <=? snd ph_range)
     then Returns 1.0
     else
       distance <-
         (if farm_ph <? fst ph_range
          then truediv (fst ph_range - farm_ph) (fst ph_range)
          else truediv (farm_ph - snd ph_range) (snd ph_range)) ;;
       Returns (py_max 0 (1.0 - distance * 2))) ;;
  let soil_score :=
    soil_score + ph_match * Rules.ph_match (Rules.soil_compatibility rules) in
  let soil_score :=
    if str_contains (Variety.soil_preference variety) (texture farm_profile)
    then soil_score + Rules.texture_match (Rules.soil_compatibility rules)
    else soil_score in
  let soil_score :=
    if str_in (nutrient_status farm_profile) ["Good"; "Excellent"]%string
       && String.eqb (Variety.market_value variety) "Premium"
    then soil_score + Rules.nutrient_match (Rules.soil_compatibility rules)
    else soil_score in
  let total_score := total_score + soil_score in
  (* Vegetation health *)
  let total_score :=
    if str_in (vegetation_health farm_profile) ["Good"; "Excellent"]%string
    then total_score + Rules.ndvi_bonus (Rules.vegetation_health rules)
    else total_score in
  (* Stress penalties *)
  let total_score :=
    if (heat_stress_days farm_profile >? 60)%Z
       || (drought_stress_days farm_profile >? 180)%Z
    then total_score - Rules.stress_penalty (Rules.vegetation_health rules)
    else total_score in
  (* Economic factors *)
  let total_score :=
    if String.eqb (Variety.market_value variety) "Premium"
    then total_score + Rules.market_value (Rules.economic_factors rules)
    else total_score in
  let total_score :=
    if Variety.carbon_potential variety >? 5.0
    then total_score + Rules.carbon_potential (Rules.economic_factors rules)
    else total_score in
  Returns (py_max 0.0 (py_min 1.0 total_score)).

Definition _initialize_complete_zone_mappings : list (string * Zone.t) :=
  [
  ("Zone_1_Western_Himalayan",
   {| Zone.name := "Western Himalayan Region";
      Zone.lat_range := (28, 37); Zone.lon_range := (74, 80);
      Zone.rainfall_range := (1000, 2500); Zone.temp_range := (5, 25);
      Zone.states := ["J&K"; "Himachal Pradesh"; "Uttarakhand (hills)"];
      Zone.characteristics := {|
        Zone.climate_type := "Temperate to alpine";
        Zone.elevation := "High";
        Zone.major_crops := ["Apple"; "Rice"; "Wheat"; "Maize"] |} |});
  ("Zone_2_Eastern_Himalayan",
   {| Zone.name := "Eastern Himalayan Region";
      Zone.lat_range := (26, 30); Zone.lon_range := (88, 98);
      Zone.rainfall_range := (1500, 3000); Zone.temp_range := (8, 28);
      Zone.states := ["Sikkim"; "Darjeeling"; "Arunachal Pradesh"];
      Zone.characteristics := {|
        Zone.climate_type := "Humid temperate";
        Zone.elevation := "High";
        Zone.major_crops := ["Tea"; "Rice"; "Maize"; "Ginger"] |} |});
  ("Zone_3_Lower_Gangetic",
   {| Zone.name := "Lower Gangetic Plains Region";
      Zone.lat_range := (22, 26); Zone.lon_range := (86, 92);
      Zone.rainfall_range := (1200, 1800); Zone.temp_range := (15, 38);
      Zone.states := ["West Bengal"; "Parts of Bihar"];
      Zone.characteristics := {|
        Zone.climate_type := "Humid subtropical";
        Zone.elevation := "Low";
        Zone.major_crops := ["Rice"; "Jute"; "Sugarcane"; "Potato"] |} |});
  ("Zone_4_Middle_Gangetic",
   {| Zone.name := "Middle Gangetic Plains Region";
      Zone.lat_range := (24, 27); Zone.lon_range := (82, 88);
      Zone.rainfall_range := (1000, 1500); Zone.temp_range := (12, 40);
      Zone.states := ["Eastern UP"; "Bihar"];
      Zone.characteristics := {|
        Zone.climate_type := "Humid subtropical";
        Zone.elevation := "Low";
        Zone.major_crops := ["Rice"; "Wheat"; "Sugarcane"; "Maize"] |} |});
  ("Zone_5_Upper_Gangetic",
   {| Zone.name := "Upper Gangetic Plains Region";
      Zone.lat_range := (26, 31); Zone.lon_range := (77, 84);
      Zone.rainfall_range := (600, 1200); Zone.temp_range := (8, 42);
      Zone.states := ["Western UP"; "Uttarakhand (plains)"; "Delhi"];
      Zone.characteristics := {|
        Zone.climate_type := "Semi-arid to sub-humid";
        Zone.elevation := "Low";
        Zone.major_crops := ["Wheat"; "Rice"; "Sugarcane"; "Cotton"] |} |});
  ("Zone_6_Trans_Gangetic",
   {| Zone.name := "Trans-Gangetic Plains Region";
      Zone.lat_range := (28, 33); Zone.lon_range := (74, 78);
      Zone.rainfall_range := (300, 800); Zone.temp_range := (2, 45);
      Zone.states := ["Punjab"; "Haryana"; "Delhi"; "Rajasthan (northern)"];
      Zone.characteristics := {|
        Zone.climate_type := "Semi-arid";
        Zone.elevation := "Low";
        Zone.major_crops := ["Wheat"; "Rice"; "Cotton"; "Mustard"] |} |});
  ("Zone_7_Eastern_Plateau",
   {| Zone.name := "Eastern Plateau and Hills Region";
      Zone.lat_range := (21, 25); Zone.lon_range := (82, 88);
      Zone.rainfall_range := (1000, 1600); Zone.temp_range := (15, 40);
      Zone.states := ["Jharkhand"; "Chhattisgarh"; "Eastern MP"; "Odisha (western)"];
      Zone.characteristics := {|
        Zone.climate_type := "Sub-humid";
        Zone.elevation := "Medium";
        Zone.major_crops := ["Rice"; "Maize"; "Pulses"; "Millets"] |} |});
  ("Zone_8_Central_Plateau",
   {| Zone.name := "Central Plateau and Hills Region";
      Zone.lat_range := (21, 26); Zone.lon_range := (74, 82);
      Zone.rainfall_range := (800, 1400); Zone.temp_range := (12, 42);
      Zone.states := ["MP"; "Rajasthan (southeastern)"; "UP (southern)"];
      Zone.characteristics := {|
        Zone.climate_type := "Sub-humid to semi-arid";
        Zone.elevation := "Medium";
        Zone.major_crops := ["Soybean"; "Wheat"; "Cotton"; "Sugarcane"] |} |});
  ("Zone_9_Western_Plateau",
   {| Zone.name := "Western Plateau and Hills Region";
      Zone.lat_range := (17, 24); Zone.lon_range := (72, 77);
      Zone.rainfall_range := (500, 1200); Zone.temp_range := (15, 40);
      Zone.states := ["Maharashtra (northern)"; "MP (western)"; "Rajasthan (southern)"];
      Zone.characteristics := {|
        Zone.climate_type := "Semi-arid";
        Zone.elevation := "Medium";
        Zone.major_crops := ["Cotton"; "Sorghum"; "Sugarcane"; "Onion"] |} |});
  ("Zone_10_Southern_Plateau",
   {| Zone.name := "Southern Plateau and Hills Region";
      Zone.lat_range := (12, 20); Zone.lon_range := (74, 80);
      Zone.rainfall_range := (600, 1400); Zone.temp_range := (20, 35);
      Zone.states := ["Karnataka"; "Andhra Pradesh"; "Telangana"; "Tamil Nadu (western)"];
      Zone.characteristics := {|
        Zone.climate_type := "Semi-arid to sub-humid";
        Zone.elevation := "Medium";
        Zone.major_crops := ["Rice"; "Cotton"; "Sugarcane"; "Groundnut"] |} |});
  ("Zone_11_East_Coast",
   {| Zone.name := "East Coast Plains and Hills Region";
      Zone.lat_range := (17, 22); Zone.lon_range := (82, 87);
      Zone.rainfall_range := (1000, 1400); Zone.temp_range := (22, 38);
      Zone.states := ["Odisha"; "Andhra Pradesh (coastal)"; "Tamil Nadu (northern)"];
      Zone.characteristics := {|
        Zone.climate_type := "Sub-humid coastal";
        Zone.elevation := "Low";
        Zone.major_crops := ["Rice"; "Sugarcane"; "Coconut"; "Cashew"] |} |});
  ("Zone_12_West_Coast",
   {| Zone.name := "West Coast Plains and Ghats Region";
      Zone.lat_range := (8, 17); Zone.lon_range := (72, 77);
      Zone.rainfall_range := (2000, 4000); Zone.temp_range := (22, 32);
      Zone.states := ["Kerala"; "Karnataka (coastal)"; "Goa"; "Maharashtra (coastal)"];
      Zone.characteristics := {|
        Zone.climate_type := "Humid tropical";
        Zone.elevation := "Low";
        Zone.major_crops := ["Rice"; "Coconut"; "Spices"; "Rubber"] |} |});
  ("Zone_13_Gujarat",
   {| Zone.name := "Gujarat Plains and Hills Region";
      Zone.lat_range := (20, 25); Zone.lon_range := (68, 75);
      Zone.rainfall_range := (400, 1200); Zone.temp_range := (15, 42);
      Zone.states := ["Gujarat"; "Rajasthan (western)"];
      Zone.characteristics := {|
        Zone.climate_type := "Semi-arid to arid";
        Zone.elevation := "Low to medium";
        Zone.major_crops := ["Cotton"; "Groundnut"; "Castor"; "Wheat"] |} |});
  ("Zone_14_Western_Dry",
   {| Zone.name := "Western Dry Region";
      Zone.lat_range := (24, 30); Zone.lon_range := (69, 76);
      Zone.rainfall_range := (100, 500); Zone.temp_range := (5, 48);
      Zone.states := ["Rajasthan (desert)"; "Gujarat (northern)"];
      Zone.characteristics := {|
        Zone.climate_type := "Arid to semi-arid";
        Zone.elevation := "Low";
        Zone.major_crops := ["Pearl Millet"; "Cluster Bean"; "Moth Bean"; "Sesame"] |} |});
  ("Zone_15_Island",
   {| Zone.name := "Island Region";
      Zone.lat_range := (6, 14); Zone.lon_range := (71, 94);
      Zone.rainfall_range := (1500, 3500); Zone.temp_range := (24, 32);
      Zone.states := ["Andaman & Nicobar"; "Lakshadweep"];
      Zone.characteristics := {|
        Zone.climate_type := "Tropical maritime";
        Zone.elevation := "Low";
        Zone.major_crops := ["Coconut"; "Rice"; "Spices"; "Fruits"] |} |})
  ].

Definition rice_specific : list Variety.t :=
  [
  {| Variety.id := "RICE_001";
     Variety.name := "Himalayan Basmati";
     Variety.category := "rice";
     Variety.zones := ["Zone_1_Western_Himalayan"];
     Variety.carbon_potential := 2.8;
     Variety.market_value := "Premium";
     Variety.ph_tolerance := (6.0, 7.5);
     Variety.rainfall_range := (1000, 2000);
     Variety.temp_range := (15, 30);
     Variety.water_requirement := "Medium";
     Variety.soil_preference := "Well-drained alluvial";
     Variety.climate_suitability := "Temperate";
     Variety.characteristics := "";
     Variety.special_features := "" |};
  {| Variety.id := "RICE_002";
     Variety.name := "Swarna-Sub1";
     Variety.category := "rice";
     Variety.zones := ["Zone_3_Lower_Gangetic"];
     Variety.carbon_potential := 3.2;
     Variety.market_value := "High";
     Variety.ph_tolerance := (6.0, 7.5);
     Variety.rainfall_range := (1200, 1800);
     Variety.temp_range := (20, 35);
     Variety.water_requirement := "High";
     Variety.soil_preference := "Alluvial";
     Variety.climate_suitability := "Humid subtropical";
     Variety.characteristics := "";
     Variety.special_features := "" |};
  {| Variety.id := "RICE_003";
     Variety.name := "Pusa Basmati-1121";
     Variety.category := "rice";
     Variety.zones := ["Zone_5_Upper_Gangetic"; "Zone_6_Trans_Gangetic"];
     Variety.carbon_potential := 2.5;
     Variety.market_value := "Premium";
     Variety.ph_tolerance := (6.0, 7.5);
     Variety.rainfall_range := (500, 1000);
     Variety.temp_range := (18, 38);
     Variety.water_requirement := "Medium";
     Variety.soil_preference := "Well-drained loam";
     Variety.climate_suitability := "Semi-arid";
     Variety.characteristics := "";
     Variety.special_features := "" |};
  {| Variety.id := "RICE_004";
     Variety.name := "BPT-5204";
     Variety.category := "rice";
     Variety.zones := ["Zone_10_Southern_Plateau"];
     Variety.carbon_potential := 3.0;
     Variety.market_value := "High";
     Variety.ph_tolerance := (6.0, 7.5);
     Variety.rainfall_range := (800, 1200);
     Variety.temp_range := (25, 35);
     Variety.water_requirement := "High";
     Variety.soil_preference := "Red lateritic";
     Variety.climate_suitability := "Semi-arid";
     Variety.characteristics := "";
     Variety.special_features := "" |};
  {| Variety.id := "RICE_005";
     Variety.name := "Jyothi";
     Variety.category := "rice";
     Variety.zones := ["Zone_12_West_Coast"];
     Variety.carbon_potential := 3.3;
     Variety.market_value := "High";
     Variety.ph_tolerance := (5.5, 7.0);
     Variety.rainfall_range := (2000, 3500);
     Variety.temp_range := (24, 32);
     Variety.water_requirement := "High";
     Variety.soil_preference := "Lateritic";
     Variety.climate_suitability := "Humid tropical";
     Variety.characteristics := "";
     Variety.special_features := "" |}
  ].

Definition agro_specific : list Variety.t :=
  [
  {| Variety.id := "AGRO_001";
     Variety.name := "Deodar Cedar";
     Variety.category := "agroforestry";
     Variety.zones := ["Zone_1_Western_Himalayan"];
     Variety.carbon_potential := 12.5;
     Variety.market_value := "Premium";
     Variety.ph_tolerance := (6.0, 7.5);
     Variety.rainfall_range := (1000, 2500);
     Variety.temp_range := (5, 25);
     Variety.water_requirement := "Medium";
     Variety.soil_preference := "Well-drained mountain";
     Variety.climate_suitability := "Temperate";
     Variety.characteristics := "";
     Variety.special_features := "" |};
  {| Variety.id := "AGRO_002";
     Variety.name := "Teak Premium";
     Variety.category := "agroforestry";
     Variety.zones := ["Zone_9_Western_Plateau"];
     Variety.carbon_potential := 15.2;
     Variety.market_value := "Premium";
     Variety.ph_tolerance := (6.5, 7.5);
     Variety.rainfall_range := (800, 1500);
     Variety.temp_range := (20, 35);
     Variety.water_requirement := "Medium";
     Variety.soil_preference := "Deep fertile";
     Variety.climate_suitability := "Sub-humid";
     Variety.characteristics := "";
     Variety.special_features := "" |};
  {| Variety.id := "AGRO_003";
     Variety.name := "Sandalwood";
     Variety.category := "agroforestry";
     Variety.zones := ["Zone_10_Southern_Plateau"];
     Variety.carbon_potential := 8.8;
     Variety.market_value := "Premium";
     Variety.ph_tolerance := (6.0, 8.0);
     Variety.rainfall_range := (600, 1200);
     Variety.temp_range := (22, 32);
     Variety.water_requirement := "Medium";
     Variety.soil_preference := "Red lateritic";
     Variety.climate_suitability := "Semi-arid";
     Variety.characteristics := "";
     Variety.special_features := "" |};
  {| Variety.id := "AGRO_004";
     Variety.name := "Rubber";
     Variety.category := "agroforestry";
     Variety.zones := ["Zone_12_West_Coast"];
     Variety.carbon_potential := 11.8;
     Variety.market_value := "High";
     Variety.ph_tolerance := (5.5, 7.0);
     Variety.rainfall_range := (2000, 3500);
     Variety.temp_range := (24, 32);
     Variety.water_requirement := "High";
     Variety.soil_preference := "Lateritic";
     Variety.climate_suitability := "Humid tropical";
     Variety.characteristics := "";
     Variety.special_features := "" |};
  {| Variety.id := "AGRO_005";
     Variety.name := "Coconut";
     Variety.category := "agroforestry";
     Variety.zones := ["Zone_15_Island"];
     Variety.carbon_potential := 6.5;
     Variety.market_value := "High";
     Variety.ph_tolerance := (6.0, 8.0);
     Variety.rainfall_range := (1500, 2500);
     Variety.temp_range := (24, 30);
     Variety.water_requirement := "High";
     Variety.soil_preference := "Coastal sandy";
     Variety.climate_suitability := "Maritime tropical";
     Variety.characteristics := "";
     Variety.special_features := "" |}
  ].

Definition crop_specific : list Variety.t :=
  [
  {| Variety.id := "CROP_001";
     Variety.name := "Wheat HD-2967";
     Variety.category := "crops";
     Variety.zones := ["Zone_5_Upper_Gangetic"];
     Variety.carbon_potential := 1.8;
     Variety.market_value := "High";
     Variety.ph_tolerance := (6.0, 7.5);
     Variety.rainfall_range := (400, 800);
     Variety.temp_range := (15, 25);
     Variety.water_requirement := "Medium";
     Variety.soil_preference := "Alluvial";
     Variety.climate_suitability := "Semi-arid";
     Variety.characteristics := "";
     Variety.special_features := "" |};
  {| Variety.id := "CROP_002";
     Variety.name := "Cotton Bt RCH-134";
     Variety.category := "crops";
     Variety.zones := ["Zone_6_Trans_Gangetic"];
     Variety.carbon_potential := 2.0;
     Variety.market_value := "High";
     Variety.ph_tolerance := (6.5, 8.0);
     Variety.rainfall_range := (400, 800);
     Variety.temp_range := (22, 40);
     Variety.water_requirement := "Medium";
     Variety.soil_preference := "Black cotton";
     Variety.climate_suitability := "Semi-arid";
     Variety.characteristics := "";
     Variety.special_features := "" |};
  {| Variety.id := "CROP_003";
     Variety.name := "Soybean JS-335";
     Variety.category := "crops";
     Variety.zones := ["Zone_8_Central_Plateau"];
     Variety.carbon_potential := 2.5;
     Variety.market_value := "High";
     Variety.ph_tolerance := (6.0, 7.5);
     Variety.rainfall_range := (750, 1200);
     Variety.temp_range := (22, 32);
     Variety.water_requirement := "Medium";
     Variety.soil_preference := "Black cotton";
     Variety.climate_suitability := "Sub-humid";
     Variety.characteristics := "";
     Variety.special_features := "" |};
  {| Variety.id := "CROP_004";
     Variety.name := "Groundnut TAG-24";
     Variety.category := "crops";
     Variety.zones := ["Zone_10_Southern_Plateau"];
     Variety.carbon_potential := 2.5;
     Variety.market_value := "High";
     Variety.ph_tolerance := (6.0, 7.5);
     Variety.rainfall_range := (500, 1000);
     Variety.temp_range := (25, 35);
     Variety.water_requirement := "Medium";
     Variety.soil_preference := "Red lateritic";
     Variety.climate_suitability := "Semi-arid";
     Variety.characteristics := "";
     Variety.special_features := "" |};
  {| Variety.id := "CROP_005";
     Variety.name := "Pepper Panniyur-1";
     Variety.category := "crops";
     Variety.zones := ["Zone_12_West_Coast"];
     Variety.carbon_potential := 2.8;
     Variety.market_value := "Premium";
     Variety.ph_tolerance := (5.5, 6.8);
     Variety.rainfall_range := (1800, 3000);
     Variety.temp_range := (22, 30);
     Variety.water_requirement := "High";
     Variety.soil_preference := "Lateritic";
     Variety.climate_suitability := "Humid tropical";
     Variety.characteristics := "";
     Variety.special_features := "" |}
  ].

(** The varieties appended by the three [for i in range(...)] loops.  The
    keys [characteristics] and [special_features] do not exist in this
    engine and are never read by it; the record holds empty strings. *)
Definition generated_rice (zone_list : list string) (i : nat) : Variety.t :=
  let zone_index := ((i - 6) mod List.length zone_list)%nat in
  let assigned_zone := item zone_list zone_index in
  {| Variety.id := String.append "RICE_" (format_03d i);
     Variety.name := String.append "Rice Variety " (str_of_nat i);
     Variety.category := "rice";
     Variety.zones := [assigned_zone];
     Variety.carbon_potential := 2.0 + num (i mod 8) * 0.2;
     Variety.market_value := item ["Good"; "High"; "Premium"] (i mod 3);
     Variety.ph_tolerance := (5.5 + num (i mod 3) * 0.5, 7.0 + num (i mod 3) * 0.5);
     Variety.rainfall_range :=
       (400 + num (i mod 12) * 100, 1200 + num (i mod 8) * 100);
     Variety.temp_range := (15 + num (i mod 6) * 2, 30 + num (i mod 6) * 2);
     Variety.water_requirement := item ["Low"; "Medium"; "High"] (i mod 3);
     Variety.soil_preference :=
       item ["Alluvial"; "Red lateritic"; "Black cotton"; "Clay loam"] (i mod 4);
     Variety.climate_suitability := item ["Semi-arid"; "Sub-humid"; "Humid"] (i mod 3);
     Variety.characteristics := "";
     Variety.special_features := "" |}.

Definition generated_agroforestry (zone_list : list string) (i : nat) : Variety.t :=
  let zone_index := ((i - 6) mod List.length zone_list)%nat in
  let assigned_zone := item zone_list zone_index in
  {| Variety.id := String.append "AGRO_" (format_03d i);
     Variety.name := String.append "Tree Species " (str_of_nat i);
     Variety.category := "agroforestry";
     Variety.zones := [assigned_zone];
     Variety.carbon_potential := 4.0 + num (i mod 12) * 1.0;
     Variety.market_value := item ["Good"; "High"; "Premium"] (i mod 3);
     Variety.ph_tolerance := (5.5 + num (i mod 4) * 0.5, 7.5 + num (i mod 4) * 0.5);
     Variety.rainfall_range :=
       (300 + num (i mod 15) * 100, 1200 + num (i mod 15) * 100);
     Variety.temp_range := (15 + num (i mod 8) * 2, 35 + num (i mod 8) * 2);
     Variety.water_requirement := item ["Low"; "Medium"; "High"] (i mod 3);
     Variety.soil_preference :=
       item ["Well-drained"; "Various soils"; "Deep fertile"] (i mod 3);
     Variety.climate_suitability := item ["Semi-arid"; "Sub-humid"; "Humid"] (i mod 3);
     Variety.characteristics := "";
     Variety.special_features := "" |}.

Definition generated_crop (zone_list : list string) (i : nat) : Variety.t :=
  let zone_index := ((i - 6) mod List.length zone_list)%nat in
  let assigned_zone := item zone_list zone_index in
  {| Variety.id := String.append "CROP_" (format_03d i);
     Variety.name := String.append "Crop " (str_of_nat i);
     Variety.category := "crops";
     Variety.zones := [assigned_zone];
     Variety.carbon_potential := 1.0 + num (i mod 10) * 0.2;
     Variety.market_value := item ["Good"; "High"; "Premium"] (i mod 3);
     Variety.ph_tolerance := (5.5 + num (i mod 4) * 0.5, 7.5 + num (i mod 4) * 0.5);
     Variety.rainfall_range :=
       (300 + num (i mod 12) * 100, 1000 + num (i mod 12) * 100);
     Variety.temp_range := (18 + num (i mod 6) * 2, 32 + num (i mod 6) * 2);
     Variety.water_requirement := item ["Low"; "Medium"; "High"] (i mod 3);
     Variety.soil_preference :=
       item ["Alluvial"; "Red lateritic"; "Black cotton"] (i mod 3);
     Variety.climate_suitability := item ["Semi-arid"; "Sub-humid"; "Humid"] (i mod 3);
     Variety.characteristics := "";
     Variety.special_features := "" |}.

Definition _initialize_complete_database : Database :=
  let zone_list := map fst _initialize_complete_zone_mappings in
  {| rice_varieties := rice_specific ++ map (generated_rice zone_list) (range 6 52);
     agroforestry_species :=
       agro_specific ++ map (generated_agroforestry zone_list) (range 6 54);
     crop_varieties := crop_specific ++ map (generated_crop zone_list) (range 6 44) |}.

(** [__init__]. *)
Definition init : Engine := {|
  database := _initialize_complete_database;
  zone_mappings := _initialize_complete_zone_mappings;
  recommendation_rules := _initialize_enhanced_rules
|}.

Definition get_all_varieties (self : Engine) : list Variety.t :=
  rice_varieties (database self)
  ++ agroforestry_species (database self)
  ++ crop_varieties (database self).

Section ZoneDetection.

(** [x ** 0.5]. *)
Variable sqrt : Q -> Q.

Definition best_match_step (lat lon : Q) (st : option string * Q)
  (entry : string * Zone.t) : option string * Q :=
  let '(best_match, best_score) := st in
  let '(zone_id, zone_info) := entry in
  let '(lat_min, lat_max) := Zone.lat_range zone_info in
  let '(lon_min, lon_max) := Zone.lon_range zone_info in
  if (lat_min <=? lat) && (lat <=? lat_max) && ((lon_min <=? lon) && (lon <=? lon_max))
  then
    let lat_center := (lat_min + lat_max) / 2 in
    let lon_center := (lon_min + lon_max) / 2 in
    let distance := sqrt ((lat - lat_center) ^ 2 + (lon - lon_center) ^ 2) in
    let score := 1.0 / (1.0 + distance) in
    if score >? best_score then (Some zone_id, score) else (best_match, best_score)
  else (best_match, best_score).

Definition closest_zone_step (lat lon : Q) (st : option Q * option string)
  (entry : string * Zone.t) : option Q * option string :=
  let '(min_distance, closest_zone) := st in
  let '(zone_id, zone_info) := entry in
  let '(lat_min, lat_max) := Zone.lat_range zone_info in
  let '(lon_min, lon_max) := Zone.lon_range zone_info in
  let lat_center := (lat_min + lat_max) / 2 in
  let lon_center := (lon_min + lon_max) / 2 in
  let distance := sqrt ((lat - lat_center) ^ 2 + (lon - lon_center) ^ 2) in
  if match min_distance with
     | None => true
     | Some m => distance <? m
     end
  then (Some distance, Some zone_id)
  else (min_distance, closest_zone).

Definition detect_zone_from_coordinates (self : Engine) (lat lon : Q) : string :=
  let '(best_match, best_score) :=
    fold_left (best_match_step lat lon) (zone_mappings self) (None, 0) in
  if truthy best_match
  then match best_match with Some z => z | None => EmptyString end
  else
    let '(min_distance, closest_zone) :=
      fold_left (closest_zone_step lat lon) (zone_mappings self) (None, None) in
    if truthy closest_zone
    then match closest_zone with Some z => z | None => EmptyString end
    else "Zone_10_Southern_Plateau".

End ZoneDetection.

End V1.

(* ================================================================== *)
(** * Engine v2 *)

(** Input frames, one record per row. *)
Module Weather.
Record date_t : Type := { year : Z; month : Z; day : Z }.
Record row : Type := {
  farm_id : string;
  lat : Q;
  lon : Q;
  date : date_t;
  precip : Q;
  temp : Q;
  temp_max : Q;
  temp_min : Q;
  humidity : Q
}.
End Weather.

Module Satellite.
Record row : Type := {
  farm_id : string;
  data_type : string;
  NDVI : Q;
  EVI : Q;
  LAI : Q
}.
End Satellite.

(** A raw soil reading: the source tests it with [pd.isna]. *)
Inductive reading : Type :=
| NaN
| Num (q : Q).

(** A soil row; a field is [None] when the frame lacks that column. *)
Module Soil.
Record row : Type := {
  farm_id : string;
  phh2o_avg : option reading;
  clay_pct_avg : option Q;
  sand_pct_avg : option Q;
  silt_pct_avg : option Q;
  soc_avg : option Q;
  cec_avg : option Q;
  texture : option string;
  nutrient_status : option string
}.
End Soil.

(** One entry of a per-category recommendation list. *)
Module Recommendation.
Record t : Type := {
  variety_id : string;
  variety_name : string;
  category : string;
  suitability_score : Q;
  carbon_potential : Q;
  market_value : string;
  confidence_level : Q;
  zones : list string;
  climate_suitability : string;
  water_requirement : string;
  soil_preference : string;
  characteristics : string;
  special_features : string
}.
End Recommendation.

(** The [recommendations] dict: its three keys. *)
Record Recommendations : Type := {
  rice : list Recommendation.t;
  agroforestry : list Recommendation.t;
  crops : list Recommendation.t
}.

(** The dict returned by [generate_recommendations]; the profile stands
    for its [str], and the UUID, the timestamp and the constant
    [farming_scenario] are left out. *)
Module Analysis.
Record t : Type := {
  farm_profile : EnhancedFarmProfile;
  detected_zone : string;
  zone_characteristics : Zone.characteristics_t;
  recommendations : Recommendations;
  total_varieties_evaluated : nat;
  suitable_varieties_found : nat;
  realistic_carbon_potential : Q;
  estimated_annual_credits : Q;
  estimated_revenue : Q
}.
End Analysis.

(** One value of the batch result. *)
Module BatchEntry.
Record t : Type := {
  recommendations : Analysis.t;
  filename : string
}.
End BatchEntry.

(** [d.get(k)] and [d[k] = v] on a dict kept in insertion order. *)
Fixpoint dict_get {V : Type} (d : list (string * V)) (k : string) : option V :=
  match d with
  | [] => None
  | (k', v) :: rest => if String.eqb k' k then Some v else dict_get rest k
  end.

Fixpoint dict_set {V : Type} (d : list (string * V)) (k : string) (v : V)
  : list (string * V) :=
  match d with
  | [] => [(k, v)]
  | (k', v') :: rest =>
      if String.eqb k' k then (k, v) :: rest else (k', v') :: dict_set rest k v
  end.

(** A row of one of the three variety CSV files.  A field is [None]
    when the frame has no such column (for [carbon_potential], also when
    the cell is not a number); text cells are strings. *)
Module CatalogRow.
Record t : Type := {
  zone : option string;
  variety_name : option string;
  crop_name : option string;
  species_name : option string;
  carbon_potential : option Q;
  characteristics : option string;
  soil_preference : option string;
  water_requirement : option string;
  type : option string;
  special_features : option string;
  economic_value : option string;
  category : option string;
  tree_type : option string
}.
End CatalogRow.

(** [row.get(column, default)] and [row[column]]. *)
Definition row_get (cell : option string) (default : string) : string :=
  match cell with
  | Some text => text
  | None => default
  end.

Definition row_item {A : Type} (column : string) (cell : option A) : outcome A :=
  match cell with
  | Some x => Returns x
  | None => Raises (KeyError column)
  end.

(** [d.get(k, default)] on a dict kept in insertion order. *)
Definition dict_get_default {V : Type} (d : list (string * V)) (k : string)
  (default : V) : V :=
  match dict_get d k with
  | Some v => v
  | None => default
  end.

Module V2.

Definition _initialize_complete_zone_mappings : list (string * Zone.t) :=
  [
  ("Zone_1_Western_Himalayan",
   {| Zone.name := "Western Himalayan Region";
      Zone.lat_range := (28, 37); Zone.lon_range := (74, 80);
      Zone.rainfall_range := (1000, 2500); Zone.temp_range := (5, 25);
      Zone.states := ["Jammu & Kashmir"; "Himachal Pradesh"; "Uttarakhand"];
      Zone.characteristics := {|
        Zone.climate_type := "Temperate to alpine";
        Zone.elevation := "High";
        Zone.major_crops := ["Apple"; "Rice"; "Wheat"; "Maize"] |} |});
  ("Zone_2_Eastern_Himalayan",
   {| Zone.name := "Eastern Himalayan Region";
      Zone.lat_range := (26, 30); Zone.lon_range := (88, 98);
      Zone.rainfall_range := (1500, 3000); Zone.temp_range := (8, 28);
      Zone.states := ["Sikkim"; "Darjeeling"; "Arunachal Pradesh"];
      Zone.characteristics := {|
        Zone.climate_type := "Humid temperate";
        Zone.elevation := "High";
        Zone.major_crops := ["Tea"; "Rice"; "Maize"; "Ginger"] |} |});
  ("Zone_3_Lower_Gangetic",
   {| Zone.name := "Lower Gangetic Plains Region";
      Zone.lat_range := (22, 26); Zone.lon_range := (86, 92);
      Zone.rainfall_range := (1200, 1800); Zone.temp_range := (15, 38);
      Zone.states := ["West Bengal"; "Bihar"];
      Zone.characteristics := {|
        Zone.climate_type := "Humid subtropical";
        Zone.elevation := "Low";
        Zone.major_crops := ["Rice"; "Jute"; "Sugarcane"; "Potato"] |} |});
  ("Zone_4_Middle_Gangetic",
   {| Zone.name := "Middle Gangetic Plains Region";
      Zone.lat_range := (24, 27); Zone.lon_range := (82, 88);
      Zone.rainfall_range := (1000, 1500); Zone.temp_range := (12, 40);
      Zone.states := ["Eastern UP"; "Bihar"];
      Zone.characteristics := {|
        Zone.climate_type := "Humid subtropical";
        Zone.elevation := "Low";
        Zone.major_crops := ["Rice"; "Wheat"; "Sugarcane"; "Maize"] |} |});
  ("Zone_5_Upper_Gangetic",
   {| Zone.name := "Upper Gangetic Plains Region";
      Zone.lat_range := (26, 31); Zone.lon_range := (77, 84);
      Zone.rainfall_range := (600, 1200); Zone.temp_range := (8, 42);
      Zone.states := ["Western UP"; "Uttarakhand"; "Delhi"];
      Zone.characteristics := {|
        Zone.climate_type := "Semi-arid to sub-humid";
        Zone.elevation := "Low";
        Zone.major_crops := ["Wheat"; "Rice"; "Sugarcane"; "Cotton"] |} |});
  ("Zone_6_Trans_Gangetic",
   {| Zone.name := "Trans-Gangetic Plains Region";
      Zone.lat_range := (28, 33); Zone.lon_range := (74, 78);
      Zone.rainfall_range := (300, 800); Zone.temp_range := (2, 45);
      Zone.states := ["Punjab"; "Haryana"; "Delhi"; "Rajasthan"];
      Zone.characteristics := {|
        Zone.climate_type := "Semi-arid";
        Zone.elevation := "Low";
        Zone.major_crops := ["Wheat"; "Rice"; "Cotton"; "Mustard"] |} |});
  ("Zone_7_Eastern_Plateau",
   {| Zone.name := "Eastern Plateau and Hills Region";
      Zone.lat_range := (21, 25); Zone.lon_range := (82, 88);
      Zone.rainfall_range := (1000, 1600); Zone.temp_range := (15, 40);
      Zone.states := ["Jharkhand"; "Chhattisgarh"; "Madhya Pradesh"; "Odisha"];
      Zone.characteristics := {|
        Zone.climate_type := "Sub-humid";
        Zone.elevation := "Medium";
        Zone.major_crops := ["Rice"; "Maize"; "Pulses"; "Millets"] |} |});
  ("Zone_8_Central_Plateau",
   {| Zone.name := "Central Plateau and Hills Region";
      Zone.lat_range := (21, 26); Zone.lon_range := (74, 82);
      Zone.rainfall_range := (800, 1400); Zone.temp_range := (12, 42);
      Zone.states := ["Madhya Pradesh"; "Rajasthan"; "Uttar Pradesh"];
      Zone.characteristics := {|
        Zone.climate_type := "Sub-humid to semi-arid";
        Zone.elevation := "Medium";
        Zone.major_crops := ["Soybean"; "Wheat"; "Cotton"; "Sugarcane"] |} |});
  ("Zone_9_Western_Plateau",
   {| Zone.name := "Western Plateau and Hills Region";
      Zone.lat_range := (17, 24); Zone.lon_range := (72, 77);
      Zone.rainfall_range := (500, 1200); Zone.temp_range := (15, 40);
      Zone.states := ["Maharashtra"; "Madhya Pradesh"; "Rajasthan"];
      Zone.characteristics := {|
        Zone.climate_type := "Semi-arid";
        Zone.elevation := "Medium";
        Zone.major_crops := ["Cotton"; "Sorghum"; "Sugarcane"; "Onion"] |} |});
  ("Zone_10_Southern_Plateau",
   {| Zone.name := "Southern Plateau and Hills Region";
      Zone.lat_range := (12, 20); Zone.lon_range := (74, 80);
      Zone.rainfall_range := (600, 1400); Zone.temp_range := (20, 35);
      Zone.states := ["Karnataka"; "Andhra Pradesh"; "Telangana"; "Tamil Nadu"];
      Zone.characteristics := {|
        Zone.climate_type := "Semi-arid to sub-humid";
        Zone.elevation := "Medium";
        Zone.major_crops := ["Rice"; "Cotton"; "Sugarcane"; "Groundnut"] |} |});
  ("Zone_11_East_Coast",
   {| Zone.name := "East Coast Plains and Hills Region";
      Zone.lat_range := (17, 22); Zone.lon_range := (82, 87);
      Zone.rainfall_range := (1000, 1400); Zone.temp_range := (22, 38);
      Zone.states := ["Odisha"; "Andhra Pradesh"; "Tamil Nadu"];
      Zone.characteristics := {|
        Zone.climate_type := "Sub-humid coastal";
        Zone.elevation := "Low";
        Zone.major_crops := ["Rice"; "Sugarcane"; "Coconut"; "Cashew"] |} |});
  ("Zone_12_West_Coast",
   {| Zone.name := "West Coast Plains and Ghats Region";
      Zone.lat_range := (8, 17); Zone.lon_range := (72, 77);
      Zone.rainfall_range := (2000, 4000); Zone.temp_range := (22, 32);
      Zone.states := ["Kerala"; "Karnataka"; "Goa"; "Maharashtra"];
      Zone.characteristics := {|
        Zone.climate_type := "Humid tropical";
        Zone.elevation := "Low";
        Zone.major_crops := ["Rice"; "Coconut"; "Spices"; "Rubber"] |} |});
  ("Zone_13_Gujarat",
   {| Zone.name := "Gujarat Plains and Hills Region";
      Zone.lat_range := (20, 25); Zone.lon_range := (68, 75);
      Zone.rainfall_range := (400, 1200); Zone.temp_range := (15, 42);
      Zone.states := ["Gujarat"; "Rajasthan"];
      Zone.characteristics := {|
        Zone.climate_type := "Semi-arid to arid";
        Zone.elevation := "Low to medium";
        Zone.major_crops := ["Cotton"; "Groundnut"; "Castor"; "Wheat"] |} |});
  ("Zone_14_Western_Dry",
   {| Zone.name := "Western Dry Region";
      Zone.lat_range := (24, 30); Zone.lon_range := (69, 76);
      Zone.rainfall_range := (100, 500); Zone.temp_range := (5, 48);
      Zone.states := ["Rajasthan"; "Gujarat"];
      Zone.characteristics := {|
        Zone.climate_type := "Arid to semi-arid";
        Zone.elevation := "Low";
        Zone.major_crops := ["Pearl Millet"; "Cluster Bean"; "Moth Bean"; "Sesame"] |} |});
  ("Zone_15_Island",
   {| Zone.name := "Island Region";
      Zone.lat_range := (6, 14); Zone.lon_range := (71, 94);
      Zone.rainfall_range := (1500, 3500); Zone.temp_range := (24, 32);
      Zone.states := ["Andaman & Nicobar"; "Lakshadweep"];
      Zone.characteristics := {|
        Zone.climate_type := "Tropical maritime";
        Zone.elevation := "Low";
        Zone.major_crops := ["Coconut"; "Rice"; "Spices"; "Fruits"] |} |})
  ]%string.

Definition _initialize_enhanced_rules : Rules.t := {|
  Rules.zone_compatibility := {|
    Rules.exact_match := 0.50;
    Rules.adjacent_zone := 0.20;
    Rules.climate_similarity := 0.05 |};
  Rules.climate_compatibility := {|
    Rules.rainfall_match := 0.25;
    Rules.temperature_match := 0.20;
    Rules.humidity_tolerance := 0.10 |};
  Rules.soil_compatibility := {|
    Rules.ph_match := 0.25;
    Rules.texture_match := 0.15;
    Rules.nutrient_match := 0.10 |};
  Rules.vegetation_health := {|
    Rules.ndvi_bonus := 0.05;
    Rules.stress_penalty := 0.10 |};
  Rules.economic_factors := {|
    Rules.market_value := 0.05;
    Rules.carbon_potential := 0.10 |}
|}.

(** [__init__], with the catalog read from the CSV files as an argument. *)
Definition init (db : Database) : Engine := {|
  database := db;
  zone_mappings := _initialize_complete_zone_mappings;
  recommendation_rules := _initialize_enhanced_rules
|}.

(** The helpers and tables local to [_initialize_complete_database]. *)
Definition zone_mapping : list (string * string) :=
  [ ("Eastern_Himalayan", "Zone_2_Eastern_Himalayan");
    ("Lower_Gangetic_Plains", "Zone_3_Lower_Gangetic");
    ("Middle_Gangetic_Plains", "Zone_4_Middle_Gangetic");
    ("Upper_Gangetic_Plains", "Zone_5_Upper_Gangetic");
    ("Trans_Gangetic_Plains", "Zone_6_Trans_Gangetic");
    ("Eastern_Plateau_Hills", "Zone_7_Eastern_Plateau");
    ("Central_Plateau_Hills", "Zone_8_Central_Plateau");
    ("Western_Plateau_Hills", "Zone_9_Western_Plateau");
    ("Southern_Plateau_Hills", "Zone_10_Southern_Plateau");
    ("East_Coast_Plains_Hills", "Zone_11_East_Coast");
    ("West_Coast_Plains_Ghats", "Zone_12_West_Coast");
    ("Gujarat_Plains_Hills", "Zone_13_Gujarat");
    ("Western_Dry_Region", "Zone_14_Western_Dry");
    ("Islands_Region", "Zone_15_Island");
    ("Western_Himalayan", "Zone_1_Western_Himalayan") ].

Definition parse_water_requirement (req_str : string) : string :=
  let req_str := lower req_str in
  if str_contains "high" req_str || str_contains "1500" req_str
     || str_contains "2000" req_str || str_contains "5-6 irrigations" req_str
  then "High"
  else if str_contains "low" req_str || str_contains "250" req_str
          || str_contains "300" req_str || str_contains "1-2 irrigations" req_str
  then "Low"
  else "Medium".

Definition parse_ph_tolerance (soil_pref : string) : Q * Q :=
  let soil_pref := lower soil_pref in
  if str_contains "acidic" soil_pref then (5.5, 6.5)
  else if str_contains "alkaline" soil_pref || str_contains "saline" soil_pref
  then (7.5, 8.5)
  else if str_contains "neutral" soil_pref then (6.5, 7.5)
  else (6.0, 7.5).

Definition temp_ranges : list (string * (Q * Q)) :=
  [ ("Zone_1_Western_Himalayan", (5, 25));
    ("Zone_2_Eastern_Himalayan", (8, 28));
    ("Zone_3_Lower_Gangetic", (15, 38));
    ("Zone_4_Middle_Gangetic", (12, 40));
    ("Zone_5_Upper_Gangetic", (8, 42));
    ("Zone_6_Trans_Gangetic", (2, 45));
    ("Zone_7_Eastern_Plateau", (15, 40));
    ("Zone_8_Central_Plateau", (12, 42));
    ("Zone_9_Western_Plateau", (15, 40));
    ("Zone_10_Southern_Plateau", (20, 35));
    ("Zone_11_East_Coast", (22, 38));
    ("Zone_12_West_Coast", (22, 32));
    ("Zone_13_Gujarat", (15, 42));
    ("Zone_14_Western_Dry", (5, 48));
    ("Zone_15_Island", (24, 32)) ].

Definition parse_temp_range_from_zone (zone : string) : Q * Q :=
  dict_get_default temp_ranges zone (20, 35).

Definition rainfall_ranges : list (string * (Q * Q)) :=
  [ ("Zone_1_Western_Himalayan", (1000, 2500));
    ("Zone_2_Eastern_Himalayan", (1500, 3000));
    ("Zone_3_Lower_Gangetic", (1200, 1800));
    ("Zone_4_Middle_Gangetic", (1000, 1500));
    ("Zone_5_Upper_Gangetic", (600, 1200));
    ("Zone_6_Trans_Gangetic", (300, 800));
    ("Zone_7_Eastern_Plateau", (1000, 1600));
    ("Zone_8_Central_Plateau", (800, 1400));
    ("Zone_9_Western_Plateau", (500, 1200));
    ("Zone_10_Southern_Plateau", (600, 1400));
    ("Zone_11_East_Coast", (1000, 1400));
    ("Zone_12_West_Coast", (2000, 4000));
    ("Zone_13_Gujarat", (400, 1200));
    ("Zone_14_Western_Dry", (100, 500));
    ("Zone_15_Island", (1500, 3500)) ].

Definition parse_rainfall_range_from_zone (zone : string) : Q * Q :=
  dict_get_default rainfall_ranges zone (600, 1200).

(** The body of the [try] block of each of the three loops, for the row
    at position [idx]. *)
Definition rice_variety (idx : nat) (row : CatalogRow.t) : outcome Variety.t :=
  zone <- row_item "zone" (CatalogRow.zone row) ;;
  let mapped_zone := dict_get_default zone_mapping zone "Zone_10_Southern_Plateau" in
  let market_value :=
    if any_word_in ["premium"; "export"; "aromatic"; "basmati"]
         (lower (row_get (CatalogRow.characteristics row) ""))
    then "Premium" else "High" in
  variety_name <- row_item "variety_name" (CatalogRow.variety_name row) ;;
  carbon_potential <- row_item "carbon_potential" (CatalogRow.carbon_potential row) ;;
  Returns {|
    Variety.id := String.append "RICE_" (format_03d (idx + 1));
    Variety.name := variety_name;
    Variety.category := "rice";
    Variety.zones := [mapped_zone];
    Variety.carbon_potential := carbon_potential;
    Variety.market_value := market_value;
    Variety.ph_tolerance :=
      parse_ph_tolerance (row_get (CatalogRow.soil_preference row) "");
    Variety.rainfall_range := parse_rainfall_range_from_zone mapped_zone;
    Variety.temp_range := parse_temp_range_from_zone mapped_zone;
    Variety.water_requirement :=
      parse_water_requirement (row_get (CatalogRow.water_requirement row) "");
    Variety.soil_preference := row_get (CatalogRow.soil_preference row) "Alluvial";
    Variety.climate_suitability := row_get (CatalogRow.type row) "Various";
    Variety.characteristics := row_get (CatalogRow.characteristics row) "";
    Variety.special_features := row_get (CatalogRow.special_features row) ""
  |}.

Definition crop_variety (idx : nat) (row : CatalogRow.t) : outcome Variety.t :=
  zone <- row_item "zone" (CatalogRow.zone row) ;;
  let mapped_zone := dict_get_default zone_mapping zone "Zone_10_Southern_Plateau" in
  crop_name <- row_item "crop_name" (CatalogRow.crop_name row) ;;
  variety_name <- row_item "variety_name" (CatalogRow.variety_name row) ;;
  let variety_name := String.append crop_name (String.append " " variety_name) in
  let market_value :=
    if any_word_in ["premium"; "export"; "quality"]
         (lower (row_get (CatalogRow.characteristics row) ""))
    then "Premium" else "High" in
  carbon_potential <- row_item "carbon_potential" (CatalogRow.carbon_potential row) ;;
  Returns {|
    Variety.id := String.append "CROP_" (format_03d (idx + 1));
    Variety.name := variety_name;
    Variety.category := "crops";
    Variety.zones := [mapped_zone];
    Variety.carbon_potential := carbon_potential;
    Variety.market_value := market_value;
    Variety.ph_tolerance :=
      parse_ph_tolerance (row_get (CatalogRow.soil_preference row) "");
    Variety.rainfall_range := parse_rainfall_range_from_zone mapped_zone;
    Variety.temp_range := parse_temp_range_from_zone mapped_zone;
    Variety.water_requirement :=
      parse_water_requirement (row_get (CatalogRow.water_requirement row) "");
    Variety.soil_preference := row_get (CatalogRow.soil_preference row) "Various";
    Variety.climate_suitability := row_get (CatalogRow.type row) "Various";
    Variety.characteristics := row_get (CatalogRow.characteristics row) "";
    Variety.special_features := row_get (CatalogRow.special_features row) ""
  |}.

Definition agro_variety (idx : nat) (row : CatalogRow.t) : outcome Variety.t :=
  zone <- row_item "zone" (CatalogRow.zone row) ;;
  let mapped_zone := dict_get_default zone_mapping zone "Zone_10_Southern_Plateau" in
  species_name <- row_item "species_name" (CatalogRow.species_name row) ;;
  variety_name <- row_item "variety_name" (CatalogRow.variety_name row) ;;
  let variety_name := String.append species_name (String.append " " variety_name) in
  let economic_val := lower (row_get (CatalogRow.economic_value row) "") in
  let market_value :=
    if str_contains "premium" economic_val then "Premium"
    else if str_contains "high" economic_val then "High"
    else "Good" in
  carbon_potential <- row_item "carbon_potential" (CatalogRow.carbon_potential row) ;;
  Returns {|
    Variety.id := String.append "AGRO_" (format_03d (idx + 1));
    Variety.name := variety_name;
    Variety.category := "agroforestry";
    Variety.zones := [mapped_zone];
    Variety.carbon_potential := carbon_potential;
    Variety.market_value := market_value;
    Variety.ph_tolerance := (6.0, 8.0);
    Variety.rainfall_range := parse_rainfall_range_from_zone mapped_zone;
    Variety.temp_range := parse_temp_range_from_zone mapped_zone;
    Variety.water_requirement := "Medium";
    Variety.soil_preference := row_get (CatalogRow.category row) "Various";
    Variety.climate_suitability := row_get (CatalogRow.tree_type row) "Various";
    Variety.characteristics := row_get (CatalogRow.economic_value row) "";
    Variety.special_features := row_get (CatalogRow.special_features row) ""
  |}.

(** [for idx, row in df.iterrows(): try: ... append ... except: continue],
    the rows being numbered from [idx]. *)
Fixpoint load_rows (build : nat -> CatalogRow.t -> outcome Variety.t) (idx : nat)
  (rows : list CatalogRow.t) : list Variety.t :=
  match rows with
  | [] => []
  | row :: rest =>
      match build idx row with
      | Returns variety => variety :: load_rows build (S idx) rest
      | Raises _ => load_rows build (S idx) rest
      end
  end.

(** [_initialize_complete_database] once the three CSV files are read;
    the fallback taken when a file is missing is not part of the model. *)
Definition _initialize_complete_database
  (rice_df crops_df agro_df : list CatalogRow.t) : Database := {|
  rice_varieties := load_rows rice_variety 0 rice_df;
  agroforestry_species := load_rows agro_variety 0 agro_df;
  crop_varieties := load_rows crop_variety 0 crops_df
|}.

Definition get_all_varieties (self : Engine) : list Variety.t :=
  rice_varieties (database self)
  ++ agroforestry_species (database self)
  ++ crop_varieties (database self).

Section ZoneDetection.

(** [x ** 0.5]. *)
Variable sqrt : Q -> Q.

(** The first loop of [detect_zone_from_coordinates]: one iteration on
    the pair [(best_match, best_score)].  The divisor [1.0 + distance] is
    at least 1 for a square root, so the division cannot raise. *)
Definition best_match_step (lat lon : Q) (st : option string * Q)
  (item : string * Zone.t) : option string * Q :=
  let '(best_match, best_score) := st in
  let '(zone_id, zone_info) := item in
  let '(lat_min, lat_max) := Zone.lat_range zone_info in
  let '(lon_min, lon_max) := Zone.lon_range zone_info in
  if (lat_min <=? lat) && (lat <=? lat_max) && ((lon_min <=? lon) && (lon <=? lon_max))
  then
    let lat_center := (lat_min + lat_max) / 2 in
    let lon_center := (lon_min + lon_max) / 2 in
    let distance := sqrt ((lat - lat_center) ^ 2 + (lon - lon_center) ^ 2) in
    let score := 1.0 / (1.0 + distance) in
    if score >? best_score then (Some zone_id, score) else (best_match, best_score)
  else (best_match, best_score).

(** The second loop: one iteration on [(min_distance, closest_zone)];
    [min_distance] is [None] while it is [float('inf')]. *)
Definition closest_zone_step (lat lon : Q) (st : option Q * option string)
  (item : string * Zone.t) : option Q * option string :=
  let '(min_distance, closest_zone) := st in
  let '(zone_id, zone_info) := item in
  let '(lat_min, lat_max) := Zone.lat_range zone_info in
  let '(lon_min, lon_max) := Zone.lon_range zone_info in
  let lat_center := (lat_min + lat_max) / 2 in
  let lon_center := (lon_min + lon_max) / 2 in
  let distance := sqrt ((lat - lat_center) ^ 2 + (lon - lon_center) ^ 2) in
  if match min_distance with
     | None => true
     | Some m => distance <? m
     end
  then (Some distance, Some zone_id)
  else (min_distance, closest_zone).

Definition detect_zone_from_coordinates (self : Engine) (lat lon : Q) : string :=
  let '(best_match, best_score) :=
    fold_left (best_match_step lat lon) (zone_mappings self) (None, 0) in
  if truthy best_match
  then match best_match with Some z => z | None => EmptyString end
  else
    let '(min_distance, closest_zone) :=
      fold_left (closest_zone_step lat lon) (zone_mappings self) (None, None) in
    if truthy closest_zone
    then match closest_zone with Some z => z | None => EmptyString end
    else "Zone_10_Southern_Plateau"%string.

End ZoneDetection.

Section Location.

Variable sqrt : Q -> Q.

(** The first value of a dict keyed by boxes
    [(lat_min, lat_max, lon_min, lon_max)] whose box contains the point. *)
Fixpoint first_box_match (table : list (Q * Q * Q * Q * string)) (lat lon : Q)
  : option string :=
  match table with
  | [] => None
  | (lat_min, lat_max, lon_min, lon_max, value) :: rest =>
      if (lat_min <=? lat) && (lat <=? lat_max)
         && ((lon_min <=? lon) && (lon <=? lon_max))
      then Some value
      else first_box_match rest lat lon
  end.

Definition coordinate_to_state : list (Q * Q * Q * Q * string) :=
  [ (10.0, 13.5, 77.0, 80.5, "Tamil Nadu");
    (11.5, 18.5, 74.0, 78.5, "Karnataka");
    (13.5, 19.5, 77.0, 84.5, "Andhra Pradesh");
    (8.0, 12.8, 74.8, 77.5, "Kerala") ].

Definition _get_state_from_coordinates (self : Engine) (lat lon : Q) : string :=
  let detected_zone := detect_zone_from_coordinates sqrt self lat lon in
  let states :=
    match dict_get (zone_mappings self) detected_zone with
    | Some zone_info => Zone.states zone_info
    | None => ["Unknown"]
    end in
  match first_box_match coordinate_to_state lat lon with
  | Some state => state
  | None =>
      match states with
      | first_state :: _ => first_state
      | [] => "Unknown"
      end
  end.

Definition district_mappings : list (Q * Q * Q * Q * string) :=
  [ (10.0, 10.1, 78.0, 78.2, "Sivaganga");
    (13.0, 13.1, 79.6, 79.8, "Sivaganga");
    (13.0, 13.5, 79.5, 80.0, "Sivaganga");
    (14.6, 14.8, 77.5, 77.7, "Anantapur");
    (12.9, 13.0, 77.5, 77.7, "Bangalore Urban");
    (15.8, 16.0, 74.4, 74.6, "Belgaum") ].

Definition zone_defaults : list (string * string) :=
  [ ("Zone_10_Southern_Plateau", "Bangalore Rural");
    ("Zone_11_East_Coast", "Krishna");
    ("Zone_12_West_Coast", "Dakshina Kannada") ].

Definition _get_district_from_coordinates (self : Engine) (lat lon : Q) : string :=
  match first_box_match district_mappings lat lon with
  | Some district => district
  | None =>
      let detected_zone := detect_zone_from_coordinates sqrt self lat lon in
      match dict_get zone_defaults detected_zone with
      | Some district => district
      | None => "Unknown"
      end
  end.

End Location.

Definition _fix_soil_ph_value (raw_ph_value : reading) : Q :=
  match raw_ph_value with
  | NaN => 7.0
  | Num raw =>
      if raw <=? 0 then 7.0
      else if raw >? 14 then
        if raw >? 100 then raw / 100 else raw / 10
      else raw
  end.

Definition _classify_ph_status (ph : Q) : string :=
  if ph <? 5.5 then "Very Acidic"
  else if ph <? 6.0 then "Acidic"
  else if ph <? 6.8 then "Slightly Acidic"
  else if ph <=? 7.2 then "Neutral"
  else if ph <=? 7.8 then "Slightly Alkaline"
  else if ph <=? 8.5 then "Alkaline"
  else "Very Alkaline".

Section Pipeline.

Variable sqrt : Q -> Q.

(** [Series.std()]: the sample standard deviation, NaN below two rows. *)
Definition std (xs : list Q) : option Q :=
  match xs with
  | [] | [_] => None
  | _ =>
      let m := mean xs in
      Some (sqrt (Qsum (map (fun x => (x - m) ^ 2) xs)
                  / inject_Z (Z.of_nat (List.length xs) - 1)))
  end.

Definition count {A : Type} (p : A -> bool) (xs : list A) : Z :=
  Z.of_nat (List.length (filter p xs)).

(** The calls to [_get_state_from_coordinates] and
    [_get_district_from_coordinates] only feed a log line and are left
    out; the handler around the body logs and re-raises. *)
Definition create_farm_profile_from_data (self : Engine)
  (weather_df : list Weather.row) (satellite_df : list Satellite.row)
  (soil_df : list Soil.row) (farm_id : string) : outcome EnhancedFarmProfile :=
  let farm_weather :=
    filter (fun r => String.eqb (Weather.farm_id r) farm_id) weather_df in
  match farm_weather with
  | [] => Raises (ValueError (String.append "No weather data found for farm " farm_id))
  | first_row :: _ =>
    let lat := Weather.lat first_row in
    let lon := Weather.lon first_row in
    let detected_zone := detect_zone_from_coordinates sqrt self lat lon in
    (* Weather analysis *)
    let total_rainfall := Qsum (map Weather.precip farm_weather) in
    let rainy_days := count (fun r => Weather.precip r >? 0) farm_weather in
    let avg_temp := mean (map Weather.temp farm_weather) in
    let avg_humidity := mean (map Weather.humidity farm_weather) in
    let month r := Weather.month (Weather.date r) in
    let kharif_months := [6; 7; 8; 9; 10]%Z in
    let rabi_months := [11; 12; 1; 2; 3]%Z in
    let kharif_rainfall :=
      Qsum (map Weather.precip
              (filter (fun r => existsb (Z.eqb (month r)) kharif_months) farm_weather)) in
    let rabi_rainfall :=
      Qsum (map Weather.precip
              (filter (fun r => existsb (Z.eqb (month r)) rabi_months) farm_weather)) in
    let heat_stress_days := count (fun r => Weather.temp_max r >? 35) farm_weather in
    let drought_stress_days := count (fun r => Qeq_bool (Weather.precip r) 0) farm_weather in
    let temp_variability := std (map Weather.temp farm_weather) in
    let recent_data := tail_rows 30 farm_weather in
    let recent_rainfall := Qsum (map Weather.precip recent_data) in
    let recent_avg_temp := mean (map Weather.temp recent_data) in
    let recent_avg_humidity := mean (map Weather.humidity recent_data) in
    (* Satellite data analysis *)
    let farm_satellite :=
      filter (fun r => String.eqb (Satellite.farm_id r) farm_id
                       && String.eqb (Satellite.data_type r) "vegetation")
             satellite_df in
    let '(ndvi_mean, evi_mean, lai_mean) :=
      match farm_satellite with
      | _ :: _ =>
          let farm_satellite_clean :=
            filter (fun r => Satellite.NDVI r <? 1.0) farm_satellite in
          ((if (0 <? List.length farm_satellite_clean)%nat
            then mean (map Satellite.NDVI farm_satellite_clean) else 0.2),
           (if (0 <? List.length farm_satellite_clean)%nat
            then mean (map Satellite.EVI farm_satellite_clean) else 0.2),
           (if (0 <? List.length farm_satellite_clean)%nat
            then mean (map Satellite.LAI farm_satellite_clean) else 0.5))
      | [] => (0.2, 0.2, 0.5)
      end in
    let vegetation_health :=
      if ndvi_mean >? 0.6 then "Excellent"
      else if ndvi_mean >? 0.4 then "Good"
      else if ndvi_mean >? 0.2 then "Fair"
      else "Poor" in
    (* Soil data analysis *)
    let farm_soil :=
      filter (fun r => String.eqb (Soil.farm_id r) farm_id) soil_df in
    let col {A : Type} (c : option A) (d : A) : A :=
      match c with Some x => x | None => d end in
    let '(soil_ph_avg, ph_status, clay_pct_avg, sand_pct_avg, silt_pct_avg,
          soc_avg, cec_avg, texture, nutrient_status) :=
      match farm_soil with
      | soil_row :: _ =>
          let raw_ph := col (Soil.phh2o_avg soil_row) (Num 70.0) in
          let soil_ph_avg := _fix_soil_ph_value raw_ph in
          let ph_status := _classify_ph_status soil_ph_avg in
          (soil_ph_avg, ph_status,
           col (Soil.clay_pct_avg soil_row) 30.0,
           col (Soil.sand_pct_avg soil_row) 40.0,
           col (Soil.silt_pct_avg soil_row) 30.0,
           col (Soil.soc_avg soil_row) 1.5,
           col (Soil.cec_avg soil_row) 15.0,
           col (Soil.texture soil_row) "Loam",
           col (Soil.nutrient_status soil_row) "Moderate")
      | [] =>
          (7.0, "Neutral", 30.0, 40.0, 30.0, 1.5, 15.0, "Loam", "Moderate")
      end in
    Returns {|
      farm_id := farm_id;
      lat := lat;
      lon := lon;
      total_rainfall := total_rainfall;
      rainy_days := rainy_days;
      avg_temp := avg_temp;
      avg_humidity := avg_humidity;
      kharif_rainfall := kharif_rainfall;
      rabi_rainfall := rabi_rainfall;
      ndvi_mean := ndvi_mean;
      evi_mean := evi_mean;
      lai_mean := lai_mean;
      vegetation_health := vegetation_health;
      soil_ph_avg := soil_ph_avg;
      clay_pct_avg := clay_pct_avg;
      sand_pct_avg := sand_pct_avg;
      silt_pct_avg := silt_pct_avg;
      soc_avg := soc_avg;
      cec_avg := cec_avg;
      texture := texture;
      nutrient_status := nutrient_status;
      ph_status := ph_status;
      heat_stress_days := heat_stress_days;
      drought_stress_days := drought_stress_days;
      temp_variability := temp_variability;
      recent_rainfall := recent_rainfall;
      recent_avg_temp := recent_avg_temp;
      recent_avg_humidity := recent_avg_humidity;
      detected_zone := detected_zone
    |}
  end.

End Pipeline.

(** The body sits in [try: ... except Exception: return 0.0]. *)
Definition calculate_enhanced_suitability_score
  (self : Engine) (farm_profile : EnhancedFarmProfile) (variety : Variety.t) : Q :=
  try_except
    (let rules := recommendation_rules self in
     let total_score := 0.0 in
     (* Zone compatibility (50% weight) *)
     let zone_score :=
       if str_in (detected_zone farm_profile) (Variety.zones variety)
       then Rules.exact_match (Rules.zone_compatibility rules)
       else Rules.climate_similarity (Rules.zone_compatibility rules) in
     let total_score := total_score + zone_score in
     (* Climate compatibility (35% weight) *)
     let climate_score := 0.0 in
     let rainfall_range := Variety.rainfall_range variety in
     let farm_rainfall := total_rainfall farm_profile in
     rainfall_match <-
       (if (fst rainfall_range <=? farm_rainfall) && (farm_rainfall <=? snd rainfall_range)
        then Returns 1.0
        else
          distance <-
            (if farm_rainfall <? fst rainfall_range
             then truediv (fst rainfall_range - farm_rainfall) (fst rainfall_range)
             else truediv (farm_rainfall - snd rainfall_range) (snd rainfall_range)) ;;
          Returns (py_max 0 (1.0 - distance))) ;;
     let climate_score :=
       climate_score
       + rainfall_match * Rules.rainfall_match (Rules.climate_compatibility rules) in
     let temp_range := Variety.temp_range variety in
     let farm_temp := avg_temp farm_profile in
     temp_match <-
       (if (fst temp_range <=? farm_temp) && (farm_temp <=? snd temp_range)
        then Returns 1.0
        else
          distance <-
            (if farm_temp <? fst temp_range
             then truediv (fst temp_range - farm_temp) (fst temp_range)
             else truediv (farm_temp - snd temp_range) (snd temp_range)) ;;
          Returns (py_max 0 (1.0 - distance))) ;;
     let climate_score :=
       climate_score
       + temp_match * Rules.temperature_match (Rules.climate_compatibility rules) in
     let total_score := total_score + climate_score in
     (* Soil compatibility (25% weight), on the corrected pH *)
     let soil_score := 0.0 in
     let ph_range := Variety.ph_tolerance variety in
     let farm_ph := soil_ph_avg farm_profile in
     ph_match <-
       (if (fst ph_range <=? farm_ph) && (farm_ph <=? snd ph_range)
        then Returns 1.0
        else
          distance <-
            (if farm_ph <? fst ph_range
             then truediv (fst ph_range - farm_ph) (fst ph_range)
             else truediv (farm_ph - snd ph_range) (snd ph_range)) ;;
          Returns (py_max 0 (1.0 - distance * 2))) ;;
     let soil_score :=
       soil_score + ph_match * Rules.ph_match (Rules.soil_compatibility rules) in
     let soil_score :=
       if str_contains (Variety.soil_preference variety) (texture farm_profile)
       then soil_score + Rules.texture_match (Rules.soil_compatibility rules)
       else soil_score in
     let soil_score :=
       if str_in (nutrient_status farm_profile) ["Good"; "Excellent"]
          && String.eqb (Variety.market_value variety) "Premium"
       then soil_score + Rules.nutrient_match (Rules.soil_compatibility rules)
       else soil_score in
     let total_score := total_score + soil_score in
     (* Vegetation health factors *)
     let total_score :=
       if str_in (vegetation_health farm_profile) ["Good"; "Excellent"]
       then total_score + Rules.ndvi_bonus (Rules.vegetation_health rules)
       else total_score in
     (* Stress penalties *)
     let total_score :=
       if (heat_stress_days farm_profile >? 60)%Z
          || (drought_stress_days farm_profile >? 180)%Z
       then total_score - Rules.stress_penalty (Rules.vegetation_health rules)
       else total_score in
     (* Economic factors *)
     let total_score :=
       if String.eqb (Variety.market_value variety) "Premium"
       then total_score + Rules.market_value (Rules.economic_factors rules)
       else total_score in
     let total_score :=
       if Variety.carbon_potential variety >? 5.0
       then total_score + Rules.carbon_potential (Rules.economic_factors rules)
       else total_score in
     Returns (py_max 0.0 (py_min 1.0 total_score)))
    0.0.

(** Returns [(realistic_carbon, estimated_credits, estimated_revenue)];
    nothing in the body can raise on these records. *)
Definition _calculate_realistic_carbon_potential (recommendations : Recommendations)
  : Q * Q * Q :=
  let realistic_carbon := 0.0 in
  (* Primary rice variety (40% coverage) *)
  let realistic_carbon :=
    match rice recommendations with
    | top_rice :: _ =>
        realistic_carbon + Recommendation.carbon_potential top_rice * 0.4
    | [] => realistic_carbon
    end in
  (* Primary crop variety (30% coverage) *)
  let realistic_carbon :=
    match crops recommendations with
    | top_crop :: _ =>
        realistic_carbon + Recommendation.carbon_potential top_crop * 0.3
    | [] => realistic_carbon
    end in
  (* Secondary crop variety (20% coverage) if available *)
  let realistic_carbon :=
    if (1 <? List.length (crops recommendations))%nat
    then match nth_error (crops recommendations) 1 with
         | Some second_crop =>
             realistic_carbon + Recommendation.carbon_potential second_crop * 0.2
         | None => realistic_carbon
         end
    else realistic_carbon in
  (* Agroforestry (10% coverage as boundary planting) *)
  let realistic_carbon :=
    match agroforestry recommendations with
    | top_agro :: _ =>
        realistic_carbon + Recommendation.carbon_potential top_agro * 0.1
    | [] => realistic_carbon
    end in
  let estimated_credits := realistic_carbon * 0.85 in
  let estimated_revenue := estimated_credits * 25.0 in
  (realistic_carbon, estimated_credits, estimated_revenue).

(** The inner loop of [generate_recommendations] over one category:
    the entries appended to [category_recommendations], in catalog
    order. *)
Definition category_recommendations (self : Engine)
  (farm_profile : EnhancedFarmProfile) (category_name : string)
  (varieties : list Variety.t) : list Recommendation.t :=
  flat_map
    (fun variety =>
       let suitability_score :=
         calculate_enhanced_suitability_score self farm_profile variety in
       let confidence_level := suitability_score * 0.85 in
       if suitability_score >=? 0.70
       then [ {| Recommendation.variety_id := Variety.id variety;
                 Recommendation.variety_name := Variety.name variety;
                 Recommendation.category := category_name;
                 Recommendation.suitability_score := py_round suitability_score 3;
                 Recommendation.carbon_potential := Variety.carbon_potential variety;
                 Recommendation.market_value := Variety.market_value variety;
                 Recommendation.confidence_level := py_round confidence_level 4;
                 Recommendation.zones := Variety.zones variety;
                 Recommendation.climate_suitability := Variety.climate_suitability variety;
                 Recommendation.water_requirement := Variety.water_requirement variety;
                 Recommendation.soil_preference := Variety.soil_preference variety;
                 Recommendation.characteristics := Variety.characteristics variety;
                 Recommendation.special_features := Variety.special_features variety |} ]
       else [])
    varieties.

(** Sort by the stored score, best first, and take the top N. *)
Definition top_recommendations (top_n : Z) (category_recommendations : list Recommendation.t)
  : list Recommendation.t :=
  slice_to (sort_desc Recommendation.suitability_score category_recommendations) top_n.

(** The lookup of the detected zone in [self.zone_mappings] raises
    [KeyError] on an unknown zone, after the lists are built. *)
Definition generate_recommendations (self : Engine)
  (farm_profile : EnhancedFarmProfile) (top_n : Z) : outcome Analysis.t :=
  let all_varieties := get_all_varieties self in
  let rice_recs :=
    category_recommendations self farm_profile "rice"
      (rice_varieties (database self)) in
  let agro_recs :=
    category_recommendations self farm_profile "agroforestry"
      (agroforestry_species (database self)) in
  let crop_recs :=
    category_recommendations self farm_profile "crops"
      (crop_varieties (database self)) in
  let suitable_varieties := rice_recs ++ agro_recs ++ crop_recs in
  let recommendations := {|
    rice := top_recommendations top_n rice_recs;
    agroforestry := top_recommendations top_n agro_recs;
    crops := top_recommendations top_n crop_recs |} in
  let '(realistic_carbon, realistic_credits, realistic_revenue) :=
    _calculate_realistic_carbon_potential recommendations in
  match dict_get (zone_mappings self) (detected_zone farm_profile) with
  | None => Raises (KeyError (detected_zone farm_profile))
  | Some zone_info =>
      Returns {|
        Analysis.farm_profile := farm_profile;
        Analysis.detected_zone := detected_zone farm_profile;
        Analysis.zone_characteristics := Zone.characteristics zone_info;
        Analysis.recommendations := recommendations;
        Analysis.total_varieties_evaluated := List.length all_varieties;
        Analysis.suitable_varieties_found := List.length suitable_varieties;
        Analysis.realistic_carbon_potential := py_round realistic_carbon 2;
        Analysis.estimated_annual_credits := py_round realistic_credits 2;
        Analysis.estimated_revenue := py_round realistic_revenue 2
      |}
  end.

Section Batch.

Variable sqrt : Q -> Q.

(** [save_recommendations_as_json]: writes one farm's file and returns
    its name, or raises. *)
Variable save_recommendations_as_json : Analysis.t -> outcome string.

(** The write of the combined JSON file at the end of the batch. *)
Variable dump_combined_results : list (string * BatchEntry.t) -> outcome unit.

(** The body of the per-farm [try] block. *)
Definition analyze_farm (self : Engine) (weather_df : list Weather.row)
  (satellite_df : list Satellite.row) (soil_df : list Soil.row)
  (farm_id : string) : outcome BatchEntry.t :=
  farm_profile <-
    create_farm_profile_from_data sqrt self weather_df satellite_df soil_df farm_id ;;
  recommendations <- generate_recommendations self farm_profile 5 ;;
  filename <- save_recommendations_as_json recommendations ;;
  Returns {| BatchEntry.recommendations := recommendations;
             BatchEntry.filename := filename |}.

(** [for farm_id in farm_ids: try: ... except Exception: continue],
    started on [all_results]. *)
Definition analyze_farm_ids (self : Engine) (weather_df : list Weather.row)
  (satellite_df : list Satellite.row) (soil_df : list Soil.row)
  (farm_ids : list string) (all_results : list (string * BatchEntry.t))
  : list (string * BatchEntry.t) :=
  fold_left
    (fun all_results farm_id =>
       match analyze_farm self weather_df satellite_df soil_df farm_id with
       | Returns entry => dict_set all_results farm_id entry
       | Raises _ => all_results
       end)
    farm_ids all_results.

Definition analyze_all_farms (self : Engine) (weather_df : list Weather.row)
  (satellite_df : list Satellite.row) (soil_df : list Soil.row)
  : outcome (list (string * BatchEntry.t)) :=
  let farm_ids := unique (map Weather.farm_id weather_df) in
  let all_results :=
    analyze_farm_ids self weather_df satellite_df soil_df farm_ids [] in
  _ <- dump_combined_results all_results ;;
  Returns all_results.

End Batch.

End V2.

(* ================================================================== *)
(** * Notions used to state the properties *)

(** The center of a zone's bounding box, as both loops of
    [detect_zone_from_coordinates] compute it. *)
Definition box_center (z : Zone.t) : Q * Q :=
  ((fst (Zone.lat_range z) + snd (Zone.lat_range z)) / 2,
   (fst (Zone.lon_range z) + snd (Zone.lon_range z)) / 2).

(** The containment test of the first loop. *)
Definition in_box (z : Zone.t) (lat lon : Q) : bool :=
  (fst (Zone.lat_range z) <=? lat) && (lat <=? snd (Zone.lat_range z))
  && ((fst (Zone.lon_range z) <=? lon) && (lon <=? snd (Zone.lon_range z))).

(** The squared distance from a point to the center of a zone. *)
Definition sq_distance (z : Zone.t) (lat lon : Q) : Q :=
  (lat - fst (box_center z)) ^ 2 + (lon - snd (box_center z)) ^ 2.

(** A zone is found at its own center when its box is not inverted, its
    id is not the empty string, and no zone earlier in the catalog both
    contains that center and has the same center. *)
Definition center_ok (earlier : list (string * Zone.t)) (item : string * Zone.t)
  : bool :=
  let z := snd item in
  let '(clat, clon) := box_center z in
  negb (String.eqb (fst item) "")
  && (fst (Zone.lat_range z) <=? snd (Zone.lat_range z))
  && (fst (Zone.lon_range z) <=? snd (Zone.lon_range z))
  && forallb (fun other =>
                negb (in_box (snd other) clat clon)
                || (sq_distance (snd other) clat clon >? 0))
             earlier.

Fixpoint centers_ok (earlier rest : list (string * Zone.t)) : bool :=
  match rest with
  | [] => true
  | item :: later =>
      center_ok earlier item && centers_ok (earlier ++ [item]) later
  end.

(** The score the first loop gives a zone that contains the point, and
    the distance the second loop measures. *)
Definition box_score (sqrt : Q -> Q) (z : Zone.t) (lat lon : Q) : Q :=
  1.0 / (1.0 + sqrt (sq_distance z lat lon)).

Definition center_distance (sqrt : Q -> Q) (z : Zone.t) (lat lon : Q) : Q :=
  sqrt (sq_distance z lat lon).


(** The carbon potential of the entry at rank [i], 0 when there is none. *)
Definition carbon_at (l : list Recommendation.t) (i : nat) : Q :=
  match nth_error l i with
  | Some r => Recommendation.carbon_potential r
  | None => 0
  end.

(** The entries of a list whose stored score equals [s]. *)
Definition with_score (s : Q) (l : list Recommendation.t) : list Recommendation.t :=
  filter (fun r => Qeq_bool (Recommendation.suitability_score r) s) l.

(** What a per-category list must be for the top [top_n] of the
    qualifying entries [qualifying] (given in catalog order): at most
    [top_n] entries, none scoring below 0.70, best score first, and among
    entries of equal score the catalog order, earliest entries first. *)
Definition ranked_top (top_n : Z) (qualifying l : list Recommendation.t) : Prop :=
  (Z.of_nat (List.length l) <= top_n)%Z
  /\ Forall (fun r => 0.70 <= Recommendation.suitability_score r) l
  /\ StronglySorted
       (fun r r' => Recommendation.suitability_score r'
                    <= Recommendation.suitability_score r) l
  /\ forall s, exists rest, with_score s qualifying = with_score s l ++ rest.

(** The three categories of a result: the key, the catalog list it is
    drawn from, and the list returned under that key. *)
Definition category_views (self : Engine) (recs : Recommendations)
  : list (string * list Variety.t * list Recommendation.t) :=
  [ ("rice", rice_varieties (database self), rice recs);
    ("agroforestry", agroforestry_species (database self), agroforestry recs);
    ("crops", crop_varieties (database self), crops recs) ].

(** [r] is the entry that [generate_recommendations] builds for the
    variety [v] under the key [category_name]. *)
Definition built_from (self : Engine) (p : EnhancedFarmProfile)
  (category_name : string) (v : Variety.t) (r : Recommendation.t) : Prop :=
  Recommendation.variety_id r = Variety.id v
  /\ Recommendation.variety_name r = Variety.name v
  /\ Recommendation.category r = category_name
  /\ Recommendation.carbon_potential r = Variety.carbon_potential v
  /\ Recommendation.market_value r = Variety.market_value v
  /\ Recommendation.zones r = Variety.zones v
  /\ Recommendation.suitability_score r
     = py_round (V2.calculate_enhanced_suitability_score self p v) 3
  /\ Recommendation.confidence_level r
     = py_round (V2.calculate_enhanced_suitability_score self p v * 0.85) 4.

(** The three tolerance ranges of a variety are positive and not
    inverted. *)
Definition range_ok (range : Q * Q) : bool :=
  (0 <? fst range) && (fst range <=? snd range).

Definition ranges_ok (v : Variety.t) : bool :=
  range_ok (Variety.rainfall_range v)
  && range_ok (Variety.temp_range v)
  && range_ok (Variety.ph_tolerance v).

(** Every zone a variety lists is a key of the zone catalog. *)
Definition zones_known (catalog : list (string * Zone.t)) (v : Variety.t) : bool :=
  forallb (fun z => str_in z (map fst catalog)) (Variety.zones v).

(** No string occurs twice. *)
Fixpoint distinct (xs : list string) : bool :=
  match xs with
  | [] => true
  | x :: rest => negb (str_in x rest) && distinct rest
  end.

(** Two catalog entries with the same id and the same bounding box: all
    that the two loops of the detector read. *)
Definition same_boxes (e1 e2 : string * Zone.t) : Prop :=
  fst e1 = fst e2
  /\ Zone.lat_range (snd e1) = Zone.lat_range (snd e2)
  /\ Zone.lon_range (snd e1) = Zone.lon_range (snd e2).


(** What the loader guarantees of a variety, whatever the row. *)
Definition loaded_shape (v : Variety.t) : Prop :=
  (exists z zone_info,
     Variety.zones v = [z]
     /\ dict_get V2._initialize_complete_zone_mappings z = Some zone_info
     /\ Variety.rainfall_range v = Zone.rainfall_range zone_info
     /\ Variety.temp_range v = Zone.temp_range zone_info)
  /\ ranges_ok v = true
  /\ In (Variety.ph_tolerance v) [(5.5, 6.5); (7.5, 8.5); (6.5, 7.5); (6.0, 7.5); (6.0, 8.0)]
  /\ In (Variety.market_value v) ["Premium"; "High"; "Good"]
  /\ In (Variety.water_requirement v) ["High"; "Low"; "Medium"].

(** The vegetation rows of a farm that survive the outlier filter. *)
Definition valid_vegetation_rows (satellite_df : list Satellite.row)
  (farm_id : string) : list Satellite.row :=
  filter (fun r => String.eqb (Satellite.farm_id r) farm_id
                   && String.eqb (Satellite.data_type r) "vegetation"
                   && (Satellite.NDVI r <? 1.0))
         satellite_df.

(** The month test of the seasonal sums. *)
Definition in_months (months : list Z) (r : Weather.row) : bool :=
  existsb (Z.eqb (Weather.month (Weather.date r))) months.

(** The weather rows of a farm. *)
Definition weather_rows (weather_df : list Weather.row) (farm_id : string)
  : list Weather.row :=
  filter (fun r => String.eqb (Weather.farm_id r) farm_id) weather_df.

(* ================================================================== *)
(** * A computable square root and sample data *)

(** Heron's iteration on rationals: an executable stand-in for
    [x ** 0.5], zero at zero and positive on positive arguments. *)
Fixpoint heron (n : nat) (a x : Q) : Q :=
  match n with
  | O => x
  | S k => heron k a (Qred ((x + a / x) / 2))
  end.

Definition sqrt_approx (a : Q) : Q :=
  if a <=? 0 then 0 else heron 5 a (Qred ((a + 1) / 2)).

Definition sample_variety (id zone market : string) (carbon : Q) : Variety.t := {|
  Variety.id := id;
  Variety.name := "Sample";
  Variety.category := "rice";
  Variety.zones := [zone];
  Variety.carbon_potential := carbon;
  Variety.market_value := market;
  Variety.ph_tolerance := (6.0, 7.5);
  Variety.rainfall_range := (600, 1400);
  Variety.temp_range := (20, 35);
  Variety.water_requirement := "Medium";
  Variety.soil_preference := "Alluvial";
  Variety.climate_suitability := "Various";
  Variety.characteristics := "";
  Variety.special_features := ""
|}.

Definition sample_database : Database := {|
  rice_varieties :=
    [ sample_variety "RICE_001" "Zone_10_Southern_Plateau" "High" 2.5;
      sample_variety "RICE_002" "Zone_10_Southern_Plateau" "Premium" 6.0;
      sample_variety "RICE_003" "Zone_10_Southern_Plateau" "High" 3.0 ];
  agroforestry_species :=
    [ sample_variety "AGRO_001" "Zone_12_West_Coast" "Good" 8.0 ];
  crop_varieties :=
    [ sample_variety "CROP_001" "Zone_10_Southern_Plateau" "High" 1.5;
      sample_variety "CROP_002" "Zone_10_Southern_Plateau" "High" 2.0 ]
|}.

Definition sample_engine : Engine := V2.init sample_database.

Definition sample_weather_row (farm_id : string) (m : Z) (precip temp : Q)
  : Weather.row := {|
  Weather.farm_id := farm_id;
  Weather.lat := 16;
  Weather.lon := 77;
  Weather.date := {| Weather.year := 2024; Weather.month := m; Weather.day := 1 |};
  Weather.precip := precip;
  Weather.temp := temp;
  Weather.temp_max := temp + 5;
  Weather.temp_min := temp - 5;
  Weather.humidity := 60
|}.

Definition sample_weather : list Weather.row :=
  [ sample_weather_row "F1" 7 500 28;
    sample_weather_row "F2" 7 300 30;
    sample_weather_row "F1" 8 400 26 ].

Definition sample_satellite_row (farm_id : string) (ndvi : Q) : Satellite.row := {|
  Satellite.farm_id := farm_id;
  Satellite.data_type := "vegetation";
  Satellite.NDVI := ndvi;
  Satellite.EVI := 0.3;
  Satellite.LAI := 1.5
|}.

Definition sample_satellite : list Satellite.row :=
  [ sample_satellite_row "F1" 0.5;
    sample_satellite_row "F1" 1.2;
    sample_satellite_row "F1" 0.7;
    sample_satellite_row "F2" 1.0 ].

Definition sample_soil : list Soil.row :=
  [ {| Soil.farm_id := "F1";
       Soil.phh2o_avg := Some (Num 69.0);
       Soil.clay_pct_avg := Some 30.0;
       Soil.sand_pct_avg := Some 40.0;
       Soil.silt_pct_avg := Some 30.0;
       Soil.soc_avg := Some 1.5;
       Soil.cec_avg := Some 15.0;
       Soil.texture := Some "Clay Loam";
       Soil.nutrient_status := Some "Good" |} ].

Definition sample_profile : EnhancedFarmProfile := {|
  farm_id := "F1";
  lat := 16;
  lon := 77;
  total_rainfall := 900;
  rainy_days := 2;
  avg_temp := 27;
  avg_humidity := 60;
  kharif_rainfall := 900;
  rabi_rainfall := 0;
  ndvi_mean := 0.6;
  evi_mean := 0.3;
  lai_mean := 1.5;
  vegetation_health := "Good";
  soil_ph_avg := 6.9;
  clay_pct_avg := 30.0;
  sand_pct_avg := 40.0;
  silt_pct_avg := 30.0;
  soc_avg := 1.5;
  cec_avg := 15.0;
  texture := "Clay Loam";
  nutrient_status := "Good";
  ph_status := "Neutral";
  heat_stress_days := 0;
  drought_stress_days := 0;
  temp_variability := None;
  recent_rainfall := 900;
  recent_avg_temp := 27;
  recent_avg_humidity := 60;
  detected_zone := "Zone_10_Southern_Plateau"
|}.

(** The recommendation set of the sample farm with its rice and
    agroforestry lists emptied. *)
Definition sample_crops_only : Recommendations := {|
  rice := [];
  agroforestry := [];
  crops :=
    V2.top_recommendations 5
      (V2.category_recommendations sample_engine sample_profile "crops"
         (crop_varieties sample_database))
|}.

(** A variety whose temperature range starts at 0, and a farm colder
    than that. *)
Definition zero_bound_variety : Variety.t := {|
  Variety.id := "RICE_900";
  Variety.name := "Sample";
  Variety.category := "rice";
  Variety.zones := ["Zone_10_Southern_Plateau"];
  Variety.carbon_potential := 2.5;
  Variety.market_value := "High";
  Variety.ph_tolerance := (6.0, 7.5);
  Variety.rainfall_range := (600, 1400);
  Variety.temp_range := (0, 35);
  Variety.water_requirement := "Medium";
  Variety.soil_preference := "Alluvial";
  Variety.climate_suitability := "Various";
  Variety.characteristics := "";
  Variety.special_features := ""
|}.

Definition frost_profile : EnhancedFarmProfile := {|
  farm_id := "F9";
  lat := 16;
  lon := 77;
  total_rainfall := 900;
  rainy_days := 2;
  avg_temp := -5;
  avg_humidity := 60;
  kharif_rainfall := 900;
  rabi_rainfall := 0;
  ndvi_mean := 0.6;
  evi_mean := 0.3;
  lai_mean := 1.5;
  vegetation_health := "Good";
  soil_ph_avg := 6.9;
  clay_pct_avg := 30.0;
  sand_pct_avg := 40.0;
  silt_pct_avg := 30.0;
  soc_avg := 1.5;
  cec_avg := 15.0;
  texture := "Clay Loam";
  nutrient_status := "Good";
  ph_status := "Neutral";
  heat_stress_days := 0;
  drought_stress_days := 0;
  temp_variability := None;
  recent_rainfall := 900;
  recent_avg_temp := -5;
  recent_avg_humidity := 60;
  detected_zone := "Zone_10_Southern_Plateau"
|}.

(** A dry, alkaline farm that no sample variety suits. *)
Definition barren_profile : EnhancedFarmProfile := {|
  farm_id := "F8";
  lat := 27;
  lon := 72;
  total_rainfall := 100;
  rainy_days := 5;
  avg_temp := 27;
  avg_humidity := 20;
  kharif_rainfall := 100;
  rabi_rainfall := 0;
  ndvi_mean := 0.1;
  evi_mean := 0.1;
  lai_mean := 0.2;
  vegetation_health := "Poor";
  soil_ph_avg := 9.5;
  clay_pct_avg := 10.0;
  sand_pct_avg := 80.0;
  silt_pct_avg := 10.0;
  soc_avg := 0.2;
  cec_avg := 5.0;
  texture := "Sand";
  nutrient_status := "Poor";
  ph_status := "Very Alkaline";
  heat_stress_days := 90;
  drought_stress_days := 300;
  temp_variability := None;
  recent_rainfall := 0;
  recent_avg_temp := 30;
  recent_avg_humidity := 15;
  detected_zone := "Zone_14_Western_Dry"
|}.

(** Two rows of a rice file: a complete one and one without a zone. *)
Definition sample_rice_row : CatalogRow.t := {|
  CatalogRow.zone := Some "Upper_Gangetic_Plains";
  CatalogRow.variety_name := Some "Pusa Basmati";
  CatalogRow.crop_name := None;
  CatalogRow.species_name := None;
  CatalogRow.carbon_potential := Some 2.5;
  CatalogRow.characteristics := Some "Aromatic, export quality";
  CatalogRow.soil_preference := Some "Slightly ALKALINE loam";
  CatalogRow.water_requirement := Some "5-6 Irrigations";
  CatalogRow.type := Some "Basmati";
  CatalogRow.special_features := None;
  CatalogRow.economic_value := None;
  CatalogRow.category := None;
  CatalogRow.tree_type := None
|}.

Definition sample_broken_row : CatalogRow.t := {|
  CatalogRow.zone := None;
  CatalogRow.variety_name := Some "Nameless";
  CatalogRow.crop_name := None;
  CatalogRow.species_name := None;
  CatalogRow.carbon_potential := Some 1.0;
  CatalogRow.characteristics := None;
  CatalogRow.soil_preference := None;
  CatalogRow.water_requirement := None;
  CatalogRow.type := None;
  CatalogRow.special_features := None;
  CatalogRow.economic_value := None;
  CatalogRow.category := None;
  CatalogRow.tree_type := None
|}.

Definition sample_loaded_database : Database :=
  V2._initialize_complete_database
    [sample_broken_row; sample_rice_row] [] [].

(** A file writer that succeeds. *)
Definition sample_save (a : Analysis.t) : outcome string :=
  Returns (String.append "perfected_recommendations_"
             (String.append (farm_id (Analysis.farm_profile a)) ".json")).

Definition empty_catalog_engine : Engine := {|
  database := sample_database;
  zone_mappings := [];
  recommendation_rules := V2._initialize_enhanced_rules
|}.

(* ================================================================== *)
(** * Facts about the Python operators *)

Lemma Qleb_spec (x y : Q) : reflect (x <= y) (x <=? y).
Proof.
  unfold Qleb. destruct (Qle_bool x y) eqn:E; constructor.
  - now apply Qle_bool_iff.
  - intro H. apply Qle_bool_iff in H. congruence.
Qed.

Lemma Qltb_spec (x y : Q) : reflect (x < y) (x <? y).
Proof.
  unfold Qltb. destruct (Qle_bool y x) eqn:E; constructor.
  - apply Qle_bool_iff in E. lra.
  - apply Qnot_le_lt. intro H. apply Qle_bool_iff in H. congruence.
Qed.

Lemma Qgtb_spec (x y : Q) : reflect (y < x) (x >? y).
Proof. apply Qltb_spec. Qed.

Lemma Qgeb_spec (x y : Q) : reflect (y <= x) (x >=? y).
Proof. apply Qleb_spec. Qed.

Lemma Qeq_bool_spec (x y : Q) : reflect (x == y) (Qeq_bool x y).
Proof.
  destruct (Qeq_bool x y) eqn:E; constructor.
  - now apply Qeq_bool_iff.
  - now apply Qeq_bool_neq.
Qed.

Lemma py_max_spec (a b : Q) :
  (a < b /\ py_max a b = b) \/ (b <= a /\ py_max a b = a).
Proof.
  unfold py_max. destruct (Qgtb_spec b a); [left | right]; split; auto; lra.
Qed.

Lemma py_min_spec (a b : Q) :
  (b < a /\ py_min a b = b) \/ (a <= b /\ py_min a b = a).
Proof.
  unfold py_min. destruct (Qltb_spec b a); [left | right]; split; auto; lra.
Qed.

(** [max(0.0, min(1.0, t))] lies in the unit interval. *)
Lemma clamp_unit_interval (t : Q) :
  0 <= py_max 0.0 (py_min 1.0 t) <= 1.
Proof.
  destruct (py_min_spec 1.0 t) as [[H1 E1] | [H1 E1]];
  destruct (py_max_spec 0.0 (py_min 1.0 t)) as [[H2 E2] | [H2 E2]];
  rewrite E2; rewrite ?E1 in *; lra.
Qed.

(** Above 1 the clamp returns 1. *)
Lemma clamp_saturates (t : Q) :
  1 <= t -> py_max 0.0 (py_min 1.0 t) == 1.
Proof.
  intro Ht.
  destruct (py_min_spec 1.0 t) as [[H1 E1] | [H1 E1]];
  destruct (py_max_spec 0.0 (py_min 1.0 t)) as [[H2 E2] | [H2 E2]];
  rewrite E2; rewrite ?E1 in *; lra.
Qed.

Lemma truediv_nonzero (a b : Q) :
  ~ b == 0 -> truediv a b = Returns (a / b).
Proof.
  intro Hb. unfold truediv. destruct (Qeq_bool_spec b 0); [contradiction | reflexivity].
Qed.

Lemma truediv_zero (a b : Q) :
  b == 0 -> truediv a b = Raises ZeroDivisionError.
Proof.
  intro Hb. unfold truediv. destruct (Qeq_bool_spec b 0); [reflexivity | contradiction].
Qed.

(* ================================================================== *)
(** * The suitability score *)

(** The shape of the v2 score: the handler's 0.0, or a clamped total. *)
Lemma v2_score_shape (self : Engine) (p : EnhancedFarmProfile) (v : Variety.t) :
  V2.calculate_enhanced_suitability_score self p v = 0.0
  \/ exists t, V2.calculate_enhanced_suitability_score self p v
               = py_max 0.0 (py_min 1.0 t).
Proof.
  unfold V2.calculate_enhanced_suitability_score, try_except, bind.
  repeat match goal with
         | |- context [match (if ?c then _ else _) with _ => _ end] => destruct c
         | |- context [match truediv ?a ?b with _ => _ end] => destruct (truediv a b)
         end;
  first [ left; reflexivity | right; eexists; reflexivity ].
Qed.

(** C1. For every engine, farm profile and variety, zero range bounds
    included, the score returned by the v2
    [calculate_enhanced_suitability_score] lies in [0.0, 1.0]. *)
Theorem score_in_unit_interval
  (self : Engine) (p : EnhancedFarmProfile) (v : Variety.t) :
  0 <= V2.calculate_enhanced_suitability_score self p v <= 1.
Proof.
  destruct (v2_score_shape self p v) as [E | [t E]]; rewrite E.
  - lra.
  - apply clamp_unit_interval.
Qed.

Lemma str_in_In (x : string) (xs : list string) :
  str_in x xs = true <-> In x xs.
Proof.
  unfold str_in. rewrite existsb_exists. split.
  - intros [y [Hy E]]. apply String.eqb_eq in E. now subst.
  - intro H. exists x. split; auto. apply String.eqb_refl.
Qed.

Lemma in_range_true (lo hi x : Q) :
  lo <= x <= hi -> (lo <=? x) && (x <=? hi) = true.
Proof.
  intros [H1 H2].
  destruct (Qleb_spec lo x); [|contradiction].
  destruct (Qleb_spec x hi); [|contradiction]. reflexivity.
Qed.

Ltac unfold_rules :=
  cbv [V1._initialize_enhanced_rules V2._initialize_enhanced_rules
       Rules.exact_match Rules.climate_similarity Rules.zone_compatibility
       Rules.rainfall_match Rules.climate_compatibility Rules.temperature_match
       Rules.ph_match Rules.soil_compatibility Rules.texture_match
       Rules.nutrient_match Rules.ndvi_bonus Rules.vegetation_health
       Rules.stress_penalty Rules.market_value Rules.economic_factors
       Rules.carbon_potential].

Ltac split_conditions :=
  repeat match goal with
         | |- context [if ?c then _ else _] => destruct c
         end.

(** With every range matched and the zone listed, the total before the
    clamp is at least 1, so the score is exactly 1. *)
Lemma exact_match_score_is_one
  (self : Engine) (p : EnhancedFarmProfile) (v : Variety.t) :
  recommendation_rules self = V2._initialize_enhanced_rules ->
  fst (Variety.rainfall_range v) <= total_rainfall p <= snd (Variety.rainfall_range v) ->
  fst (Variety.temp_range v) <= avg_temp p <= snd (Variety.temp_range v) ->
  fst (Variety.ph_tolerance v) <= soil_ph_avg p <= snd (Variety.ph_tolerance v) ->
  In (detected_zone p) (Variety.zones v) ->
  V2.calculate_enhanced_suitability_score self p v == 1.
Proof.
  intros Hrules Hrain Htemp Hph Hzone.
  unfold V2.calculate_enhanced_suitability_score.
  rewrite Hrules.
  rewrite (in_range_true _ _ _ Hrain), (in_range_true _ _ _ Htemp),
          (in_range_true _ _ _ Hph).
  apply str_in_In in Hzone. rewrite Hzone.
  unfold try_except, bind. unfold_rules. cbv zeta.
  apply clamp_saturates.
  split_conditions; lra.
Qed.

(** C2. A profile whose total rainfall, average temperature and soil pH
    lie inside the variety's ranges and whose detected zone is one of the
    variety's zones scores at least 0.95 = 0.50 + 0.25 + 0.20 + 0.25 (with
    the engine's weight table). *)
Theorem exact_match_floor
  (self : Engine) (p : EnhancedFarmProfile) (v : Variety.t) :
  recommendation_rules self = V2._initialize_enhanced_rules ->
  fst (Variety.rainfall_range v) <= total_rainfall p <= snd (Variety.rainfall_range v) ->
  fst (Variety.temp_range v) <= avg_temp p <= snd (Variety.temp_range v) ->
  fst (Variety.ph_tolerance v) <= soil_ph_avg p <= snd (Variety.ph_tolerance v) ->
  In (detected_zone p) (Variety.zones v) ->
  0.95 <= V2.calculate_enhanced_suitability_score self p v.
Proof.
  intros Hrules Hrain Htemp Hph Hzone.
  rewrite (exact_match_score_is_one self p v Hrules Hrain Htemp Hph Hzone). lra.
Qed.

Lemma exact_match_floor_witness :
  0.95 <= V2.calculate_enhanced_suitability_score sample_engine sample_profile
            (sample_variety "RICE_002" "Zone_10_Southern_Plateau" "Premium" 6.0).
Proof.
  apply exact_match_floor.
  - reflexivity.
  - simpl; lra.
  - simpl; lra.
  - simpl; lra.
  - simpl; auto.
Defined.

(** The v2 routine is the v1 body inside the handler. *)
Lemma v2_score_is_guarded_v1
  (self : Engine) (p : EnhancedFarmProfile) (v : Variety.t) :
  V2.calculate_enhanced_suitability_score self p v
  = try_except (V1.calculate_enhanced_suitability_score self p v) 0.0.
Proof. reflexivity. Qed.

(** The v1 routine reads the engine only through its weight table. *)
Lemma v1_score_rules_only
  (self self' : Engine) (p : EnhancedFarmProfile) (v : Variety.t) :
  recommendation_rules self = recommendation_rules self' ->
  V1.calculate_enhanced_suitability_score self p v
  = V1.calculate_enhanced_suitability_score self' p v.
Proof.
  intro H. unfold V1.calculate_enhanced_suitability_score. now rewrite H.
Qed.

(** With nonzero range bounds no division raises in v1. *)
Lemma v1_score_returns
  (self : Engine) (p : EnhancedFarmProfile) (v : Variety.t) :
  ~ fst (Variety.rainfall_range v) == 0 -> ~ snd (Variety.rainfall_range v) == 0 ->
  ~ fst (Variety.temp_range v) == 0 -> ~ snd (Variety.temp_range v) == 0 ->
  ~ fst (Variety.ph_tolerance v) == 0 -> ~ snd (Variety.ph_tolerance v) == 0 ->
  exists s, V1.calculate_enhanced_suitability_score self p v = Returns s.
Proof.
  intros R0 R1 T0 T1 P0 P1.
  unfold V1.calculate_enhanced_suitability_score.
  rewrite !truediv_nonzero by assumption.
  unfold bind.
  repeat match goal with
         | |- context [match (if ?c then _ else _) with _ => _ end] => destruct c
         end;
  eexists; reflexivity.
Qed.

(** C10. On a variety whose rainfall, temperature and pH bounds are all
    nonzero, the v1 routine returns, and its value is the value of the
    v2 routine (each engine with its own weight table). *)
Theorem v1_v2_scores_agree
  (self1 self2 : Engine) (p : EnhancedFarmProfile) (v : Variety.t) :
  recommendation_rules self1 = V1._initialize_enhanced_rules ->
  recommendation_rules self2 = V2._initialize_enhanced_rules ->
  ~ fst (Variety.rainfall_range v) == 0 -> ~ snd (Variety.rainfall_range v) == 0 ->
  ~ fst (Variety.temp_range v) == 0 -> ~ snd (Variety.temp_range v) == 0 ->
  ~ fst (Variety.ph_tolerance v) == 0 -> ~ snd (Variety.ph_tolerance v) == 0 ->
  V1.calculate_enhanced_suitability_score self1 p v
  = Returns (V2.calculate_enhanced_suitability_score self2 p v).
Proof.
  intros H1 H2 R0 R1 T0 T1 P0 P1.
  rewrite v2_score_is_guarded_v1.
  rewrite (v1_score_rules_only self2 self1 p v) by (rewrite H1, H2; reflexivity).
  destruct (v1_score_returns self1 p v R0 R1 T0 T1 P0 P1) as [s Hs].
  rewrite Hs. reflexivity.
Qed.

Lemma v1_v2_scores_agree_witness :
  V1.calculate_enhanced_suitability_score sample_engine sample_profile
    (sample_variety "AGRO_001" "Zone_12_West_Coast" "Good" 8.0)
  = Returns (V2.calculate_enhanced_suitability_score sample_engine sample_profile
               (sample_variety "AGRO_001" "Zone_12_West_Coast" "Good" 8.0)).
Proof.
  apply v1_v2_scores_agree;
    first [ reflexivity | simpl; intro H; discriminate H ].
Defined.

(** On a zero bound the two engines part: v1 raises, v2 returns 0.0. *)
Lemma zero_bound_v1_raises_v2_returns_zero :
  let v := {| Variety.id := "X"; Variety.name := "X"; Variety.category := "rice";
              Variety.zones := []; Variety.carbon_potential := 1;
              Variety.market_value := "High"; Variety.ph_tolerance := (6.0, 7.5);
              Variety.rainfall_range := (600, 1400); Variety.temp_range := (0, 35);
              Variety.water_requirement := ""; Variety.soil_preference := "";
              Variety.climate_suitability := ""; Variety.characteristics := "";
              Variety.special_features := "" |} in
  let p := {| farm_id := "F"; lat := 0; lon := 0; total_rainfall := 900;
              rainy_days := 0; avg_temp := -5; avg_humidity := 0;
              kharif_rainfall := 0; rabi_rainfall := 0; ndvi_mean := 0;
              evi_mean := 0; lai_mean := 0; vegetation_health := "Poor";
              soil_ph_avg := 7; clay_pct_avg := 0; sand_pct_avg := 0;
              silt_pct_avg := 0; soc_avg := 0; cec_avg := 0; texture := "Loam";
              nutrient_status := "Moderate"; ph_status := "Neutral";
              heat_stress_days := 0; drought_stress_days := 0;
              temp_variability := None; recent_rainfall := 0;
              recent_avg_temp := 0; recent_avg_humidity := 0;
              detected_zone := "" |} in
  V1.calculate_enhanced_suitability_score sample_engine p v = Raises ZeroDivisionError
  /\ V2.calculate_enhanced_suitability_score sample_engine p v = 0.0.
Proof. split; reflexivity. Qed.

(* ================================================================== *)
(** * Soil pH correction *)

(** C3. [_fix_soil_ph_value] divides a raw value above 100 by 100, a raw
    value above 14 and at most 100 by 10, and returns a raw value in
    (0, 14] unchanged; 6.9, 69.0 and 690.0 all come out as 6.9. *)
Theorem fix_soil_ph_value_rule :
  (forall v, 100 < v -> V2._fix_soil_ph_value (Num v) == v / 100)
  /\ (forall v, 14 < v <= 100 -> V2._fix_soil_ph_value (Num v) == v / 10)
  /\ (forall v, 0 < v <= 14 -> V2._fix_soil_ph_value (Num v) == v)
  /\ V2._fix_soil_ph_value (Num 6.9) == 6.9
  /\ V2._fix_soil_ph_value (Num 69.0) == 6.9
  /\ V2._fix_soil_ph_value (Num 690.0) == 6.9.
Proof.
  repeat split; try reflexivity; intros v Hv; unfold V2._fix_soil_ph_value;
    destruct (Qleb_spec v 0); try lra;
    destruct (Qgtb_spec v 14); try lra;
    try (destruct (Qgtb_spec v 100); try lra); reflexivity.
Qed.

Lemma fix_soil_ph_value_rule_witness :
  V2._fix_soil_ph_value (Num 250) == 250 / 100
  /\ V2._fix_soil_ph_value (Num 55) == 55 / 10
  /\ V2._fix_soil_ph_value (Num 7.2) == 7.2.
Proof.
  destruct fix_soil_ph_value_rule as (H1 & H2 & H3 & _).
  split; [apply H1; lra | split; [apply H2; lra | apply H3; lra]].
Defined.

(** Missing and non-positive readings fall back to neutral. *)
Lemma fix_soil_ph_value_default (v : Q) :
  V2._fix_soil_ph_value NaN = 7.0
  /\ (v <= 0 -> V2._fix_soil_ph_value (Num v) = 7.0).
Proof.
  split; [reflexivity |].
  intro Hv. unfold V2._fix_soil_ph_value.
  destruct (Qleb_spec v 0); [reflexivity | contradiction].
Qed.

(* ================================================================== *)
(** * The carbon and revenue blend *)

(** C5. The blended carbon is 0.4 x top rice + 0.3 x top crop + 0.2 x
    second crop + 0.1 x top agroforestry, an absent entry counting 0;
    credits are carbon x 0.85 and revenue is credits x 25.0; without rice
    and agroforestry entries the carbon is 0.3 x top crop + 0.2 x second
    crop and the revenue is carbon x 0.85 x 25.0. *)
Theorem realistic_carbon_blend (recs : Recommendations) :
  let '(carbon, credits, revenue) := V2._calculate_realistic_carbon_potential recs in
  carbon == 0.4 * carbon_at (rice recs) 0 + 0.3 * carbon_at (crops recs) 0
            + 0.2 * carbon_at (crops recs) 1 + 0.1 * carbon_at (agroforestry recs) 0
  /\ credits == carbon * 0.85
  /\ revenue == credits * 25.0
  /\ (rice recs = [] -> agroforestry recs = [] ->
      carbon == 0.3 * carbon_at (crops recs) 0 + 0.2 * carbon_at (crops recs) 1
      /\ revenue == carbon * 0.85 * 25.0).
Proof.
  destruct recs as [r a c].
  unfold V2._calculate_realistic_carbon_potential, carbon_at; cbn [rice crops agroforestry].
  destruct r as [|r0 r]; destruct a as [|a0 a];
    destruct c as [|c0 [|c1 c]]; cbn [nth_error List.length Nat.ltb Nat.leb];
    (split; [ring | split; [reflexivity | split; [reflexivity |]]]);
    intros Hr Ha; try discriminate; split; ring.
Qed.

Lemma realistic_carbon_blend_witness :
  let '(carbon, credits, revenue) :=
    V2._calculate_realistic_carbon_potential sample_crops_only in
  carbon == 0.3 * carbon_at (crops sample_crops_only) 0
            + 0.2 * carbon_at (crops sample_crops_only) 1
  /\ revenue == carbon * 0.85 * 25.0.
Proof.
  pose proof (realistic_carbon_blend sample_crops_only) as H.
  destruct (V2._calculate_realistic_carbon_potential sample_crops_only)
    as [[carbon credits] revenue].
  destruct H as (_ & _ & _ & H). apply H; reflexivity.
Defined.

(** On the sample farm: 0.3 x 1.5 + 0.2 x 2.0 = 0.85 tCO2, 18.0625 in
    revenue. *)
Example sample_crops_only_blend :
  let '(carbon, credits, revenue) :=
    V2._calculate_realistic_carbon_potential sample_crops_only in
  carbon == 0.85 /\ credits == 0.7225 /\ revenue == 18.0625.
Proof. vm_compute. repeat split. Qed.

(* ================================================================== *)
(** * Profile construction *)

Ltac q_decide :=
  vm_compute; first [ reflexivity | discriminate | (intro; discriminate) ].

Lemma filter_andb {A : Type} (f g : A -> bool) (l : list A) :
  filter (fun x => f x && g x) l = filter g (filter f l).
Proof.
  induction l as [|x l IH]; simpl; auto.
  destruct (f x); simpl; [destruct (g x)|]; now rewrite IH.
Qed.

Lemma valid_vegetation_rows_clean (sat : list Satellite.row) (fid : string) :
  valid_vegetation_rows sat fid
  = filter (fun r => Satellite.NDVI r <? 1.0)
      (filter (fun r => String.eqb (Satellite.farm_id r) fid
                        && String.eqb (Satellite.data_type r) "vegetation") sat).
Proof. unfold valid_vegetation_rows. apply filter_andb. Qed.

(** C8. Vegetation rows with NDVI >= 1.0 take no part in the means; when
    no valid row is left (or the farm has no vegetation row) the means
    are 0.2, 0.2 and 0.5; and the health class of the mean NDVI n is
    Excellent above 0.6, else Good above 0.4, else Fair above 0.2, else
    Poor. *)
Theorem vegetation_features (sqrt : Q -> Q) (self : Engine)
  (weather_df : list Weather.row) (satellite_df : list Satellite.row)
  (soil_df : list Soil.row) (fid : string) (p : EnhancedFarmProfile) :
  V2.create_farm_profile_from_data sqrt self weather_df satellite_df soil_df fid
  = Returns p ->
  let valid := valid_vegetation_rows satellite_df fid in
  (forall r, In r valid <->
             In r satellite_df /\ Satellite.farm_id r = fid
             /\ Satellite.data_type r = "vegetation" /\ Satellite.NDVI r < 1.0)
  /\ (valid = [] -> ndvi_mean p = 0.2 /\ evi_mean p = 0.2 /\ lai_mean p = 0.5)
  /\ (valid <> [] ->
      ndvi_mean p = mean (map Satellite.NDVI valid)
      /\ evi_mean p = mean (map Satellite.EVI valid)
      /\ lai_mean p = mean (map Satellite.LAI valid))
  /\ (0.6 < ndvi_mean p -> vegetation_health p = "Excellent")
  /\ (ndvi_mean p <= 0.6 -> 0.4 < ndvi_mean p -> vegetation_health p = "Good")
  /\ (ndvi_mean p <= 0.4 -> 0.2 < ndvi_mean p -> vegetation_health p = "Fair")
  /\ (ndvi_mean p <= 0.2 -> vegetation_health p = "Poor").
Proof.
  intros Hp valid.
  split.
  { intro r. unfold valid, valid_vegetation_rows. rewrite filter_In.
    rewrite !andb_true_iff, !String.eqb_eq.
    split.
    - intros (Hin & (Hf & Hd) & Hn). repeat split; auto.
      now destruct (Qltb_spec (Satellite.NDVI r) 1.0).
    - intros (Hin & Hf & Hd & Hn). repeat split; auto.
      destruct (Qltb_spec (Satellite.NDVI r) 1.0); [reflexivity | contradiction]. }
  assert (Hveg :
    (ndvi_mean p, evi_mean p, lai_mean p)
    = match valid with
      | [] => (0.2, 0.2, 0.5)
      | _ => (mean (map Satellite.NDVI valid), mean (map Satellite.EVI valid),
              mean (map Satellite.LAI valid))
      end
    /\ vegetation_health p
       = if ndvi_mean p >? 0.6 then "Excellent"
         else if ndvi_mean p >? 0.4 then "Good"
         else if ndvi_mean p >? 0.2 then "Fair" else "Poor").
  { unfold V2.create_farm_profile_from_data in Hp.
    destruct (filter _ weather_df) as [|first_row rest]; [discriminate|].
    subst valid. rewrite valid_vegetation_rows_clean.
    destruct (match filter _ soil_df with [] => _ | _ :: _ => _ end)
      as [[[[[[[[? ?] ?] ?] ?] ?] ?] ?] ?].
    destruct (filter _ satellite_df) as [|row0 fs].
    - cbn [filter] in *. injection Hp as <-. split; reflexivity.
    - destruct (filter _ (row0 :: fs)) as [|c0 clean].
      + cbn [List.length Nat.ltb Nat.leb] in Hp. injection Hp as <-. split; reflexivity.
      + cbn [List.length Nat.ltb Nat.leb] in Hp. injection Hp as <-. split; reflexivity. }
  destruct Hveg as [Hmeans Hclass].
  split; [| split; [| split; [| split; [| split]]]].
  - intro Hv. rewrite Hv in Hmeans. now injection Hmeans as -> -> ->.
  - intro Hv. destruct valid; [contradiction|]. now injection Hmeans as -> -> ->.
  - intro H. rewrite Hclass. destruct (Qgtb_spec (ndvi_mean p) 0.6); [reflexivity | contradiction].
  - intros H1 H2. rewrite Hclass.
    destruct (Qgtb_spec (ndvi_mean p) 0.6); [lra|].
    destruct (Qgtb_spec (ndvi_mean p) 0.4); [reflexivity | contradiction].
  - intros H1 H2. rewrite Hclass.
    destruct (Qgtb_spec (ndvi_mean p) 0.6); [lra|].
    destruct (Qgtb_spec (ndvi_mean p) 0.4); [lra|].
    destruct (Qgtb_spec (ndvi_mean p) 0.2); [reflexivity | contradiction].
  - intros H1. rewrite Hclass.
    destruct (Qgtb_spec (ndvi_mean p) 0.6); [lra|].
    destruct (Qgtb_spec (ndvi_mean p) 0.4); [lra|].
    destruct (Qgtb_spec (ndvi_mean p) 0.2); [lra | reflexivity].
Qed.

Lemma vegetation_features_witness :
  exists p,
    V2.create_farm_profile_from_data sqrt_approx sample_engine sample_weather
      sample_satellite sample_soil "F1" = Returns p
    /\ ndvi_mean p = mean (map Satellite.NDVI (valid_vegetation_rows sample_satellite "F1"))
    /\ vegetation_health p = "Good".
Proof.
  eexists. split; [vm_compute; reflexivity |].
  pose proof (vegetation_features sqrt_approx sample_engine sample_weather
                sample_satellite sample_soil "F1" _ eq_refl)
    as (_ & _ & Hm & _ & Hg & _).
  split.
  - apply Hm. vm_compute. discriminate.
  - apply Hg; q_decide.
Defined.

(** A farm with weather rows gets a profile, and its zone is the one
    detected at the coordinates of its first row. *)
Lemma create_farm_profile_returns (sqrt : Q -> Q) (self : Engine)
  (weather_df : list Weather.row) (satellite_df : list Satellite.row)
  (soil_df : list Soil.row) (fid : string) (first_row : Weather.row)
  (rest : list Weather.row) :
  weather_rows weather_df fid = first_row :: rest ->
  exists p,
    V2.create_farm_profile_from_data sqrt self weather_df satellite_df soil_df fid
    = Returns p
    /\ detected_zone p
       = V2.detect_zone_from_coordinates sqrt self (Weather.lat first_row)
           (Weather.lon first_row).
Proof.
  unfold weather_rows, V2.create_farm_profile_from_data. intros ->.
  destruct (match filter _ soil_df with [] => _ | _ :: _ => _ end)
    as [[[[[[[[? ?] ?] ?] ?] ?] ?] ?] ?].
  destruct (match filter _ satellite_df with [] => _ | _ :: _ => _ end)
    as [[? ?] ?].
  eexists. split; reflexivity.
Qed.

(** A farm without weather rows gets a [ValueError]. *)
Lemma create_farm_profile_raises (sqrt : Q -> Q) (self : Engine)
  (weather_df : list Weather.row) (satellite_df : list Satellite.row)
  (soil_df : list Soil.row) (fid : string) :
  weather_rows weather_df fid = [] ->
  V2.create_farm_profile_from_data sqrt self weather_df satellite_df soil_df fid
  = Raises (ValueError (String.append "No weather data found for farm " fid)).
Proof.
  unfold weather_rows, V2.create_farm_profile_from_data. now intros ->.
Qed.

(* ================================================================== *)
(** * Zone detection *)

Lemma score_le_one (d : Q) : 0 <= d -> 1.0 / (1.0 + d) <= 1.
Proof. intro Hd. apply Qle_shift_div_r; lra. Qed.

Lemma score_lt_one (d : Q) : 0 < d -> 1.0 / (1.0 + d) < 1.
Proof. intro Hd. apply Qlt_shift_div_r; lra. Qed.

Lemma score_eq_one (d : Q) : d == 0 -> 1.0 / (1.0 + d) == 1.
Proof. intro Hd. rewrite Hd. reflexivity. Qed.

Lemma sq_distance_nonneg (z : Zone.t) (lat lon : Q) : 0 <= sq_distance z lat lon.
Proof.
  unfold sq_distance.
  generalize (lat - fst (box_center z)) (lon - snd (box_center z)). intros a b.
  assert (Ha : a ^ 2 == a * a) by (simpl; ring).
  assert (Hb : b ^ 2 == b * b) by (simpl; ring).
  rewrite Ha, Hb. nra.
Qed.

Lemma sq_distance_center (z : Zone.t) :
  sq_distance z (fst (box_center z)) (snd (box_center z)) == 0.
Proof. unfold sq_distance. simpl. ring. Qed.

Lemma in_box_center (z : Zone.t) :
  fst (Zone.lat_range z) <= snd (Zone.lat_range z) ->
  fst (Zone.lon_range z) <= snd (Zone.lon_range z) ->
  in_box z (fst (box_center z)) (snd (box_center z)) = true.
Proof.
  intros Hlat Hlon. unfold in_box, box_center; cbn [fst snd].
  assert (E : forall a b : Q, (a + b) / 2 == (a + b) * (1 # 2)) by (intros; field).
  rewrite !in_range_true; [reflexivity | |]; rewrite E; lra.
Qed.

Section ZoneDetectionFacts.

Variable sqrt : Q -> Q.
Hypothesis sqrt_zero : forall x, x == 0 -> sqrt x == 0.
Hypothesis sqrt_pos : forall x, 0 < x -> 0 < sqrt x.

Lemma sqrt_nonneg (x : Q) : 0 <= x -> 0 <= sqrt x.
Proof.
  intro Hx. destruct (Qlt_le_dec 0 x) as [H | H].
  - apply Qlt_le_weak, sqrt_pos, H.
  - rewrite (sqrt_zero x); lra.
Qed.

(** One iteration of the first loop, in terms of [in_box] and
    [sq_distance]. *)
Lemma best_match_step_eq (lat lon : Q) (bm : option string) (bs : Q)
  (zid : string) (z : Zone.t) :
  V2.best_match_step sqrt lat lon (bm, bs) (zid, z)
  = if in_box z lat lon
    then if 1.0 / (1.0 + sqrt (sq_distance z lat lon)) >? bs
         then (Some zid, 1.0 / (1.0 + sqrt (sq_distance z lat lon)))
         else (bm, bs)
    else (bm, bs).
Proof.
  unfold V2.best_match_step, in_box, sq_distance, box_center.
  destruct (Zone.lat_range z), (Zone.lon_range z). reflexivity.
Qed.

(** Zones that do not share the center leave the best score below 1. *)
Lemma best_match_below_one (lat lon : Q) (zones : list (string * Zone.t)) :
  forallb (fun other => negb (in_box (snd other) lat lon)
                        || (sq_distance (snd other) lat lon >? 0)) zones = true ->
  forall bm bs, bs < 1 ->
  snd (fold_left (V2.best_match_step sqrt lat lon) zones (bm, bs)) < 1.
Proof.
  induction zones as [|[zid z] zones IH]; intros Hall bm bs Hbs; [exact Hbs|].
  cbn [forallb snd] in Hall. apply andb_true_iff in Hall as [Hz Hall].
  cbn [fold_left]. rewrite best_match_step_eq.
  destruct (in_box z lat lon); [| now apply IH].
  cbn [negb orb] in Hz.
  destruct (Qgtb_spec (sq_distance z lat lon) 0) as [Hd|]; [| discriminate].
  destruct (Qgtb_spec (1.0 / (1.0 + sqrt (sq_distance z lat lon))) bs);
    apply IH; auto.
  apply score_lt_one, sqrt_pos, Hd.
Qed.

(** Once the best score is 1 no later zone replaces the match. *)
Lemma best_match_stays (lat lon : Q) (zones : list (string * Zone.t))
  (bm : option string) (bs : Q) :
  bs == 1 ->
  fold_left (V2.best_match_step sqrt lat lon) zones (bm, bs) = (bm, bs).
Proof.
  intro Hbs. induction zones as [|[zid z] zones IH]; [reflexivity|].
  cbn [fold_left]. rewrite best_match_step_eq.
  destruct (in_box z lat lon); [| exact IH].
  destruct (Qgtb_spec (1.0 / (1.0 + sqrt (sq_distance z lat lon))) bs) as [H|]; [| exact IH].
  pose proof (score_le_one _ (sqrt_nonneg _ (sq_distance_nonneg z lat lon))). lra.
Qed.

(** A zone that passes [center_ok] is the one detected at its center. *)
Lemma detect_at_center (self : Engine) (earlier later : list (string * Zone.t))
  (zid : string) (z : Zone.t) :
  zone_mappings self = earlier ++ (zid, z) :: later ->
  center_ok earlier (zid, z) = true ->
  V2.detect_zone_from_coordinates sqrt self (fst (box_center z)) (snd (box_center z))
  = zid.
Proof.
  intros Hcat Hok. unfold center_ok in Hok. cbn [fst snd] in Hok.
  destruct (box_center z) as [clat clon] eqn:Hc.
  assert (Hclat : clat = fst (box_center z)) by now rewrite Hc.
  assert (Hclon : clon = snd (box_center z)) by now rewrite Hc.
  cbn [fst snd].
  apply andb_true_iff in Hok as [Hok Hearlier].
  apply andb_true_iff in Hok as [Hok Hlon].
  apply andb_true_iff in Hok as [Hid Hlat].
  destruct (Qleb_spec (fst (Zone.lat_range z)) (snd (Zone.lat_range z))) as [Hlat'|];
    [| discriminate].
  destruct (Qleb_spec (fst (Zone.lon_range z)) (snd (Zone.lon_range z))) as [Hlon'|];
    [| discriminate].
  unfold V2.detect_zone_from_coordinates. rewrite Hcat, fold_left_app.
  pose proof (best_match_below_one clat clon earlier Hearlier None 0 ltac:(lra)) as Hbelow.
  destruct (fold_left _ earlier (None, 0)) as [bm bs]. cbn [snd] in Hbelow.
  cbn [fold_left]. rewrite best_match_step_eq.
  rewrite Hclat, Hclon, (in_box_center z Hlat' Hlon').
  pose proof (score_eq_one _ (sqrt_zero _ (sq_distance_center z))) as Hone.
  destruct (Qgtb_spec (1.0 / (1.0 + sqrt (sq_distance z (fst (box_center z))
                                            (snd (box_center z))))) bs) as [|Hn];
    [| lra].
  rewrite (best_match_stays _ _ _ _ _ Hone).
  unfold truthy. rewrite Hid. reflexivity.
Qed.

End ZoneDetectionFacts.

Lemma centers_ok_split (rest earlier pre later : list (string * Zone.t))
  (item : string * Zone.t) :
  centers_ok earlier rest = true ->
  rest = pre ++ item :: later ->
  center_ok (earlier ++ pre) item = true.
Proof.
  revert rest earlier. induction pre as [|x pre IH]; intros rest earlier Hok ->.
  - cbn [app centers_ok] in Hok. apply andb_true_iff in Hok as [Hok _].
    now rewrite app_nil_r.
  - cbn [app centers_ok] in Hok. apply andb_true_iff in Hok as [_ Hok].
    specialize (IH _ _ Hok eq_refl). now rewrite <- app_assoc in IH.
Qed.

(** C6. For every zone of the catalog, the point at the center of its
    bounding box is detected as that zone (for any square root that is 0
    at 0 and positive on positive arguments). *)
Theorem zone_center_detects_zone (sqrt : Q -> Q)
  (sqrt_zero : forall x, x == 0 -> sqrt x == 0)
  (sqrt_pos : forall x, 0 < x -> 0 < sqrt x)
  (db : Database) (zid : string) (z : Zone.t) :
  In (zid, z) V2._initialize_complete_zone_mappings ->
  V2.detect_zone_from_coordinates sqrt (V2.init db)
    (fst (box_center z)) (snd (box_center z)) = zid.
Proof.
  intro Hin. apply in_split in Hin as (pre & later & Hsplit).
  apply (detect_at_center sqrt sqrt_zero sqrt_pos (V2.init db) pre later zid z).
  - exact Hsplit.
  - apply (centers_ok_split V2._initialize_complete_zone_mappings [] pre later);
      [vm_compute; reflexivity | exact Hsplit].
Qed.

Lemma heron_pos (n : nat) (a x : Q) : 0 < a -> 0 < x -> 0 < heron n a x.
Proof.
  intro Ha. revert x. induction n as [|n IH]; intros x Hx; [exact Hx|].
  cbn [heron]. apply IH. rewrite Qred_correct.
  assert (Hq : 0 < a / x) by (apply Qlt_shift_div_l; lra).
  apply Qlt_shift_div_l; lra.
Qed.

Lemma sqrt_approx_zero (x : Q) : x == 0 -> sqrt_approx x == 0.
Proof.
  intro Hx. unfold sqrt_approx. destruct (Qleb_spec x 0); [reflexivity | lra].
Qed.

Lemma sqrt_approx_pos (x : Q) : 0 < x -> 0 < sqrt_approx x.
Proof.
  intro Hx. unfold sqrt_approx. destruct (Qleb_spec x 0); [lra |].
  apply heron_pos; [exact Hx |]. rewrite Qred_correct.
  apply Qlt_shift_div_l; lra.
Qed.

Lemma zone_center_detects_zone_witness :
  Forall (fun item =>
            V2.detect_zone_from_coordinates sqrt_approx sample_engine
              (fst (box_center (snd item))) (snd (box_center (snd item)))
            = fst item)
         V2._initialize_complete_zone_mappings.
Proof.
  apply Forall_forall. intros [zid z] Hin.
  exact (zone_center_detects_zone sqrt_approx sqrt_approx_zero sqrt_approx_pos
           sample_database zid z Hin).
Defined.

(** C7, as the code has it.  With an empty zone catalog
    [detect_zone_from_coordinates] raises nothing: both loops are skipped
    and every point gets the default id "Zone_10_Southern_Plateau". *)
Theorem empty_catalog_default_zone (sqrt : Q -> Q) (self : Engine) (lat lon : Q) :
  zone_mappings self = [] ->
  V2.detect_zone_from_coordinates sqrt self lat lon = "Zone_10_Southern_Plateau".
Proof.
  intro H. unfold V2.detect_zone_from_coordinates. rewrite H. reflexivity.
Qed.

Lemma empty_catalog_default_zone_witness :
  V2.detect_zone_from_coordinates sqrt_approx empty_catalog_engine 0 0
  = "Zone_10_Southern_Plateau".
Proof. apply empty_catalog_default_zone. reflexivity. Defined.

(** With no zones in the catalog the detector still returns a zone id,
    and the batch run ends normally, with every farm dropped. *)
Lemma empty_catalog_returns_a_zone :
  zone_mappings empty_catalog_engine = []
  /\ V2.detect_zone_from_coordinates sqrt_approx empty_catalog_engine 16 77
     = "Zone_10_Southern_Plateau"
  /\ V2.analyze_all_farms sqrt_approx sample_save (fun _ => Returns tt)
       empty_catalog_engine sample_weather sample_satellite sample_soil
     = Returns [].
Proof. repeat split. Qed.

Lemma fold_left_invariant {S A : Type} (P : S -> Prop) (f : S -> A -> S)
  (l : list A) :
  (forall s a, In a l -> P s -> P (f s a)) ->
  forall s, P s -> P (fold_left f l s).
Proof.
  induction l as [|a l IH]; intros Hstep s Hs; [exact Hs|].
  cbn [fold_left]. apply IH.
  - intros s' a' Hin. apply Hstep. now right.
  - apply Hstep; [now left | exact Hs].
Qed.

Lemma dict_get_key {V : Type} (d : list (string * V)) (k : string) :
  In k (map fst d) -> exists v, dict_get d k = Some v.
Proof.
  induction d as [|[k' v'] d IH]; intros Hin; [contradiction|].
  cbn [dict_get]. destruct (String.eqb_spec k' k) as [|Hne]; [now eexists|].
  apply IH. destruct Hin as [E|]; [cbn in E; congruence | assumption].
Qed.

(** The detector answers with a key of the catalog or with the default. *)
Lemma detect_key_or_default (sqrt : Q -> Q) (self : Engine) (lat lon : Q) :
  In (V2.detect_zone_from_coordinates sqrt self lat lon) (map fst (zone_mappings self))
  \/ V2.detect_zone_from_coordinates sqrt self lat lon = "Zone_10_Southern_Plateau".
Proof.
  unfold V2.detect_zone_from_coordinates.
  set (keys := map fst (zone_mappings self)).
  assert (H1 : match fst (fold_left (V2.best_match_step sqrt lat lon)
                            (zone_mappings self) (None, 0)) with
               | Some k => In k keys | None => True end).
  { apply (fold_left_invariant
             (fun st : option string * Q =>
                match fst st with Some k => In k keys | None => True end));
      [| exact I].
    intros [bm bs] [zid z] Hin Hst. unfold V2.best_match_step.
    destruct (Zone.lat_range z), (Zone.lon_range z).
    repeat match goal with
           | |- context [if ?c then _ else _] => destruct c
           end; try exact Hst.
    cbn [fst]. apply (in_map fst _ _ Hin). }
  assert (H2 : match snd (fold_left (V2.closest_zone_step sqrt lat lon)
                            (zone_mappings self) (None, None)) with
               | Some k => In k keys | None => True end).
  { apply (fold_left_invariant
             (fun st : option Q * option string =>
                match snd st with Some k => In k keys | None => True end));
      [| exact I].
    intros [md cz] [zid z] Hin Hst. unfold V2.closest_zone_step.
    destruct (Zone.lat_range z), (Zone.lon_range z).
    repeat match goal with
           | |- context [if ?c then _ else _] => destruct c
           end; try exact Hst.
    cbn [snd]. apply (in_map fst _ _ Hin). }
  destruct (fold_left (V2.best_match_step sqrt lat lon) _ _) as [bm bs].
  destruct (fold_left (V2.closest_zone_step sqrt lat lon) _ _) as [md cz].
  cbn [fst snd] in H1, H2.
  destruct bm as [b|]; cbn [truthy].
  - destruct (negb (String.eqb b "")); [now left|].
    destruct cz as [c|]; cbn [truthy]; [| now right].
    destruct (negb (String.eqb c "")); [now left | now right].
  - destruct cz as [c|]; cbn [truthy]; [| now right].
    destruct (negb (String.eqb c "")); [now left | now right].
Qed.

(** With the engine's own catalog the detected zone is always a key. *)
Lemma detected_zone_known (sqrt : Q -> Q) (db : Database) (lat lon : Q) :
  exists zone_info,
    dict_get (zone_mappings (V2.init db))
      (V2.detect_zone_from_coordinates sqrt (V2.init db) lat lon)
    = Some zone_info.
Proof.
  destruct (detect_key_or_default sqrt (V2.init db) lat lon) as [H | H].
  - now apply dict_get_key.
  - rewrite H. eexists. reflexivity.
Qed.

(* ================================================================== *)
(** * Ranking *)

Section StableSortFacts.

Context {A : Type} (key : A -> Q).

Let above (x y : A) : Prop := key y <= key x.

Lemma insert_desc_Forall (P : A -> Prop) (x : A) (l : list A) :
  P x -> Forall P l -> Forall P (insert_desc key x l).
Proof.
  intros Hx Hl. induction Hl as [|y l Hy Hl IH]; cbn [insert_desc].
  - repeat constructor; assumption.
  - destruct (key y >? key x); repeat constructor; assumption.
Qed.

Lemma insert_desc_sorted (x : A) (l : list A) :
  StronglySorted above l -> StronglySorted above (insert_desc key x l).
Proof.
  intro Hl. induction Hl as [|y l Hl IH Hy]; cbn [insert_desc].
  - repeat constructor.
  - destruct (Qgtb_spec (key y) (key x)) as [Hgt | Hle].
    + constructor; [exact IH |].
      apply insert_desc_Forall; [unfold above; lra | exact Hy].
    + constructor; [constructor; assumption |].
      constructor; [unfold above; lra |].
      eapply Forall_impl; [| exact Hy]. unfold above. intros z Hz. lra.
Qed.

Lemma sort_desc_sorted (l : list A) : StronglySorted above (sort_desc key l).
Proof.
  induction l as [|x l IH]; cbn [sort_desc fold_right]; [constructor |].
  apply insert_desc_sorted, IH.
Qed.

Lemma sort_desc_Forall (P : A -> Prop) (l : list A) :
  Forall P l -> Forall P (sort_desc key l).
Proof.
  intro H. induction H as [|x l Hx Hl IH]; cbn [sort_desc fold_right]; [constructor |].
  apply insert_desc_Forall; assumption.
Qed.

Lemma insert_desc_perm (x : A) (l : list A) :
  Permutation (insert_desc key x l) (x :: l).
Proof.
  induction l as [|y l IH]; cbn [insert_desc]; [reflexivity |].
  destruct (key y >? key x); [| reflexivity].
  rewrite IH. apply perm_swap.
Qed.

Lemma sort_desc_perm (l : list A) : Permutation (sort_desc key l) l.
Proof.
  induction l as [|x l IH]; cbn [sort_desc fold_right]; [constructor |].
  fold (sort_desc key l). rewrite insert_desc_perm. now constructor.
Qed.

(** Stability: the entries with a given key keep their order. *)
Lemma insert_desc_stable (s : Q) (x : A) (l : list A) :
  filter (fun r => Qeq_bool (key r) s) (insert_desc key x l)
  = filter (fun r => Qeq_bool (key r) s) (x :: l).
Proof.
  induction l as [|y l IH]; cbn [insert_desc]; [reflexivity |].
  destruct (Qgtb_spec (key y) (key x)) as [Hgt | Hle]; [| reflexivity].
  cbn [filter] in *. rewrite IH.
  destruct (Qeq_bool_spec (key x) s) as [Hx |]; [| reflexivity].
  destruct (Qeq_bool_spec (key y) s) as [Hy |]; [lra | reflexivity].
Qed.

Lemma sort_desc_stable (s : Q) (l : list A) :
  filter (fun r => Qeq_bool (key r) s) (sort_desc key l)
  = filter (fun r => Qeq_bool (key r) s) l.
Proof.
  induction l as [|x l IH]; [reflexivity |].
  cbn [sort_desc fold_right]. fold (sort_desc key l).
  rewrite insert_desc_stable. cbn [filter]. now rewrite IH.
Qed.

End StableSortFacts.

Lemma Forall_firstn {A : Type} (P : A -> Prop) (n : nat) (l : list A) :
  Forall P l -> Forall P (firstn n l).
Proof.
  intro H. revert n. induction H as [|x l Hx Hl IH]; intros [|n]; cbn [firstn];
    constructor; auto.
Qed.

Lemma StronglySorted_firstn {A : Type} (R : A -> A -> Prop) (n : nat) (l : list A) :
  StronglySorted R l -> StronglySorted R (firstn n l).
Proof.
  intro H. revert n. induction H as [|x l Hl IH Hx]; intros [|n]; cbn [firstn];
    try constructor.
  - apply IH.
  - apply Forall_firstn, Hx.
Qed.

Lemma filter_firstn_prefix {A : Type} (f : A -> bool) (n : nat) (l : list A) :
  exists rest, filter f l = filter f (firstn n l) ++ rest.
Proof.
  exists (filter f (skipn n l)).
  rewrite <- filter_app, firstn_skipn. reflexivity.
Qed.

Lemma slice_to_length {A : Type} (l : list A) (n : Z) :
  (0 <= n)%Z -> (Z.of_nat (List.length (slice_to l n)) <= n)%Z.
Proof.
  intro Hn. unfold slice_to. destruct (Z.leb_spec 0 n); [| lia].
  rewrite length_firstn. lia.
Qed.

Lemma slice_to_firstn {A : Type} (l : list A) (n : Z) :
  exists k, slice_to l n = firstn k l.
Proof. unfold slice_to. destruct (0 <=? n)%Z; eexists; reflexivity. Qed.

Lemma round_half_even_ge_floor (x : Q) : (Qfloor x <= round_half_even x)%Z.
Proof.
  unfold round_half_even.
  repeat match goal with
         | |- context [if ?c then _ else _] => destruct c
         end; lia.
Qed.

(** Rounding a score of at least 0.70 to three places keeps it there. *)
Lemma py_round_3_keeps_threshold (x : Q) : 0.70 <= x -> 0.70 <= py_round x 3.
Proof.
  intro Hx. unfold py_round.
  change (inject_Z (10 ^ Z.of_nat 3)) with 1000.
  apply Qle_shift_div_l; [lra |].
  assert (H : (700 <= round_half_even (x * 1000))%Z).
  { etransitivity; [| apply round_half_even_ge_floor].
    change 700%Z with (Qfloor 700). apply Qfloor_resp_le. lra. }
  rewrite Zle_Qle in H. change (inject_Z 700) with 700 in H. lra.
Qed.

Lemma category_recommendations_threshold (self : Engine) (p : EnhancedFarmProfile)
  (category_name : string) (varieties : list Variety.t) :
  Forall (fun r => 0.70 <= Recommendation.suitability_score r)
         (V2.category_recommendations self p category_name varieties).
Proof.
  unfold V2.category_recommendations.
  induction varieties as [|v vs IH]; cbn [flat_map]; [constructor |].
  destruct (Qgeb_spec (V2.calculate_enhanced_suitability_score self p v) 0.70)
    as [Hge | Hlt]; cbn [app]; [| exact IH].
  constructor; [| exact IH].
  cbn [Recommendation.suitability_score]. now apply py_round_3_keeps_threshold.
Qed.

(** For a count [top_n >= 0], sorting and slicing give a ranked top. *)
Lemma top_recommendations_ranked (top_n : Z) (qualifying : list Recommendation.t) :
  (0 <= top_n)%Z ->
  Forall (fun r => 0.70 <= Recommendation.suitability_score r) qualifying ->
  ranked_top top_n qualifying (V2.top_recommendations top_n qualifying).
Proof.
  intros Hn Hq. unfold ranked_top, V2.top_recommendations.
  split; [now apply slice_to_length |].
  destruct (slice_to_firstn (sort_desc Recommendation.suitability_score qualifying) top_n)
    as [k ->].
  split; [apply Forall_firstn, sort_desc_Forall, Hq |].
  split; [apply StronglySorted_firstn, sort_desc_sorted |].
  intro s. unfold with_score.
  rewrite <- (sort_desc_stable Recommendation.suitability_score s qualifying).
  apply filter_firstn_prefix.
Qed.

(** [generate_recommendations] returns whenever the profile's zone is a
    key of the catalog. *)
Lemma generate_recommendations_returns (self : Engine) (p : EnhancedFarmProfile)
  (top_n : Z) (zone_info : Zone.t) :
  dict_get (zone_mappings self) (detected_zone p) = Some zone_info ->
  exists a, V2.generate_recommendations self p top_n = Returns a.
Proof.
  intro H. unfold V2.generate_recommendations.
  destruct (V2._calculate_realistic_carbon_potential _) as [[c cr] rev].
  rewrite H. eexists. reflexivity.
Qed.

(** C4, as the code has it.  For a count [top_n >= 0], each of the
    three lists returned by [generate_recommendations] has at most
    [top_n] entries, no entry scoring below 0.70, scores in descending
    order, and entries of equal score in catalog order. *)
Theorem recommendations_ranked_top (self : Engine) (p : EnhancedFarmProfile)
  (top_n : Z) (a : Analysis.t) :
  (0 <= top_n)%Z ->
  V2.generate_recommendations self p top_n = Returns a ->
  ranked_top top_n
    (V2.category_recommendations self p "rice" (rice_varieties (database self)))
    (rice (Analysis.recommendations a))
  /\ ranked_top top_n
       (V2.category_recommendations self p "agroforestry"
          (agroforestry_species (database self)))
       (agroforestry (Analysis.recommendations a))
  /\ ranked_top top_n
       (V2.category_recommendations self p "crops" (crop_varieties (database self)))
       (crops (Analysis.recommendations a)).
Proof.
  intros Hn Ha. unfold V2.generate_recommendations in Ha.
  destruct (V2._calculate_realistic_carbon_potential _) as [[c cr] rev].
  destruct (dict_get _ _); [| discriminate].
  injection Ha as <-. cbn [Analysis.recommendations rice agroforestry crops].
  repeat split;
    apply top_recommendations_ranked; auto using category_recommendations_threshold.
Qed.

Lemma recommendations_ranked_top_witness :
  exists a,
    V2.generate_recommendations sample_engine sample_profile 2 = Returns a
    /\ ranked_top 2
         (V2.category_recommendations sample_engine sample_profile "rice"
            (rice_varieties (database sample_engine)))
         (rice (Analysis.recommendations a)).
Proof.
  eexists. split; [vm_compute; reflexivity |].
  refine (proj1 (recommendations_ranked_top sample_engine sample_profile 2 _ _ eq_refl)).
  lia.
Defined.

(** With [top_n = -1] the slice drops only the last entry: the rice list
    of the sample farm keeps two of its three qualifying entries, more
    than [top_n]. *)
Lemma negative_top_n_exceeds_bound :
  exists a,
    V2.generate_recommendations sample_engine sample_profile (-1) = Returns a
    /\ List.length (rice (Analysis.recommendations a)) = 2%nat
    /\ ~ (Z.of_nat (List.length (rice (Analysis.recommendations a))) <= -1)%Z.
Proof.
  eexists. split; [vm_compute; reflexivity |].
  split; [reflexivity | vm_compute; congruence].
Qed.

(* ================================================================== *)
(** * The batch loop *)

Lemma dict_get_set_same {V : Type} (d : list (string * V)) (k : string) (v : V) :
  dict_get (dict_set d k v) k = Some v.
Proof.
  induction d as [|[k' v'] d IH]; cbn [dict_set dict_get].
  - now rewrite String.eqb_refl.
  - destruct (String.eqb_spec k' k) as [-> | Hne]; cbn [dict_get].
    + now rewrite String.eqb_refl.
    + destruct (String.eqb_spec k' k); [contradiction | exact IH].
Qed.

Lemma dict_get_set_other {V : Type} (d : list (string * V)) (k k' : string) (v : V) :
  k <> k' -> dict_get (dict_set d k v) k' = dict_get d k'.
Proof.
  intro Hne. induction d as [|[k0 v0] d IH]; cbn [dict_set dict_get].
  - destruct (String.eqb_spec k k'); [contradiction | reflexivity].
  - destruct (String.eqb_spec k0 k) as [-> | Hk]; cbn [dict_get].
    + destruct (String.eqb_spec k k'); [contradiction | reflexivity].
    + destruct (String.eqb_spec k0 k'); [reflexivity | exact IH].
Qed.

Lemma unique_In (x : string) (l : list string) : In x (unique l) <-> In x l.
Proof.
  induction l as [|y l IH]; cbn [unique]; [reflexivity |].
  cbn [In]. rewrite filter_In, IH.
  destruct (String.eqb_spec y x) as [-> | Hne]; cbn [negb]; intuition congruence.
Qed.

Section BatchFacts.

Variable sqrt : Q -> Q.
Variable save : Analysis.t -> outcome string.
Variable self : Engine.
Variable weather_df : list Weather.row.
Variable satellite_df : list Satellite.row.
Variable soil_df : list Soil.row.

Let run_farm := V2.analyze_farm sqrt save self weather_df satellite_df soil_df.
Let run_loop := V2.analyze_farm_ids sqrt save self weather_df satellite_df soil_df.

(** A farm whose analysis raises leaves its key as it was, whatever
    else is in the batch. *)
Lemma failed_farm_leaves_no_entry (fid : string) (e : exn)
  (farm_ids : list string) (all_results : list (string * BatchEntry.t)) :
  run_farm fid = Raises e ->
  dict_get (run_loop farm_ids all_results) fid = dict_get all_results fid.
Proof.
  intro Hfail. revert all_results.
  induction farm_ids as [|x ids IH]; intro acc; [reflexivity |].
  unfold run_loop, V2.analyze_farm_ids in *. cbn [fold_left]. rewrite IH.
  fold run_farm.
  destruct (run_farm x) as [entry |] eqn:Hx; [| reflexivity].
  apply dict_get_set_other. intros ->. unfold run_farm in *. congruence.
Qed.

(** A farm whose analysis returns has its entry at the end of the loop,
    whatever happens to the farms before and after it. *)
Lemma analyzed_farm_has_entry (fid : string) (entry : BatchEntry.t)
  (farm_ids : list string) (all_results : list (string * BatchEntry.t)) :
  run_farm fid = Returns entry ->
  In fid farm_ids \/ dict_get all_results fid = Some entry ->
  dict_get (run_loop farm_ids all_results) fid = Some entry.
Proof.
  intro Hok. revert all_results.
  induction farm_ids as [|x ids IH]; intros acc Hin.
  - destruct Hin as [[] | H]. exact H.
  - unfold run_loop, V2.analyze_farm_ids in *. cbn [fold_left]. apply IH.
    fold run_farm.
    destruct (String.eqb_spec x fid) as [-> | Hne].
    + right. rewrite Hok. apply dict_get_set_same.
    + destruct Hin as [[E | Hin] | Hacc]; [contradiction | now left |].
      right. destruct (run_farm x); [| exact Hacc].
      now rewrite dict_get_set_other.
Qed.

End BatchFacts.

(** With the engine's catalog and a working file writer, the analysis of
    a farm that has weather rows returns. *)
Lemma analyze_farm_returns (sqrt : Q -> Q) (save : Analysis.t -> outcome string)
  (db : Database) (weather_df : list Weather.row)
  (satellite_df : list Satellite.row) (soil_df : list Soil.row) (fid : string) :
  (forall a, exists f, save a = Returns f) ->
  weather_rows weather_df fid <> [] ->
  exists entry,
    V2.analyze_farm sqrt save (V2.init db) weather_df satellite_df soil_df fid
    = Returns entry.
Proof.
  intros Hsave Hrows.
  destruct (weather_rows weather_df fid) as [|first_row rest] eqn:Hw; [contradiction |].
  destruct (create_farm_profile_returns sqrt (V2.init db) weather_df satellite_df
              soil_df fid first_row rest Hw) as (p & Hp & Hzone).
  destruct (detected_zone_known sqrt db (Weather.lat first_row) (Weather.lon first_row))
    as [zone_info Hz].
  rewrite <- Hzone in Hz.
  destruct (generate_recommendations_returns (V2.init db) p 5 zone_info Hz) as [a Ha].
  destruct (Hsave a) as [f Hf].
  unfold V2.analyze_farm. rewrite Hp. cbn [bind]. rewrite Ha. cbn [bind].
  rewrite Hf. cbn [bind]. eexists. reflexivity.
Qed.

(** C9. In a batch over any list of farm ids, a farm without weather
    rows fails in profile construction with a [ValueError] and only
    loses its own entry, while every farm of the batch that has weather
    rows is analysed and has its entry in the result (the file writer
    being assumed to work). *)
Theorem batch_skips_farm_without_weather
  (sqrt : Q -> Q) (save : Analysis.t -> outcome string) (db : Database)
  (weather_df : list Weather.row) (satellite_df : list Satellite.row)
  (soil_df : list Soil.row) (farm_ids : list string) (fid : string) :
  (forall a, exists f, save a = Returns f) ->
  In fid farm_ids ->
  (weather_rows weather_df fid = [] ->
   (exists msg,
      V2.create_farm_profile_from_data sqrt (V2.init db) weather_df satellite_df
        soil_df fid = Raises (ValueError msg))
   /\ dict_get (V2.analyze_farm_ids sqrt save (V2.init db) weather_df satellite_df
                  soil_df farm_ids []) fid = None)
  /\ (weather_rows weather_df fid <> [] ->
      exists entry,
        V2.analyze_farm sqrt save (V2.init db) weather_df satellite_df soil_df fid
        = Returns entry
        /\ dict_get (V2.analyze_farm_ids sqrt save (V2.init db) weather_df
                       satellite_df soil_df farm_ids []) fid = Some entry).
Proof.
  intros Hsave Hin. split.
  - intro Hnone.
    pose proof (create_farm_profile_raises sqrt (V2.init db) weather_df satellite_df
                  soil_df fid Hnone) as Hraise.
    split; [eexists; exact Hraise |].
    rewrite (failed_farm_leaves_no_entry sqrt save (V2.init db) weather_df
               satellite_df soil_df fid
               (ValueError (String.append "No weather data found for farm " fid)));
      [reflexivity |].
    unfold V2.analyze_farm. now rewrite Hraise.
  - intro Hrows.
    destruct (analyze_farm_returns sqrt save db weather_df satellite_df soil_df fid
                Hsave Hrows) as [entry He].
    exists entry. split; [exact He |].
    apply analyzed_farm_has_entry; [exact He | now left].
Qed.

Lemma sample_save_works : forall a, exists f, sample_save a = Returns f.
Proof. intro a. eexists. reflexivity. Qed.

Lemma batch_skips_farm_without_weather_witness :
  dict_get (V2.analyze_farm_ids sqrt_approx sample_save sample_engine sample_weather
              sample_satellite sample_soil ["F1"; "F3"; "F2"] []) "F3" = None
  /\ exists entry,
       dict_get (V2.analyze_farm_ids sqrt_approx sample_save sample_engine
                   sample_weather sample_satellite sample_soil ["F1"; "F3"; "F2"] [])
         "F2" = Some entry.
Proof.
  split.
  - apply (batch_skips_farm_without_weather sqrt_approx sample_save sample_database
             sample_weather sample_satellite sample_soil ["F1"; "F3"; "F2"] "F3"
             sample_save_works).
    + simpl; auto.
    + reflexivity.
  - destruct (proj2 (batch_skips_farm_without_weather sqrt_approx sample_save
                       sample_database sample_weather sample_satellite sample_soil
                       ["F1"; "F3"; "F2"] "F2" sample_save_works
                       ltac:(simpl; auto)))
      as (entry & _ & He); [vm_compute; discriminate |].
    exists entry. exact He.
Defined.

(** [analyze_all_farms] runs the loop over the farm ids of the weather
    frame: when the combined file is written, every such farm is in the
    result. *)
Corollary analyze_all_farms_covers_weather_farms
  (sqrt : Q -> Q) (save : Analysis.t -> outcome string)
  (dump : list (string * BatchEntry.t) -> outcome unit) (db : Database)
  (weather_df : list Weather.row) (satellite_df : list Satellite.row)
  (soil_df : list Soil.row) :
  (forall a, exists f, save a = Returns f) ->
  (forall r, dump r = Returns tt) ->
  exists results,
    V2.analyze_all_farms sqrt save dump (V2.init db) weather_df satellite_df soil_df
    = Returns results
    /\ forall row, In row weather_df ->
         exists entry, dict_get results (Weather.farm_id row) = Some entry.
Proof.
  intros Hsave Hdump. unfold V2.analyze_all_farms. rewrite Hdump. cbn [bind].
  eexists. split; [reflexivity |]. intros row Hrow.
  assert (Hin : In (Weather.farm_id row) (unique (map Weather.farm_id weather_df)))
    by (apply unique_In, in_map, Hrow).
  assert (Hrows : weather_rows weather_df (Weather.farm_id row) <> []).
  { intro Hnil.
    assert (Hf : In row (weather_rows weather_df (Weather.farm_id row))).
    { unfold weather_rows. apply filter_In. split; [exact Hrow | apply String.eqb_refl]. }
    rewrite Hnil in Hf. exact Hf. }
  destruct (analyze_farm_returns sqrt save db weather_df satellite_df soil_df _
              Hsave Hrows) as [entry He].
  exists entry. apply analyzed_farm_has_entry; [exact He | now left].
Qed.

(* ================================================================== *)
(** * Zone detection: the two loops *)

Lemma score_pos (d : Q) : 0 <= d -> 0 < 1.0 / (1.0 + d).
Proof. intro Hd. apply Qlt_shift_div_l; lra. Qed.

Section ZoneLoops.

Variable sqrt : Q -> Q.

Lemma closest_zone_step_eq (lat lon : Q) (md : option Q) (cz : option string)
  (zid : string) (z : Zone.t) :
  V2.closest_zone_step sqrt lat lon (md, cz) (zid, z)
  = if match md with
       | None => true
       | Some m => center_distance sqrt z lat lon <? m
       end
    then (Some (center_distance sqrt z lat lon), Some zid)
    else (md, cz).
Proof.
  unfold V2.closest_zone_step, center_distance, sq_distance, box_center.
  destruct (Zone.lat_range z), (Zone.lon_range z). reflexivity.
Qed.

(** After the second loop over a catalog that is not empty, the state
    holds the first zone among those nearest to the point. *)
Lemma closest_zone_fold (lat lon : Q) (zones : list (string * Zone.t)) :
  zones <> [] ->
  exists earlier zid z later,
    zones = earlier ++ (zid, z) :: later
    /\ fold_left (V2.closest_zone_step sqrt lat lon) zones (None, None)
       = (Some (center_distance sqrt z lat lon), Some zid)
    /\ Forall (fun other => center_distance sqrt z lat lon
                            < center_distance sqrt (snd other) lat lon) earlier
    /\ Forall (fun other => center_distance sqrt z lat lon
                            <= center_distance sqrt (snd other) lat lon) later.
Proof.
  induction zones as [|[zid' z'] zones IH] using rev_ind; [congruence |].
  intros _. rewrite fold_left_app. cbn [fold_left].
  destruct zones as [|first rest].
  - cbn [fold_left]. rewrite closest_zone_step_eq.
    exists [], zid', z', []. repeat split; constructor.
  - destruct IH as (earlier & zid & z & later & Hsplit & Hfold & Hearlier & Hlater);
      [discriminate |].
    rewrite Hfold, closest_zone_step_eq.
    destruct (Qltb_spec (center_distance sqrt z' lat lon)
                        (center_distance sqrt z lat lon)) as [Hlt | Hge].
    + exists (first :: rest), zid', z', []. repeat split; [| constructor].
      rewrite Hsplit. apply Forall_app. split.
      * eapply Forall_impl; [| exact Hearlier]. cbn beta. intros a Ha. lra.
      * constructor; [exact Hlt |].
        eapply Forall_impl; [| exact Hlater]. cbn beta. intros a Ha. lra.
    + exists earlier, zid, z, (later ++ [(zid', z')]). repeat split.
      * rewrite Hsplit, <- app_assoc. reflexivity.
      * exact Hearlier.
      * apply Forall_app. split; [exact Hlater |].
        constructor; [cbn [snd]; lra | constructor].
Qed.

(** While no box contains the point the first loop keeps its initial
    state. *)
Lemma best_match_none (lat lon : Q) (zones : list (string * Zone.t)) :
  Forall (fun item => in_box (snd item) lat lon = false) zones ->
  fold_left (V2.best_match_step sqrt lat lon) zones (None, 0) = (None, 0).
Proof.
  induction 1 as [|[zid z] zones Hz Hzones IH]; [reflexivity |].
  cbn [fold_left]. rewrite best_match_step_eq. cbn [snd] in Hz. rewrite Hz. exact IH.
Qed.

(** X1. For a point that no bounding box contains, the detector returns
    the zone whose box center is nearest to the point; among zones at the
    same distance, the first of the catalog. *)
Theorem fallback_detects_nearest_center (self : Engine) (lat lon : Q) :
  zone_mappings self <> [] ->
  Forall (fun item => fst item <> "") (zone_mappings self) ->
  Forall (fun item => in_box (snd item) lat lon = false) (zone_mappings self) ->
  exists earlier zid z later,
    zone_mappings self = earlier ++ (zid, z) :: later
    /\ V2.detect_zone_from_coordinates sqrt self lat lon = zid
    /\ Forall (fun other => center_distance sqrt z lat lon
                            < center_distance sqrt (snd other) lat lon) earlier
    /\ Forall (fun other => center_distance sqrt z lat lon
                            <= center_distance sqrt (snd other) lat lon) later.
Proof.
  intros Hne Hids Hout.
  destruct (closest_zone_fold lat lon (zone_mappings self) Hne)
    as (earlier & zid & z & later & Hsplit & Hfold & Hearlier & Hlater).
  exists earlier, zid, z, later. repeat split; auto.
  unfold V2.detect_zone_from_coordinates.
  rewrite (best_match_none lat lon _ Hout), Hfold. cbn [truthy].
  rewrite Hsplit in Hids. apply Forall_app in Hids as [_ Hids].
  inversion Hids as [|? ? Hzid _]. cbn [fst] in Hzid.
  destruct (String.eqb_spec zid ""); [contradiction | reflexivity].
Qed.

Hypothesis sqrt_nonneg' : forall x, 0 <= x -> 0 <= sqrt x.

(** After the first loop, either no zone seen so far contains the point,
    or the state holds the first of the best-scoring zones that do. *)
Lemma best_match_fold (lat lon : Q) (zones : list (string * Zone.t)) :
  (Forall (fun item => in_box (snd item) lat lon = false) zones
   /\ fold_left (V2.best_match_step sqrt lat lon) zones (None, 0) = (None, 0))
  \/ exists earlier zid z later,
       zones = earlier ++ (zid, z) :: later
       /\ fold_left (V2.best_match_step sqrt lat lon) zones (None, 0)
          = (Some zid, box_score sqrt z lat lon)
       /\ in_box z lat lon = true
       /\ Forall (fun other => in_box (snd other) lat lon = true ->
                               box_score sqrt (snd other) lat lon
                               < box_score sqrt z lat lon) earlier
       /\ Forall (fun other => in_box (snd other) lat lon = true ->
                               box_score sqrt (snd other) lat lon
                               <= box_score sqrt z lat lon) later.
Proof.
  induction zones as [|[zid' z'] zones IH] using rev_ind.
  - left. split; [constructor | reflexivity].
  - rewrite fold_left_app. cbn [fold_left].
    destruct IH as [[Hout Hfold] | (earlier & zid & z & later & Hsplit & Hfold
                                    & Hin & Hearlier & Hlater)];
      rewrite Hfold, best_match_step_eq; fold (box_score sqrt z' lat lon).
    + destruct (in_box z' lat lon) eqn:Hin'.
      * right.
        pose proof (score_pos _ (sqrt_nonneg' _ (sq_distance_nonneg z' lat lon))) as Hpos.
        fold (box_score sqrt z' lat lon) in Hpos.
        destruct (Qgtb_spec (box_score sqrt z' lat lon) 0); [| contradiction].
        exists zones, zid', z', []. repeat split; auto.
        eapply Forall_impl; [| exact Hout]. cbn beta. intros a Ha Hb. congruence.
      * left. split; [| reflexivity].
        apply Forall_app. split; [exact Hout | now repeat constructor].
    + right. destruct (in_box z' lat lon) eqn:Hin'.
      * destruct (Qgtb_spec (box_score sqrt z' lat lon) (box_score sqrt z lat lon))
          as [Hgt | Hle].
        -- exists zones, zid', z', []. repeat split; auto.
           rewrite Hsplit. apply Forall_app. split.
           ++ eapply Forall_impl; [| exact Hearlier]. cbn beta.
              intros a Ha Hb. specialize (Ha Hb). lra.
           ++ constructor; [intros _; exact Hgt |].
              eapply Forall_impl; [| exact Hlater]. cbn beta.
              intros a Ha Hb. specialize (Ha Hb). lra.
        -- exists earlier, zid, z, (later ++ [(zid', z')]). repeat split; auto.
           ++ rewrite Hsplit, <- app_assoc. reflexivity.
           ++ apply Forall_app. split; [exact Hlater |].
              constructor; [intros _; cbn [snd]; lra | constructor].
      * exists earlier, zid, z, (later ++ [(zid', z')]). repeat split; auto.
        -- rewrite Hsplit, <- app_assoc. reflexivity.
        -- apply Forall_app. split; [exact Hlater |].
           constructor; [cbn [snd]; congruence | constructor].
Qed.

(** X2. For a point that lies in at least one bounding box, the detector
    returns a zone whose box contains the point and whose score
    1/(1+distance to the center) is the highest among the zones that
    contain it; among equal scores, the first of the catalog. *)
Theorem containing_zone_with_best_score (self : Engine) (lat lon : Q) :
  Forall (fun item => fst item <> "") (zone_mappings self) ->
  Exists (fun item => in_box (snd item) lat lon = true) (zone_mappings self) ->
  exists earlier zid z later,
    zone_mappings self = earlier ++ (zid, z) :: later
    /\ V2.detect_zone_from_coordinates sqrt self lat lon = zid
    /\ in_box z lat lon = true
    /\ Forall (fun other => in_box (snd other) lat lon = true ->
                            box_score sqrt (snd other) lat lon
                            < box_score sqrt z lat lon) earlier
    /\ Forall (fun other => in_box (snd other) lat lon = true ->
                            box_score sqrt (snd other) lat lon
                            <= box_score sqrt z lat lon) later.
Proof.
  intros Hids Hex.
  destruct (best_match_fold lat lon (zone_mappings self))
    as [[Hout _] | (earlier & zid & z & later & Hsplit & Hfold & Hin & He & Hl)].
  - exfalso. apply Exists_exists in Hex as (item & Hitem & Hbox).
    rewrite Forall_forall in Hout. specialize (Hout item Hitem). congruence.
  - exists earlier, zid, z, later. repeat split; auto.
    unfold V2.detect_zone_from_coordinates. rewrite Hfold. cbn [truthy].
    rewrite Hsplit in Hids. apply Forall_app in Hids as [_ Hids].
    inversion Hids as [|? ? Hzid _]. cbn [fst] in Hzid.
    destruct (String.eqb_spec zid ""); [contradiction | reflexivity].
Qed.

End ZoneLoops.

Lemma sqrt_approx_nonneg (x : Q) : 0 <= x -> 0 <= sqrt_approx x.
Proof.
  intro Hx. destruct (Qlt_le_dec 0 x) as [H | H].
  - apply Qlt_le_weak, sqrt_approx_pos, H.
  - rewrite (sqrt_approx_zero x); lra.
Qed.

Lemma catalog_ids_nonempty :
  Forall (fun item : string * Zone.t => fst item <> "")
         V2._initialize_complete_zone_mappings.
Proof. repeat constructor; discriminate. Qed.

Lemma fallback_detects_nearest_center_witness :
  exists earlier zid z later,
    zone_mappings sample_engine = earlier ++ (zid, z) :: later
    /\ V2.detect_zone_from_coordinates sqrt_approx sample_engine 0 0 = zid
    /\ Forall (fun other => center_distance sqrt_approx z 0 0
                            < center_distance sqrt_approx (snd other) 0 0) earlier
    /\ Forall (fun other => center_distance sqrt_approx z 0 0
                            <= center_distance sqrt_approx (snd other) 0 0) later.
Proof.
  apply fallback_detects_nearest_center.
  - discriminate.
  - exact catalog_ids_nonempty.
  - repeat constructor.
Defined.

Lemma containing_zone_with_best_score_witness :
  exists earlier zid z later,
    zone_mappings sample_engine = earlier ++ (zid, z) :: later
    /\ V2.detect_zone_from_coordinates sqrt_approx sample_engine 13 77 = zid
    /\ in_box z 13 77 = true
    /\ Forall (fun other => in_box (snd other) 13 77 = true ->
                            box_score sqrt_approx (snd other) 13 77
                            < box_score sqrt_approx z 13 77) earlier
    /\ Forall (fun other => in_box (snd other) 13 77 = true ->
                            box_score sqrt_approx (snd other) 13 77
                            <= box_score sqrt_approx z 13 77) later.
Proof.
  apply containing_zone_with_best_score.
  - exact sqrt_approx_nonneg.
  - exact catalog_ids_nonempty.
  - repeat first [ apply Exists_cons_hd; vm_compute; reflexivity
                 | apply Exists_cons_tl ].
Defined.

(* ================================================================== *)
(** * Soil pH and the aggregates of a profile *)

Lemma fix_soil_ph_value_pos (r : reading) : 0 < V2._fix_soil_ph_value r.
Proof.
  assert (Hdiv100 : forall v : Q, v / 100 == v * (1 # 100)) by (intro; field).
  assert (Hdiv10 : forall v : Q, v / 10 == v * (1 # 10)) by (intro; field).
  destruct r as [| v]; unfold V2._fix_soil_ph_value; [lra |].
  destruct (Qleb_spec v 0); [lra |].
  destruct (Qgtb_spec v 14); [| lra].
  destruct (Qgtb_spec v 100); [rewrite Hdiv100 | rewrite Hdiv10]; lra.
Qed.

(** X3. The corrected pH is always positive; a raw value up to 1400 ends
    in (0, 14] and correcting it again changes nothing, while a raw value
    above 1400 is still above 14 after the correction. *)
Theorem fix_soil_ph_value_range :
  (forall r, 0 < V2._fix_soil_ph_value r)
  /\ (forall v, v <= 1400 ->
        V2._fix_soil_ph_value (Num v) <= 14
        /\ V2._fix_soil_ph_value (Num (V2._fix_soil_ph_value (Num v)))
           == V2._fix_soil_ph_value (Num v))
  /\ (forall v, 1400 < v -> 14 < V2._fix_soil_ph_value (Num v)).
Proof.
  assert (Hdiv100 : forall v : Q, v / 100 == v * (1 # 100)) by (intro; field).
  assert (Hdiv10 : forall v : Q, v / 10 == v * (1 # 10)) by (intro; field).
  pose proof fix_soil_ph_value_pos as Hpos.
  assert (Hid : forall w, 0 < w -> w <= 14 -> V2._fix_soil_ph_value (Num w) = w).
  { intros w H0 H14. unfold V2._fix_soil_ph_value.
    destruct (Qleb_spec w 0); [lra |].
    destruct (Qgtb_spec w 14); [lra | reflexivity]. }
  split; [exact Hpos | split].
  - intros v Hv.
    assert (Hle : V2._fix_soil_ph_value (Num v) <= 14).
    { unfold V2._fix_soil_ph_value.
      destruct (Qleb_spec v 0); [lra |].
      destruct (Qgtb_spec v 14); [| lra].
      destruct (Qgtb_spec v 100); [rewrite Hdiv100 | rewrite Hdiv10]; lra. }
    split; [exact Hle |].
    rewrite (Hid _ (Hpos (Num v)) Hle). reflexivity.
  - intros v Hv. unfold V2._fix_soil_ph_value.
    destruct (Qleb_spec v 0); [lra |].
    destruct (Qgtb_spec v 14); [| lra].
    destruct (Qgtb_spec v 100); [rewrite Hdiv100 | rewrite Hdiv10]; lra.
Qed.

Lemma fix_soil_ph_value_range_witness :
  V2._fix_soil_ph_value (Num 690) <= 14
  /\ 14 < V2._fix_soil_ph_value (Num 5000).
Proof.
  destruct fix_soil_ph_value_range as (_ & H1 & H2).
  split; [apply H1; lra | apply H2; lra].
Defined.

Lemma Qsum_from (xs : list Q) (a : Q) : fold_left Qplus xs a == a + Qsum xs.
Proof.
  unfold Qsum. revert a. induction xs as [|x xs IH]; intro a; cbn [fold_left].
  - ring.
  - rewrite (IH (a + x)), (IH (0 + x)). ring.
Qed.

Lemma Qsum_cons (x : Q) (xs : list Q) : Qsum (x :: xs) == x + Qsum xs.
Proof. unfold Qsum at 1. cbn [fold_left]. rewrite Qsum_from. ring. Qed.

(** A sum over rows splits along any test. *)
Lemma Qsum_partition {A : Type} (f : A -> Q) (t : A -> bool) (l : list A) :
  Qsum (map f l)
  == Qsum (map f (filter t l)) + Qsum (map f (filter (fun x => negb (t x)) l)).
Proof.
  induction l as [|x l IH]; [reflexivity |].
  cbn [map filter]. destruct (t x); cbn [negb map]; rewrite !Qsum_cons, IH; ring.
Qed.

Lemma Qsum_nonneg {A : Type} (f : A -> Q) (l : list A) :
  Forall (fun x => 0 <= f x) l -> 0 <= Qsum (map f l).
Proof.
  induction 1 as [|x l Hx Hl IH]; cbn [map]; [unfold Qsum; cbn; lra |].
  rewrite Qsum_cons. lra.
Qed.

Lemma filter_filter_swap {A : Type} (f g : A -> bool) (l : list A) :
  filter f (filter g l) = filter (fun x => g x && f x) l.
Proof. symmetry. apply filter_andb. Qed.

Lemma filter_ext_in' {A : Type} (f g : A -> bool) (l : list A) :
  (forall x, In x l -> f x = g x) -> filter f l = filter g l.
Proof.
  induction l as [|x l IH]; intro H; [reflexivity |].
  cbn [filter]. rewrite (H x (or_introl eq_refl)), IH; [reflexivity |].
  intros y Hy. apply H. now right.
Qed.


(** The weather part of a profile, read off the farm's rows. *)
Lemma profile_weather_fields (sqrt : Q -> Q) (self : Engine)
  (weather_df : list Weather.row) (satellite_df : list Satellite.row)
  (soil_df : list Soil.row) (fid : string) (p : EnhancedFarmProfile) :
  V2.create_farm_profile_from_data sqrt self weather_df satellite_df soil_df fid
  = Returns p ->
  let rows := weather_rows weather_df fid in
  rows <> []
  /\ farm_id p = fid
  /\ detected_zone p = V2.detect_zone_from_coordinates sqrt self (lat p) (lon p)
  /\ total_rainfall p = Qsum (map Weather.precip rows)
  /\ rainy_days p = V2.count (fun r => Weather.precip r >? 0) rows
  /\ drought_stress_days p = V2.count (fun r => Qeq_bool (Weather.precip r) 0) rows
  /\ heat_stress_days p = V2.count (fun r => Weather.temp_max r >? 35) rows
  /\ kharif_rainfall p
     = Qsum (map Weather.precip (filter (in_months [6; 7; 8; 9; 10]%Z) rows))
  /\ rabi_rainfall p
     = Qsum (map Weather.precip (filter (in_months [11; 12; 1; 2; 3]%Z) rows))
  /\ avg_temp p = mean (map Weather.temp rows)
  /\ avg_humidity p = mean (map Weather.humidity rows)
  /\ recent_rainfall p = Qsum (map Weather.precip (tail_rows 30 rows))
  /\ recent_avg_temp p = mean (map Weather.temp (tail_rows 30 rows))
  /\ recent_avg_humidity p = mean (map Weather.humidity (tail_rows 30 rows)).
Proof.
  intros Hp rows. subst rows. unfold weather_rows.
  unfold V2.create_farm_profile_from_data in Hp.
  destruct (filter _ weather_df) as [|first_row rest]; [discriminate |].
  destruct (match filter _ soil_df with [] => _ | _ :: _ => _ end)
    as [[[[[[[[? ?] ?] ?] ?] ?] ?] ?] ?].
  destruct (match filter _ satellite_df with [] => _ | _ :: _ => _ end)
    as [[? ?] ?].
  injection Hp as <-. cbn -[Qsum mean tail_rows filter V2.count map].
  repeat split; try reflexivity. discriminate.
Qed.

(** X4. A profile is coherent: it carries the requested farm id, its
    zone is the one detected at its own coordinates, its soil pH is
    positive, and its pH class is the class of that pH (also when the
    soil frame has no row for the farm). *)
Theorem profile_is_coherent (sqrt : Q -> Q) (self : Engine)
  (weather_df : list Weather.row) (satellite_df : list Satellite.row)
  (soil_df : list Soil.row) (fid : string) (p : EnhancedFarmProfile) :
  V2.create_farm_profile_from_data sqrt self weather_df satellite_df soil_df fid
  = Returns p ->
  farm_id p = fid
  /\ detected_zone p = V2.detect_zone_from_coordinates sqrt self (lat p) (lon p)
  /\ 0 < soil_ph_avg p
  /\ ph_status p = V2._classify_ph_status (soil_ph_avg p).
Proof.
  intro Hp.
  destruct (profile_weather_fields sqrt self weather_df satellite_df soil_df fid p Hp)
    as (_ & Hid & Hzone & _).
  split; [exact Hid | split; [exact Hzone |]].
  unfold V2.create_farm_profile_from_data in Hp.
  destruct (filter _ weather_df) as [|first_row rest]; [discriminate |].
  destruct (match filter _ satellite_df with [] => _ | _ :: _ => _ end)
    as [[? ?] ?].
  destruct (filter _ soil_df) as [|soil_row soil_rest].
  - injection Hp as <-. cbn [soil_ph_avg ph_status]. split; [lra | reflexivity].
  - injection Hp as <-. cbn [soil_ph_avg ph_status]. split; [| reflexivity].
    apply fix_soil_ph_value_pos.
Qed.

Lemma profile_is_coherent_witness :
  exists p,
    V2.create_farm_profile_from_data sqrt_approx sample_engine sample_weather
      sample_satellite sample_soil "F2" = Returns p
    /\ ph_status p = V2._classify_ph_status (soil_ph_avg p).
Proof.
  eexists. split; [vm_compute; reflexivity |].
  apply (profile_is_coherent sqrt_approx sample_engine sample_weather
           sample_satellite sample_soil "F2" _ eq_refl).
Defined.

Lemma day_counts (rows : list Weather.row) :
  (V2.count (fun r => (Weather.precip r >? 0)%Q) rows
   + V2.count (fun r => Qeq_bool (Weather.precip r) 0) rows
   <= Z.of_nat (List.length rows))%Z
  /\ (Forall (fun r => 0 <= Weather.precip r) rows ->
      (V2.count (fun r => (Weather.precip r >? 0)%Q) rows
       + V2.count (fun r => Qeq_bool (Weather.precip r) 0) rows
       = Z.of_nat (List.length rows))%Z).
Proof.
  unfold V2.count. induction rows as [|r rows [IH1 IH2]].
  - split; [cbn; lia | reflexivity].
  - cbn [filter]. split.
    + destruct (Qgtb_spec (Weather.precip r) 0);
        destruct (Qeq_bool_spec (Weather.precip r) 0); cbn [List.length]; try lia; lra.
    + intro H. inversion H as [|? ? Hr Hrows]; subst. specialize (IH2 Hrows).
      destruct (Qgtb_spec (Weather.precip r) 0);
        destruct (Qeq_bool_spec (Weather.precip r) 0); cbn [List.length]; try lia; lra.
Qed.

(** X5. In a profile the rainy days and the drought days never add up to
    more than the farm's weather rows, and they add up to exactly that
    number when no row has negative precipitation. *)
Theorem rainy_and_drought_days (sqrt : Q -> Q) (self : Engine)
  (weather_df : list Weather.row) (satellite_df : list Satellite.row)
  (soil_df : list Soil.row) (fid : string) (p : EnhancedFarmProfile) :
  V2.create_farm_profile_from_data sqrt self weather_df satellite_df soil_df fid
  = Returns p ->
  (rainy_days p + drought_stress_days p
   <= Z.of_nat (List.length (weather_rows weather_df fid)))%Z
  /\ (Forall (fun r => 0 <= Weather.precip r) (weather_rows weather_df fid) ->
      (rainy_days p + drought_stress_days p
       = Z.of_nat (List.length (weather_rows weather_df fid)))%Z).
Proof.
  intro Hp.
  destruct (profile_weather_fields sqrt self weather_df satellite_df soil_df fid p Hp)
    as (_ & _ & _ & _ & -> & -> & _).
  apply day_counts.
Qed.

Lemma rainy_and_drought_days_witness :
  exists p,
    V2.create_farm_profile_from_data sqrt_approx sample_engine sample_weather
      sample_satellite sample_soil "F1" = Returns p
    /\ (rainy_days p + drought_stress_days p
        = Z.of_nat (List.length (weather_rows sample_weather "F1")))%Z.
Proof.
  eexists. split; [vm_compute; reflexivity |].
  apply (rainy_and_drought_days sqrt_approx sample_engine sample_weather
           sample_satellite sample_soil "F1" _ eq_refl).
  repeat constructor; q_decide.
Defined.

Lemma seasons_disjoint (r : Weather.row) :
  in_months [11; 12; 1; 2; 3]%Z r = true -> in_months [6; 7; 8; 9; 10]%Z r = false.
Proof.
  unfold in_months. generalize (Weather.month (Weather.date r)). intro m.
  cbn [existsb]. rewrite !orb_false_r.
  repeat match goal with
         | |- context [Z.eqb m ?k] => destruct (Z.eqb_spec m k)
         end; cbn; try reflexivity; try discriminate; lia.
Qed.

Lemma seasonal_split (rows : list Weather.row) :
  Qsum (map Weather.precip rows)
  == Qsum (map Weather.precip (filter (in_months [6; 7; 8; 9; 10]%Z) rows))
     + Qsum (map Weather.precip (filter (in_months [11; 12; 1; 2; 3]%Z) rows))
     + Qsum (map Weather.precip
               (filter (fun r => negb (in_months [6; 7; 8; 9; 10]%Z r)
                                 && negb (in_months [11; 12; 1; 2; 3]%Z r)) rows)).
Proof.
  rewrite (Qsum_partition Weather.precip (in_months [6; 7; 8; 9; 10]%Z) rows).
  rewrite (Qsum_partition Weather.precip (in_months [11; 12; 1; 2; 3]%Z)
             (filter (fun r => negb (in_months [6; 7; 8; 9; 10]%Z r)) rows)).
  rewrite !filter_filter_swap.
  rewrite (filter_ext_in'
             (fun x => negb (in_months [6; 7; 8; 9; 10]%Z x)
                       && in_months [11; 12; 1; 2; 3]%Z x)
             (in_months [11; 12; 1; 2; 3]%Z) rows).
  - ring.
  - intros r _. destruct (in_months [11; 12; 1; 2; 3]%Z r) eqn:E.
    + now rewrite (seasons_disjoint r E).
    + apply andb_false_r.
Qed.

(** X6. The total rainfall of a profile is its kharif rainfall plus its
    rabi rainfall plus the precipitation of the rows of neither season
    (April, May); so with no negative precipitation the two seasonal
    figures never exceed the total. *)
Theorem seasonal_rainfall_decomposition (sqrt : Q -> Q) (self : Engine)
  (weather_df : list Weather.row) (satellite_df : list Satellite.row)
  (soil_df : list Soil.row) (fid : string) (p : EnhancedFarmProfile) :
  V2.create_farm_profile_from_data sqrt self weather_df satellite_df soil_df fid
  = Returns p ->
  total_rainfall p
  == kharif_rainfall p + rabi_rainfall p
     + Qsum (map Weather.precip
               (filter (fun r => negb (in_months [6; 7; 8; 9; 10]%Z r)
                                 && negb (in_months [11; 12; 1; 2; 3]%Z r))
                       (weather_rows weather_df fid)))
  /\ (Forall (fun r => 0 <= Weather.precip r) (weather_rows weather_df fid) ->
      kharif_rainfall p + rabi_rainfall p <= total_rainfall p).
Proof.
  intro Hp.
  destruct (profile_weather_fields sqrt self weather_df satellite_df soil_df fid p Hp)
    as (_ & _ & _ & -> & _ & _ & _ & -> & -> & _).
  pose proof (seasonal_split (weather_rows weather_df fid)) as Hsplit.
  split; [exact Hsplit |].
  intro Hnn. rewrite Hsplit.
  assert (0 <= Qsum (map Weather.precip
                       (filter (fun r => negb (in_months [6; 7; 8; 9; 10]%Z r)
                                         && negb (in_months [11; 12; 1; 2; 3]%Z r))
                               (weather_rows weather_df fid)))); [| lra].
  apply Qsum_nonneg. rewrite Forall_forall in *. intros r Hr.
  apply Hnn. apply filter_In in Hr. tauto.
Qed.

Lemma seasonal_rainfall_decomposition_witness :
  exists p,
    V2.create_farm_profile_from_data sqrt_approx sample_engine sample_weather
      sample_satellite sample_soil "F1" = Returns p
    /\ kharif_rainfall p + rabi_rainfall p <= total_rainfall p.
Proof.
  eexists. split; [vm_compute; reflexivity |].
  apply (seasonal_rainfall_decomposition sqrt_approx sample_engine sample_weather
           sample_satellite sample_soil "F1" _ eq_refl).
  repeat constructor; q_decide.
Defined.





(* ================================================================== *)
(** * Scoring: the zero-bound case *)




(* ================================================================== *)
(** * The recommendation lists *)

Lemma round_half_even_le (x : Q) (m : Z) :
  x <= inject_Z m -> (round_half_even x <= m)%Z.
Proof.
  intro Hx. unfold round_half_even.
  pose proof (Qfloor_le x) as Hf. pose proof (Qlt_floor x) as Hc.
  assert (Hfm : (Qfloor x <= m)%Z) by (rewrite Zle_Qle; lra).
  destruct (Qltb_spec (x - inject_Z (Qfloor x)) (1 # 2)); [exact Hfm |].
  assert (Hlt : (Qfloor x < m)%Z) by (rewrite Zlt_Qlt; lra).
  destruct (Qgtb_spec (x - inject_Z (Qfloor x)) (1 # 2)); [lia |].
  destruct (Z.even (Qfloor x)); lia.
Qed.

Lemma round_half_even_ge (x : Q) (m : Z) :
  inject_Z m <= x -> (m <= round_half_even x)%Z.
Proof.
  intro Hx. etransitivity; [| apply round_half_even_ge_floor].
  rewrite <- (Qfloor_Z m). now apply Qfloor_resp_le.
Qed.

Lemma pow10_pos (n : nat) : 0 < inject_Z (10 ^ Z.of_nat n).
Proof.
  change 0 with (inject_Z 0). rewrite <- Zlt_Qlt.
  apply Z.pow_pos_nonneg; lia.
Qed.

(** Rounding to [n] places never crosses a multiple of [10 ** -n]. *)
Lemma py_round_between (x : Q) (n : nat) (lo hi : Z) :
  inject_Z lo / inject_Z (10 ^ Z.of_nat n) <= x ->
  x <= inject_Z hi / inject_Z (10 ^ Z.of_nat n) ->
  inject_Z lo / inject_Z (10 ^ Z.of_nat n) <= py_round x n
  /\ py_round x n <= inject_Z hi / inject_Z (10 ^ Z.of_nat n).
Proof.
  intros Hlo Hhi. unfold py_round.
  pose proof (pow10_pos n) as HK. set (K := inject_Z (10 ^ Z.of_nat n)) in *.
  assert (HKne : ~ K == 0) by lra.
  assert (Elo : inject_Z lo / K * K == inject_Z lo) by (field; exact HKne).
  assert (Ehi : inject_Z hi / K * K == inject_Z hi) by (field; exact HKne).
  assert (H1 : inject_Z lo <= x * K).
  { rewrite <- Elo. apply Qmult_le_compat_r; lra. }
  assert (H2 : x * K <= inject_Z hi).
  { rewrite <- Ehi. apply Qmult_le_compat_r; lra. }
  apply round_half_even_ge in H1. apply round_half_even_le in H2.
  rewrite Zle_Qle in H1, H2.
  split.
  - apply Qle_shift_div_l; [exact HK |]. rewrite Elo. exact H1.
  - apply Qle_shift_div_r; [exact HK |]. rewrite Ehi. exact H2.
Qed.

Lemma In_firstn {A : Type} (x : A) (n : nat) (l : list A) :
  In x (firstn n l) -> In x l.
Proof.
  intro H. rewrite <- (firstn_skipn n l). apply in_or_app. now left.
Qed.

Lemma top_recommendations_incl (top_n : Z) (qualifying : list Recommendation.t)
  (r : Recommendation.t) :
  In r (V2.top_recommendations top_n qualifying) -> In r qualifying.
Proof.
  unfold V2.top_recommendations. intro H.
  destruct (slice_to_firstn (sort_desc Recommendation.suitability_score qualifying) top_n)
    as [k Hk].
  rewrite Hk in H. apply In_firstn in H.
  eapply Permutation_in; [apply sort_desc_perm | exact H].
Qed.

(** The lists of a result are the sorted, sliced qualifying entries. *)
Lemma returned_lists (self : Engine) (p : EnhancedFarmProfile) (top_n : Z)
  (a : Analysis.t) (cat : string) (vs : list Variety.t) (l : list Recommendation.t) :
  V2.generate_recommendations self p top_n = Returns a ->
  In (cat, vs, l) (category_views self (Analysis.recommendations a)) ->
  l = V2.top_recommendations top_n (V2.category_recommendations self p cat vs).
Proof.
  intros Ha Hin. unfold V2.generate_recommendations in Ha.
  destruct (V2._calculate_realistic_carbon_potential _) as [[c cr] rev].
  destruct (dict_get _ _); [| discriminate].
  injection Ha as <-. cbn in Hin.
  destruct Hin as [E | [E | [E | []]]]; injection E as <- <- <-; reflexivity.
Qed.

Lemma category_recommendations_built (self : Engine) (p : EnhancedFarmProfile)
  (cat : string) (vs : list Variety.t) (r : Recommendation.t) :
  In r (V2.category_recommendations self p cat vs) ->
  exists v, In v vs
            /\ 0.70 <= V2.calculate_enhanced_suitability_score self p v
            /\ built_from self p cat v r.
Proof.
  unfold V2.category_recommendations. rewrite in_flat_map.
  intros (v & Hv & Hr). exists v. split; [exact Hv |].
  destruct (Qgeb_spec (V2.calculate_enhanced_suitability_score self p v) 0.70)
    as [Hge | Hlt]; [| contradiction].
  split; [exact Hge |].
  destruct Hr as [<- | []]. repeat split.
Qed.

(** X9. Every entry of a returned list is built from a variety of the
    catalog list of its own category whose score reaches 0.70: it carries
    that variety's id, name, carbon potential, market value and zones,
    the category key, the score rounded to 3 places and 0.85 x score
    rounded to 4 places. *)
Theorem returned_entries_come_from_catalog (self : Engine)
  (p : EnhancedFarmProfile) (top_n : Z) (a : Analysis.t)
  (cat : string) (vs : list Variety.t) (l : list Recommendation.t)
  (r : Recommendation.t) :
  V2.generate_recommendations self p top_n = Returns a ->
  In (cat, vs, l) (category_views self (Analysis.recommendations a)) ->
  In r l ->
  exists v, In v vs
            /\ 0.70 <= V2.calculate_enhanced_suitability_score self p v
            /\ built_from self p cat v r.
Proof.
  intros Ha Hin Hr. rewrite (returned_lists self p top_n a cat vs l Ha Hin) in Hr.
  apply top_recommendations_incl in Hr.
  now apply category_recommendations_built.
Qed.

(** X10. Every entry of a returned list stores a score in [0.70, 1.0]
    and a confidence level in [0.595, 0.85]. *)
Theorem returned_entries_bounds (self : Engine)
  (p : EnhancedFarmProfile) (top_n : Z) (a : Analysis.t)
  (cat : string) (vs : list Variety.t) (l : list Recommendation.t)
  (r : Recommendation.t) :
  V2.generate_recommendations self p top_n = Returns a ->
  In (cat, vs, l) (category_views self (Analysis.recommendations a)) ->
  In r l ->
  0.70 <= Recommendation.suitability_score r <= 1.0
  /\ 0.595 <= Recommendation.confidence_level r <= 0.85.
Proof.
  intros Ha Hin Hr. rewrite (returned_lists self p top_n a cat vs l Ha Hin) in Hr.
  apply top_recommendations_incl, category_recommendations_built in Hr
    as (v & _ & Hge & Hb).
  destruct Hb as (_ & _ & _ & _ & _ & _ & -> & ->).
  pose proof (v2_score_shape self p v) as Hshape.
  assert (Hle : V2.calculate_enhanced_suitability_score self p v <= 1).
  { destruct Hshape as [E | [t E]]; rewrite E; [lra | apply clamp_unit_interval]. }
  set (s := V2.calculate_enhanced_suitability_score self p v) in *.
  pose proof (py_round_between s 3 700 1000) as Hs.
  pose proof (py_round_between (s * 0.85) 4 5950 8500) as Hc.
  assert (E1 : inject_Z 700 / inject_Z (10 ^ Z.of_nat 3) == 0.70) by reflexivity.
  assert (E2 : inject_Z 1000 / inject_Z (10 ^ Z.of_nat 3) == 1.0) by reflexivity.
  assert (E3 : inject_Z 5950 / inject_Z (10 ^ Z.of_nat 4) == 0.595) by reflexivity.
  assert (E4 : inject_Z 8500 / inject_Z (10 ^ Z.of_nat 4) == 0.85) by reflexivity.
  rewrite E1, E2 in Hs. rewrite E3, E4 in Hc.
  split; [apply Hs | apply Hc]; lra.
Qed.

Lemma returned_entries_come_from_catalog_witness :
  exists a r,
    V2.generate_recommendations sample_engine sample_profile 5 = Returns a
    /\ hd_error (rice (Analysis.recommendations a)) = Some r
    /\ exists v, In v (rice_varieties (database sample_engine))
                 /\ 0.70 <= V2.calculate_enhanced_suitability_score
                              sample_engine sample_profile v
                 /\ built_from sample_engine sample_profile "rice" v r.
Proof.
  eexists. eexists. split; [vm_compute; reflexivity |].
  split; [vm_compute; reflexivity |].
  eapply (returned_entries_come_from_catalog sample_engine sample_profile 5 _
            "rice" _ _ _ eq_refl).
  - left. reflexivity.
  - vm_compute. left. reflexivity.
Defined.

Lemma returned_entries_bounds_witness :
  exists a r,
    V2.generate_recommendations sample_engine sample_profile 5 = Returns a
    /\ hd_error (agroforestry (Analysis.recommendations a)) = Some r
    /\ 0.70 <= Recommendation.suitability_score r <= 1.0
    /\ 0.595 <= Recommendation.confidence_level r <= 0.85.
Proof.
  eexists. eexists. split; [vm_compute; reflexivity |].
  split; [vm_compute; reflexivity |].
  eapply (returned_entries_bounds sample_engine sample_profile 5 _
            "agroforestry" _ _ _ eq_refl).
  - right. left. reflexivity.
  - vm_compute. left. reflexivity.
Defined.

Lemma category_recommendations_none (self : Engine) (p : EnhancedFarmProfile)
  (cat : string) (vs : list Variety.t) :
  (forall v, In v vs -> V2.calculate_enhanced_suitability_score self p v < 0.70) ->
  V2.category_recommendations self p cat vs = [].
Proof.
  intro H. unfold V2.category_recommendations.
  induction vs as [|v vs IH]; [reflexivity |].
  cbn [flat_map].
  destruct (Qgeb_spec (V2.calculate_enhanced_suitability_score self p v) 0.70)
    as [Hge | Hlt].
  - specialize (H v (or_introl eq_refl)). lra.
  - cbn [app]. apply IH. intros v' Hv'. apply H. now right.
Qed.

Lemma top_recommendations_nil (top_n : Z) : V2.top_recommendations top_n [] = [].
Proof.
  unfold V2.top_recommendations, slice_to. cbn [sort_desc fold_right].
  destruct (0 <=? top_n)%Z; apply firstn_nil.
Qed.

(** X11. When no variety of the catalog reaches 0.70 and the profile's
    zone is known, [generate_recommendations] still returns: three empty
    lists, zero suitable varieties, and zero carbon, credits and revenue. *)
Theorem no_suitable_variety_is_not_an_error (self : Engine)
  (p : EnhancedFarmProfile) (top_n : Z) (zone_info : Zone.t) :
  dict_get (zone_mappings self) (detected_zone p) = Some zone_info ->
  (forall v, In v (V2.get_all_varieties self) ->
             V2.calculate_enhanced_suitability_score self p v < 0.70) ->
  exists a,
    V2.generate_recommendations self p top_n = Returns a
    /\ rice (Analysis.recommendations a) = []
    /\ agroforestry (Analysis.recommendations a) = []
    /\ crops (Analysis.recommendations a) = []
    /\ Analysis.suitable_varieties_found a = 0%nat
    /\ Analysis.realistic_carbon_potential a == 0
    /\ Analysis.estimated_annual_credits a == 0
    /\ Analysis.estimated_revenue a == 0.
Proof.
  intros Hzone Hall. unfold V2.generate_recommendations.
  unfold V2.get_all_varieties in Hall.
  rewrite !category_recommendations_none, !top_recommendations_nil, Hzone.
  - eexists. split; [reflexivity |]. repeat split; reflexivity.
  - intros v Hv. apply Hall. apply in_or_app. right. apply in_or_app. now right.
  - intros v Hv. apply Hall. apply in_or_app. right. apply in_or_app. now left.
  - intros v Hv. apply Hall. apply in_or_app. now left.
Qed.

Lemma no_suitable_variety_is_not_an_error_witness :
  exists a,
    V2.generate_recommendations sample_engine barren_profile 5 = Returns a
    /\ rice (Analysis.recommendations a) = []
    /\ agroforestry (Analysis.recommendations a) = []
    /\ crops (Analysis.recommendations a) = []
    /\ Analysis.suitable_varieties_found a = 0%nat
    /\ Analysis.realistic_carbon_potential a == 0
    /\ Analysis.estimated_annual_credits a == 0
    /\ Analysis.estimated_revenue a == 0.
Proof.
  eapply no_suitable_variety_is_not_an_error.
  - reflexivity.
  - intros v Hv. cbn in Hv.
    repeat (destruct Hv as [<- | Hv]; [q_decide |]). contradiction.
Defined.

Lemma category_recommendations_length (self : Engine) (p : EnhancedFarmProfile)
  (cat : string) (vs : list Variety.t) :
  (List.length (V2.category_recommendations self p cat vs) <= List.length vs)%nat.
Proof.
  unfold V2.category_recommendations.
  induction vs as [|v vs IH]; [constructor |].
  cbn [flat_map]. rewrite length_app.
  destruct (_ >=? _); cbn [List.length]; lia.
Qed.

Lemma top_recommendations_length (top_n : Z) (q : list Recommendation.t) :
  (List.length (V2.top_recommendations top_n q) <= List.length q)%nat.
Proof.
  unfold V2.top_recommendations.
  destruct (slice_to_firstn (sort_desc Recommendation.suitability_score q) top_n)
    as [k ->].
  rewrite length_firstn, (Permutation_length (sort_desc_perm _ q)). lia.
Qed.

Lemma top_recommendations_all (top_n : Z) (q : list Recommendation.t) :
  (Z.of_nat (List.length q) <= top_n)%Z ->
  Permutation (V2.top_recommendations top_n q) q.
Proof.
  intro H. unfold V2.top_recommendations, slice_to.
  destruct (Z.leb_spec 0 top_n); [| lia].
  rewrite firstn_all2; [apply sort_desc_perm |].
  rewrite (Permutation_length (sort_desc_perm _ q)). lia.
Qed.

(** X12. The counters of a result are consistent for every [top_n]: the
    varieties found suitable are no more than the varieties evaluated,
    the entries returned are no more than those found suitable, and when
    [top_n] is at least the number found suitable every list is a
    rearrangement of all the qualifying entries of its category. *)
Theorem result_counters (self : Engine) (p : EnhancedFarmProfile) (top_n : Z)
  (a : Analysis.t) :
  V2.generate_recommendations self p top_n = Returns a ->
  let recs := Analysis.recommendations a in
  (Analysis.suitable_varieties_found a <= Analysis.total_varieties_evaluated a)%nat
  /\ (List.length (rice recs) + List.length (agroforestry recs)
      + List.length (crops recs) <= Analysis.suitable_varieties_found a)%nat
  /\ ((Z.of_nat (Analysis.suitable_varieties_found a) <= top_n)%Z ->
      forall cat vs l, In (cat, vs, l) (category_views self recs) ->
                       Permutation l (V2.category_recommendations self p cat vs)).
Proof.
  intros Ha recs.
  assert (Hl := fun cat vs l => returned_lists self p top_n a cat vs l Ha).
  unfold V2.generate_recommendations in Ha.
  destruct (V2._calculate_realistic_carbon_potential _) as [[c cr] rev].
  destruct (dict_get _ _); [| discriminate].
  injection Ha as <-. subst recs.
  cbn [Analysis.recommendations Analysis.suitable_varieties_found
       Analysis.total_varieties_evaluated rice agroforestry crops] in *.
  unfold V2.get_all_varieties. rewrite !length_app.
  pose proof (category_recommendations_length self p "rice"
                (rice_varieties (database self))).
  pose proof (category_recommendations_length self p "agroforestry"
                (agroforestry_species (database self))).
  pose proof (category_recommendations_length self p "crops"
                (crop_varieties (database self))).
  pose proof (top_recommendations_length top_n
                (V2.category_recommendations self p "rice"
                   (rice_varieties (database self)))).
  pose proof (top_recommendations_length top_n
                (V2.category_recommendations self p "agroforestry"
                   (agroforestry_species (database self)))).
  pose proof (top_recommendations_length top_n
                (V2.category_recommendations self p "crops"
                   (crop_varieties (database self)))).
  split; [lia | split; [lia |]].
  intros Hn cat vs l Hin. rewrite (Hl cat vs l Hin).
  apply top_recommendations_all.
  cbn in Hin. destruct Hin as [E | [E | [E | []]]]; injection E as <- <- <-; lia.
Qed.

Lemma result_counters_witness :
  exists a,
    V2.generate_recommendations sample_engine sample_profile 6 = Returns a
    /\ Permutation (rice (Analysis.recommendations a))
         (V2.category_recommendations sample_engine sample_profile "rice"
            (rice_varieties (database sample_engine))).
Proof.
  eexists. split; [vm_compute; reflexivity |].
  destruct (result_counters sample_engine sample_profile 6 _ eq_refl) as (_ & _ & H).
  apply H; [vm_compute; discriminate | left; reflexivity].
Defined.

Lemma carbon_entries (l : list Recommendation.t) (M : Q) (i : nat) :
  0 <= M ->
  Forall (fun r => 0 <= Recommendation.carbon_potential r <= M) l ->
  0 <= carbon_at l i <= M.
Proof.
  intros HM Hl. unfold carbon_at.
  destruct (nth_error l i) as [r |] eqn:E; [| lra].
  apply nth_error_In in E. rewrite Forall_forall in Hl. now apply Hl.
Qed.

Lemma realistic_carbon_blend_eq (recs : Recommendations) :
  let '(carbon, credits, revenue) := V2._calculate_realistic_carbon_potential recs in
  carbon == 0.4 * carbon_at (rice recs) 0 + 0.3 * carbon_at (crops recs) 0
            + 0.2 * carbon_at (crops recs) 1 + 0.1 * carbon_at (agroforestry recs) 0
  /\ credits == carbon * 0.85
  /\ revenue == credits * 25.0.
Proof.
  destruct recs as [r a c].
  unfold V2._calculate_realistic_carbon_potential, carbon_at; cbn [rice crops agroforestry].
  destruct r as [|r0 r]; destruct a as [|a0 a];
    destruct c as [|c0 [|c1 c]]; cbn [nth_error List.length Nat.ltb Nat.leb];
    (split; [ring | split; reflexivity]).
Qed.

(** X13. The blend is a weighted average with weights 0.4, 0.3, 0.2 and
    0.1: when every entry has a carbon potential between 0 and [M], the
    blended carbon lies between 0 and [M], the credits between 0 and
    0.85 x M, and the revenue is 21.25 x the blended carbon. *)
Theorem realistic_carbon_is_bounded (recs : Recommendations) (M : Q) :
  0 <= M ->
  Forall (fun r => 0 <= Recommendation.carbon_potential r <= M) (rice recs) ->
  Forall (fun r => 0 <= Recommendation.carbon_potential r <= M) (agroforestry recs) ->
  Forall (fun r => 0 <= Recommendation.carbon_potential r <= M) (crops recs) ->
  let '(carbon, credits, revenue) := V2._calculate_realistic_carbon_potential recs in
  0 <= carbon <= M
  /\ 0 <= credits <= 0.85 * M
  /\ revenue == 21.25 * carbon.
Proof.
  intros HM Hr Ha Hc.
  pose proof (realistic_carbon_blend_eq recs) as H.
  destruct (V2._calculate_realistic_carbon_potential recs) as [[carbon credits] revenue].
  destruct H as (Hcarbon & Hcredits & Hrevenue).
  pose proof (carbon_entries _ M 0 HM Hr).
  pose proof (carbon_entries _ M 0 HM Hc).
  pose proof (carbon_entries _ M 1 HM Hc).
  pose proof (carbon_entries _ M 0 HM Ha).
  rewrite Hrevenue, Hcredits, Hcarbon. repeat split; lra.
Qed.

Lemma realistic_carbon_is_bounded_witness :
  let '(carbon, credits, revenue) :=
    V2._calculate_realistic_carbon_potential sample_crops_only in
  0 <= carbon <= 2 /\ 0 <= credits <= 0.85 * 2 /\ revenue == 21.25 * carbon.
Proof.
  apply (realistic_carbon_is_bounded sample_crops_only 2).
  - lra.
  - constructor.
  - constructor.
  - vm_compute. repeat constructor; discriminate.
Defined.

(* ================================================================== *)
(** * The batch result *)

Lemma dict_set_keys {V : Type} (d : list (string * V)) (k : string) (v : V) :
  forall k', In k' (map fst (dict_set d k v)) <-> k' = k \/ In k' (map fst d).
Proof.
  induction d as [|[k0 v0] d IH]; intro k'; cbn [dict_set map fst In].
  - intuition congruence.
  - destruct (String.eqb_spec k0 k) as [-> | Hne]; cbn [map fst In].
    + intuition congruence.
    + rewrite IH. intuition congruence.
Qed.

Lemma dict_set_NoDup {V : Type} (d : list (string * V)) (k : string) (v : V) :
  NoDup (map fst d) -> NoDup (map fst (dict_set d k v)).
Proof.
  induction d as [|[k0 v0] d IH]; intro H; cbn [dict_set map fst].
  - repeat constructor. intros [].
  - inversion H as [|? ? Hnotin Hrest]; subst.
    destruct (String.eqb_spec k0 k) as [-> | Hne]; cbn [map fst].
    + now constructor.
    + constructor; [| now apply IH].
      rewrite dict_set_keys. intros [E | Hin]; [congruence | contradiction].
Qed.

Section BatchResult.

Variable sqrt : Q -> Q.
Variable save : Analysis.t -> outcome string.
Variable self : Engine.
Variable weather_df : list Weather.row.
Variable satellite_df : list Satellite.row.
Variable soil_df : list Soil.row.

Let run_farm := V2.analyze_farm sqrt save self weather_df satellite_df soil_df.
Let run_loop := V2.analyze_farm_ids sqrt save self weather_df satellite_df soil_df.

Lemma batch_entries_sound (farm_ids : list string) :
  NoDup (map fst (run_loop farm_ids []))
  /\ forall k entry, dict_get (run_loop farm_ids []) k = Some entry ->
                     In k farm_ids /\ run_farm k = Returns entry.
Proof.
  unfold run_loop, V2.analyze_farm_ids.
  apply (fold_left_invariant
           (fun acc : list (string * BatchEntry.t) =>
              NoDup (map fst acc)
              /\ forall k entry, dict_get acc k = Some entry ->
                                 In k farm_ids /\ run_farm k = Returns entry)).
  - intros acc fid Hfid [Hnd Hacc]. fold run_farm.
    destruct (run_farm fid) as [entry |] eqn:Hrun; [| now split].
    split; [now apply dict_set_NoDup |].
    intros k e Hk. destruct (String.eqb_spec fid k) as [<- | Hne].
    + rewrite dict_get_set_same in Hk. injection Hk as <-. now split.
    + rewrite dict_get_set_other in Hk by exact Hne. now apply Hacc.
  - split; [constructor | discriminate].
Qed.

(** X14. The batch result has one entry per key, and a farm id has an
    entry exactly when it is in the batch and its own analysis (profile,
    recommendations, file) returned; the entry is what that analysis
    returned, whatever happened to the other farms. *)
Theorem batch_result_is_exact (farm_ids : list string) :
  NoDup (map fst (V2.analyze_farm_ids sqrt save self weather_df satellite_df
                    soil_df farm_ids []))
  /\ forall k entry,
       dict_get (V2.analyze_farm_ids sqrt save self weather_df satellite_df
                   soil_df farm_ids []) k = Some entry
       <-> In k farm_ids
           /\ V2.analyze_farm sqrt save self weather_df satellite_df soil_df k
              = Returns entry.
Proof.
  destruct (batch_entries_sound farm_ids) as [Hnd Hsound].
  split; [exact Hnd |].
  intros k entry. split; [apply Hsound |].
  intros [Hin Hrun]. apply analyzed_farm_has_entry; [exact Hrun | now left].
Qed.

(** X15. With an empty zone catalog no farm can be analysed: the zone
    lookup of [generate_recommendations] raises [KeyError] for every
    profile, and the batch loop returns its results unchanged. *)
Theorem empty_catalog_drops_every_farm (farm_ids : list string)
  (all_results : list (string * BatchEntry.t)) :
  zone_mappings self = [] ->
  (forall p top_n,
     V2.generate_recommendations self p top_n = Raises (KeyError (detected_zone p)))
  /\ V2.analyze_farm_ids sqrt save self weather_df satellite_df soil_df farm_ids
       all_results = all_results.
Proof.
  intro Hempty.
  assert (Hgen : forall p top_n,
             V2.generate_recommendations self p top_n
             = Raises (KeyError (detected_zone p))).
  { intros p top_n. unfold V2.generate_recommendations.
    destruct (V2._calculate_realistic_carbon_potential _) as [[c cr] rev].
    rewrite Hempty. reflexivity. }
  split; [exact Hgen |].
  unfold V2.analyze_farm_ids.
  induction farm_ids as [|fid ids IH]; [reflexivity |].
  cbn [fold_left]. unfold V2.analyze_farm at 2.
  destruct (V2.create_farm_profile_from_data _ _ _ _ _ _) as [p |]; cbn [bind].
  - rewrite Hgen. cbn [bind]. exact IH.
  - exact IH.
Qed.

(** X16. Every entry of the batch result holds at most five
    recommendations per category, fifteen in all, none scoring below
    0.70. *)
Theorem batch_entry_has_at_most_fifteen (fid : string) (entry : BatchEntry.t) :
  V2.analyze_farm sqrt save self weather_df satellite_df soil_df fid
  = Returns entry ->
  let recs := Analysis.recommendations (BatchEntry.recommendations entry) in
  (List.length (rice recs) <= 5)%nat
  /\ (List.length (agroforestry recs) <= 5)%nat
  /\ (List.length (crops recs) <= 5)%nat
  /\ (List.length (rice recs ++ agroforestry recs ++ crops recs) <= 15)%nat
  /\ Forall (fun r => 0.70 <= Recommendation.suitability_score r)
            (rice recs ++ agroforestry recs ++ crops recs).
Proof.
  unfold V2.analyze_farm. intro H.
  destruct (V2.create_farm_profile_from_data _ _ _ _ _ _) as [p |]; [| discriminate].
  cbn [bind] in H.
  destruct (V2.generate_recommendations self p 5) as [a |] eqn:Ha; [| discriminate].
  cbn [bind] in H. destruct (save a) as [f |]; [| discriminate].
  cbn [bind] in H. injection H as <-. cbn [BatchEntry.recommendations].
  unfold V2.generate_recommendations in Ha.
  destruct (V2._calculate_realistic_carbon_potential _) as [[c cr] rev].
  destruct (dict_get _ _); [| discriminate].
  injection Ha as <-. cbn [Analysis.recommendations rice agroforestry crops].
  destruct (top_recommendations_ranked 5 _ ltac:(lia)
              (category_recommendations_threshold self p "rice"
                 (rice_varieties (database self)))) as (L1 & F1 & _).
  destruct (top_recommendations_ranked 5 _ ltac:(lia)
              (category_recommendations_threshold self p "agroforestry"
                 (agroforestry_species (database self)))) as (L2 & F2 & _).
  destruct (top_recommendations_ranked 5 _ ltac:(lia)
              (category_recommendations_threshold self p "crops"
                 (crop_varieties (database self)))) as (L3 & F3 & _).
  rewrite !length_app.
  repeat split; try lia.
  apply Forall_app. split; [exact F1 |]. apply Forall_app. now split.
Qed.

End BatchResult.

Lemma batch_result_is_exact_witness :
  exists entry,
    dict_get (V2.analyze_farm_ids sqrt_approx sample_save sample_engine
                sample_weather sample_satellite sample_soil ["F3"; "F1"] [])
      "F1" = Some entry.
Proof.
  eexists.
  apply (batch_result_is_exact sqrt_approx sample_save sample_engine sample_weather
           sample_satellite sample_soil ["F3"; "F1"]).
  split; [right; left; reflexivity | vm_compute; reflexivity].
Defined.

Lemma empty_catalog_drops_every_farm_witness :
  V2.analyze_farm_ids sqrt_approx sample_save empty_catalog_engine sample_weather
    sample_satellite sample_soil ["F1"; "F2"] [] = [].
Proof.
  apply (empty_catalog_drops_every_farm sqrt_approx sample_save empty_catalog_engine
           sample_weather sample_satellite sample_soil ["F1"; "F2"] []).
  reflexivity.
Defined.

Lemma batch_entry_has_at_most_fifteen_witness :
  exists entry,
    V2.analyze_farm sqrt_approx sample_save sample_engine sample_weather
      sample_satellite sample_soil "F1" = Returns entry
    /\ (List.length (rice (Analysis.recommendations
                             (BatchEntry.recommendations entry))) <= 5)%nat.
Proof.
  destruct (V2.analyze_farm sqrt_approx sample_save sample_engine sample_weather
              sample_satellite sample_soil "F1") as [entry | e] eqn:E;
    [| vm_compute in E; discriminate E].
  exists entry. split; [reflexivity |].
  apply (batch_entry_has_at_most_fifteen sqrt_approx sample_save sample_engine
           sample_weather sample_satellite sample_soil "F1" entry E).
Defined.

(* ================================================================== *)
(** * State and district lookup *)

Lemma dict_get_In {V : Type} (d : list (string * V)) (k : string) (v : V) :
  dict_get d k = Some v -> In (k, v) d.
Proof.
  induction d as [|[k' v'] d IH]; cbn [dict_get]; [discriminate |].
  destruct (String.eqb_spec k' k) as [-> | Hne].
  - intro H. injection H as ->. now left.
  - intro H. right. now apply IH.
Qed.

(** A value found by [first_box_match] is one of the table. *)
Lemma first_box_match_In (table : list (Q * Q * Q * Q * string)) (lat lon : Q)
  (value : string) :
  V2.first_box_match table lat lon = Some value ->
  In value (map snd table).
Proof.
  induction table as [|[[[[a b] c] d] x] table IH]; cbn [V2.first_box_match];
    [discriminate |].
  destruct (_ && _).
  - intro H. injection H as ->. now left.
  - intro H. right. now apply IH.
Qed.

(** X17. With the engine's zone catalog, [_get_state_from_coordinates]
    never answers "Unknown": the state is one of the four states of the
    precise table, or the first state listed for the detected zone. *)
Theorem state_is_never_unknown (sqrt : Q -> Q) (db : Database) (lat lon : Q) :
  V2._get_state_from_coordinates sqrt (V2.init db) lat lon <> "Unknown"
  /\ (In (V2._get_state_from_coordinates sqrt (V2.init db) lat lon)
         ["Tamil Nadu"; "Karnataka"; "Andhra Pradesh"; "Kerala"]
      \/ exists zone_info,
           dict_get (zone_mappings (V2.init db))
             (V2.detect_zone_from_coordinates sqrt (V2.init db) lat lon)
           = Some zone_info
           /\ hd_error (Zone.states zone_info)
              = Some (V2._get_state_from_coordinates sqrt (V2.init db) lat lon)).
Proof.
  unfold V2._get_state_from_coordinates.
  destruct (V2.first_box_match V2.coordinate_to_state lat lon) as [state |] eqn:Hbox.
  - apply first_box_match_In in Hbox. cbn in Hbox.
    split; [| left; cbn; tauto].
    destruct Hbox as [<- | [<- | [<- | [<- | []]]]]; discriminate.
  - destruct (detected_zone_known sqrt db lat lon) as [zone_info Hz].
    rewrite Hz. apply dict_get_In in Hz as Hin.
    set (zid := V2.detect_zone_from_coordinates sqrt (V2.init db) lat lon) in *.
    clearbody zid.
    assert (Hok : match Zone.states zone_info with
                  | s :: _ => s <> "Unknown"
                  | [] => False
                  end).
    { cbn in Hin.
      repeat (destruct Hin as [E | Hin];
              [injection E as <- <-; cbn; discriminate |]).
      contradiction. }
    destruct (Zone.states zone_info) as [|s rest] eqn:Hs; [contradiction |].
    split; [exact Hok |]. right. exists zone_info. split; [reflexivity |].
    rewrite Hs. reflexivity.
Qed.

Lemma box_hit (lat_min lat_max lon_min lon_max lat lon : Q) :
  lat_min <= lat <= lat_max -> lon_min <= lon <= lon_max ->
  (lat_min <=? lat) && (lat <=? lat_max) && ((lon_min <=? lon) && (lon <=? lon_max))
  = true.
Proof. intros H1 H2. now rewrite !in_range_true. Qed.

Lemma box_miss_lat (lat_min lat_max lon_min lon_max lat lon : Q) :
  lat < lat_min \/ lat_max < lat ->
  (lat_min <=? lat) && (lat <=? lat_max) && ((lon_min <=? lon) && (lon <=? lon_max))
  = false.
Proof.
  intros [H | H].
  - destruct (Qleb_spec lat_min lat); [lra | reflexivity].
  - destruct (Qleb_spec lat lat_max); [lra |]. now rewrite andb_false_r.
Qed.

Lemma box_miss_lon (lat_min lat_max lon_min lon_max lat lon : Q) :
  lon < lon_min \/ lon_max < lon ->
  (lat_min <=? lat) && (lat <=? lat_max) && ((lon_min <=? lon) && (lon <=? lon_max))
  = false.
Proof.
  intros [H | H]; apply andb_false_iff; right.
  - destruct (Qleb_spec lon_min lon); [lra | reflexivity].
  - destruct (Qleb_spec lon lon_max); [lra |]. now rewrite andb_false_r.
Qed.

(** X18. The tables are scanned in order and the first box wins: every
    point of the Anantapur box is reported as district Anantapur in state
    Karnataka, and every point of the Bangalore Urban box as district
    Bangalore Urban in state Tamil Nadu, whatever the zone catalog. *)
Theorem district_and_state_first_match (sqrt : Q -> Q) (self : Engine) (lat lon : Q) :
  (14.6 <= lat <= 14.8 -> 77.5 <= lon <= 77.7 ->
   V2._get_district_from_coordinates sqrt self lat lon = "Anantapur"
   /\ V2._get_state_from_coordinates sqrt self lat lon = "Karnataka")
  /\ (12.9 <= lat <= 13.0 -> 77.5 <= lon <= 77.7 ->
      V2._get_district_from_coordinates sqrt self lat lon = "Bangalore Urban"
      /\ V2._get_state_from_coordinates sqrt self lat lon = "Tamil Nadu").
Proof.
  split; intros Hlat Hlon;
    unfold V2._get_district_from_coordinates, V2._get_state_from_coordinates,
           V2.district_mappings, V2.coordinate_to_state;
    cbn [V2.first_box_match].
  - rewrite (box_miss_lat 10.0 10.1) by lra.
    rewrite (box_miss_lat 13.0 13.1) by lra.
    rewrite (box_miss_lat 13.0 13.5) by lra.
    rewrite (box_hit 14.6 14.8) by lra.
    rewrite (box_miss_lat 10.0 13.5) by lra.
    rewrite (box_hit 11.5 18.5) by lra.
    split; reflexivity.
  - rewrite (box_miss_lat 10.0 10.1) by lra.
    rewrite (box_miss_lon 13.0 13.1) by lra.
    rewrite (box_miss_lon 13.0 13.5) by lra.
    rewrite (box_miss_lat 14.6 14.8) by lra.
    rewrite (box_hit 12.9 13.0) by lra.
    rewrite (box_hit 10.0 13.5) by lra.
    split; reflexivity.
Qed.

Lemma district_and_state_first_match_witness :
  (V2._get_district_from_coordinates sqrt_approx sample_engine 14.7 77.6 = "Anantapur"
   /\ V2._get_state_from_coordinates sqrt_approx sample_engine 14.7 77.6 = "Karnataka")
  /\ (V2._get_district_from_coordinates sqrt_approx sample_engine 12.95 77.6
      = "Bangalore Urban"
      /\ V2._get_state_from_coordinates sqrt_approx sample_engine 12.95 77.6
         = "Tamil Nadu").
Proof.
  split.
  - apply (district_and_state_first_match sqrt_approx sample_engine 14.7 77.6); lra.
  - apply (district_and_state_first_match sqrt_approx sample_engine 12.95 77.6); lra.
Defined.

(* ================================================================== *)
(** * Engine v1: its catalog and its detector *)

Lemma range_ok_spec (range : Q * Q) :
  range_ok range = true -> 0 < fst range /\ fst range <= snd range.
Proof.
  unfold range_ok. rewrite andb_true_iff. intros [H1 H2].
  destruct (Qltb_spec 0 (fst range)); [| discriminate].
  destruct (Qleb_spec (fst range) (snd range)); [| discriminate]. now split.
Qed.

Lemma distinct_NoDup (xs : list string) : distinct xs = true -> NoDup xs.
Proof.
  induction xs as [|x xs IH]; cbn [distinct]; [constructor |].
  rewrite andb_true_iff, negb_true_iff. intros [Hx Hxs].
  constructor; [| now apply IH].
  intro Hin. apply str_in_In in Hin. congruence.
Qed.

Lemma v1_catalog_checked :
  forallb (fun v => ranges_ok v && zones_known (zone_mappings V1.init) v)
          (V1.get_all_varieties V1.init) = true.
Proof. vm_compute. reflexivity. Qed.

(** X19. The v1 catalog, three hand-written lists extended by three
    loops, holds 51 rice, 53 agroforestry and 43 crop varieties with
    pairwise distinct ids; every variety lists only zones of the zone
    catalog, and each of its three ranges has 0 < min <= max. *)
Theorem v1_catalog_is_well_formed :
  List.length (rice_varieties (database V1.init)) = 51%nat
  /\ List.length (agroforestry_species (database V1.init)) = 53%nat
  /\ List.length (crop_varieties (database V1.init)) = 43%nat
  /\ NoDup (map Variety.id (V1.get_all_varieties V1.init))
  /\ forall v, In v (V1.get_all_varieties V1.init) ->
       (forall z, In z (Variety.zones v) -> In z (map fst (zone_mappings V1.init)))
       /\ 0 < fst (Variety.rainfall_range v) <= snd (Variety.rainfall_range v)
       /\ 0 < fst (Variety.temp_range v) <= snd (Variety.temp_range v)
       /\ 0 < fst (Variety.ph_tolerance v) <= snd (Variety.ph_tolerance v).
Proof.
  split; [reflexivity | split; [reflexivity | split; [reflexivity | split]]].
  - apply distinct_NoDup. vm_compute. reflexivity.
  - intros v Hv.
    pose proof v1_catalog_checked as H. rewrite forallb_forall in H.
    specialize (H v Hv). apply andb_true_iff in H as [Hr Hz].
    unfold ranges_ok in Hr. rewrite !andb_true_iff in Hr.
    destruct Hr as [[Hrain Htemp] Hph].
    apply range_ok_spec in Hrain, Htemp, Hph.
    split; [| tauto].
    intros z Hzin. unfold zones_known in Hz. rewrite forallb_forall in Hz.
    apply str_in_In. now apply Hz.
Qed.

Lemma v1_catalog_is_well_formed_witness :
  0 < fst (Variety.rainfall_range (V1.generated_rice
                                      (map fst V1._initialize_complete_zone_mappings) 8))
    <= snd (Variety.rainfall_range (V1.generated_rice
                                      (map fst V1._initialize_complete_zone_mappings) 8)).
Proof.
  destruct v1_catalog_is_well_formed as (_ & _ & _ & _ & H).
  apply (H (V1.generated_rice (map fst V1._initialize_complete_zone_mappings) 8)).
  vm_compute. do 7 right. left. reflexivity.
Defined.

(** X20. On its own catalog the v1 routine, which has no handler, never
    raises: for every farm profile and every variety of the v1 catalog it
    returns a score in [0, 1], the score the v2 routine gives. *)
Theorem v1_scores_its_own_catalog (db : Database) (p : EnhancedFarmProfile)
  (v : Variety.t) :
  In v (V1.get_all_varieties V1.init) ->
  exists s,
    V1.calculate_enhanced_suitability_score V1.init p v = Returns s
    /\ V2.calculate_enhanced_suitability_score (V2.init db) p v = s
    /\ 0 <= s <= 1.
Proof.
  intro Hv.
  pose proof v1_catalog_checked as H. rewrite forallb_forall in H.
  specialize (H v Hv). apply andb_true_iff in H as [Hr _].
  unfold ranges_ok in Hr. rewrite !andb_true_iff in Hr.
  destruct Hr as [[Hrain Htemp] Hph].
  apply range_ok_spec in Hrain, Htemp, Hph.
  destruct (v1_score_returns V1.init p v) as [s Hs]; try lra.
  exists s. split; [exact Hs |].
  assert (E : V2.calculate_enhanced_suitability_score (V2.init db) p v = s).
  { rewrite v2_score_is_guarded_v1.
    rewrite (v1_score_rules_only (V2.init db) V1.init p v) by reflexivity.
    now rewrite Hs. }
  split; [exact E |].
  rewrite <- E.
  destruct (v2_score_shape (V2.init db) p v) as [E0 | [t E0]]; rewrite E0;
    [lra | apply clamp_unit_interval].
Qed.

Lemma v1_scores_its_own_catalog_witness :
  exists s,
    V1.calculate_enhanced_suitability_score V1.init sample_profile
      (V1.generated_rice (map fst V1._initialize_complete_zone_mappings) 6)
    = Returns s
    /\ V2.calculate_enhanced_suitability_score (V2.init sample_database)
         sample_profile
         (V1.generated_rice (map fst V1._initialize_complete_zone_mappings) 6)
       = s
    /\ 0 <= s <= 1.
Proof.
  apply v1_scores_its_own_catalog.
  vm_compute. do 5 right. left. reflexivity.
Defined.

Lemma loops_agree (sqrt : Q -> Q) (lat lon : Q) (l1 l2 : list (string * Zone.t)) :
  Forall2 same_boxes l1 l2 ->
  (forall st, fold_left (V1.best_match_step sqrt lat lon) l1 st
              = fold_left (V2.best_match_step sqrt lat lon) l2 st)
  /\ (forall st, fold_left (V1.closest_zone_step sqrt lat lon) l1 st
                 = fold_left (V2.closest_zone_step sqrt lat lon) l2 st).
Proof.
  induction 1 as [|[id1 z1] [id2 z2] l1 l2 (Hid & Hlat & Hlon) Hrest [IH1 IH2]];
    [split; reflexivity |].
  cbn [fst snd] in *. subst id2.
  split; intros [a b]; cbn [fold_left]; [rewrite IH1 | rewrite IH2]; f_equal.
  - unfold V1.best_match_step, V2.best_match_step. rewrite Hlat, Hlon. reflexivity.
  - unfold V1.closest_zone_step, V2.closest_zone_step. rewrite Hlat, Hlon. reflexivity.
Qed.

Lemma detectors_agree (sqrt : Q -> Q) (self1 self2 : Engine) (lat lon : Q) :
  Forall2 same_boxes (zone_mappings self1) (zone_mappings self2) ->
  V1.detect_zone_from_coordinates sqrt self1 lat lon
  = V2.detect_zone_from_coordinates sqrt self2 lat lon.
Proof.
  intro Hcat.
  destruct (loops_agree sqrt lat lon _ _ Hcat) as [H1 H2].
  unfold V1.detect_zone_from_coordinates, V2.detect_zone_from_coordinates.
  now rewrite H1, H2.
Qed.

(** X21. The two engines detect the same zone at every point: their
    catalogs list the same zone ids with the same bounding boxes in the
    same order (they differ in the state names only), and the two copies
    of [detect_zone_from_coordinates] compute the same function. *)
Theorem v1_v2_detect_same_zone (sqrt : Q -> Q) (db : Database) (lat lon : Q) :
  V1.detect_zone_from_coordinates sqrt V1.init lat lon
  = V2.detect_zone_from_coordinates sqrt (V2.init db) lat lon.
Proof.
  apply detectors_agree. cbn [zone_mappings V1.init V2.init].
  unfold V1._initialize_complete_zone_mappings, V2._initialize_complete_zone_mappings.
  repeat (constructor; [repeat split |]). constructor.
Qed.

(* ================================================================== *)
(** * Engine v2: the catalog loaded from the CSV files *)

Lemma load_rows_In (build : nat -> CatalogRow.t -> outcome Variety.t)
  (rows : list CatalogRow.t) (v : Variety.t) :
  forall idx, In v (V2.load_rows build idx rows) ->
              exists i row, In row rows /\ build i row = Returns v.
Proof.
  induction rows as [|row rows IH]; intros idx Hin; [contradiction |].
  cbn [V2.load_rows] in Hin.
  destruct (build idx row) as [variety | e] eqn:Hb.
  - destruct Hin as [<- | Hin].
    + exists idx, row. split; [now left | exact Hb].
    + destruct (IH _ Hin) as (i & r & Hr & Hbr). exists i, r. split; [now right | exact Hbr].
  - destruct (IH _ Hin) as (i & r & Hr & Hbr). exists i, r. split; [now right | exact Hbr].
Qed.


Lemma mapped_zone_is_known (zone : string) :
  In (dict_get_default V2.zone_mapping zone "Zone_10_Southern_Plateau")
     (map fst V2._initialize_complete_zone_mappings).
Proof.
  unfold dict_get_default.
  destruct (dict_get V2.zone_mapping zone) as [m |] eqn:E.
  - apply dict_get_In in E. cbn in E.
    repeat (destruct E as [E | E]; [injection E as <- <-; cbn; tauto |]).
    contradiction.
  - cbn. tauto.
Qed.

Lemma zone_tables_agree (m : string) :
  In m (map fst V2._initialize_complete_zone_mappings) ->
  exists zone_info,
    dict_get V2._initialize_complete_zone_mappings m = Some zone_info
    /\ V2.parse_rainfall_range_from_zone m = Zone.rainfall_range zone_info
    /\ V2.parse_temp_range_from_zone m = Zone.temp_range zone_info
    /\ range_ok (V2.parse_rainfall_range_from_zone m) = true
    /\ range_ok (V2.parse_temp_range_from_zone m) = true.
Proof.
  intro H. cbn in H.
  repeat (destruct H as [<- | H]; [eexists; repeat split; reflexivity |]).
  contradiction.
Qed.

Lemma parse_ph_tolerance_cases (text : string) :
  In (V2.parse_ph_tolerance text) [(5.5, 6.5); (7.5, 8.5); (6.5, 7.5); (6.0, 7.5); (6.0, 8.0)]
  /\ range_ok (V2.parse_ph_tolerance text) = true.
Proof.
  unfold V2.parse_ph_tolerance.
  repeat match goal with
         | |- context [if ?c then _ else _] => destruct c
         end; (split; [cbn; tauto | reflexivity]).
Qed.

Lemma parse_water_requirement_cases (text : string) :
  In (V2.parse_water_requirement text) ["High"; "Low"; "Medium"].
Proof.
  unfold V2.parse_water_requirement.
  repeat match goal with
         | |- context [if ?c then _ else _] => destruct c
         end; cbn; tauto.
Qed.

Lemma loaded_shape_intro (v : Variety.t) (zone : string) :
  Variety.zones v = [dict_get_default V2.zone_mapping zone "Zone_10_Southern_Plateau"] ->
  Variety.rainfall_range v
  = V2.parse_rainfall_range_from_zone
      (dict_get_default V2.zone_mapping zone "Zone_10_Southern_Plateau") ->
  Variety.temp_range v
  = V2.parse_temp_range_from_zone
      (dict_get_default V2.zone_mapping zone "Zone_10_Southern_Plateau") ->
  In (Variety.ph_tolerance v) [(5.5, 6.5); (7.5, 8.5); (6.5, 7.5); (6.0, 7.5); (6.0, 8.0)] ->
  range_ok (Variety.ph_tolerance v) = true ->
  In (Variety.market_value v) ["Premium"; "High"; "Good"] ->
  In (Variety.water_requirement v) ["High"; "Low"; "Medium"] ->
  loaded_shape v.
Proof.
  intros Hz Hr Ht Hph Hphok Hm Hw.
  destruct (zone_tables_agree _ (mapped_zone_is_known zone))
    as (zone_info & Hget & Hrain & Htemp & Hrok & Htok).
  unfold loaded_shape, ranges_ok. rewrite Hr, Ht, Hrok, Htok, Hphok.
  repeat split; auto.
  eexists. exists zone_info. repeat split; eauto.
Qed.

Lemma built_variety_shape (i : nat) (row : CatalogRow.t) (v : Variety.t) :
  V2.rice_variety i row = Returns v
  \/ V2.crop_variety i row = Returns v
  \/ V2.agro_variety i row = Returns v ->
  loaded_shape v.
Proof.
  intros [H | [H | H]].
  - unfold V2.rice_variety, row_item in H.
    destruct (CatalogRow.zone row) as [zone |]; [| discriminate].
    destruct (CatalogRow.variety_name row); [| discriminate].
    destruct (CatalogRow.carbon_potential row); [| discriminate].
    cbn [bind] in H. injection H as <-.
    apply (loaded_shape_intro _ zone); cbn [Variety.zones Variety.rainfall_range
      Variety.temp_range Variety.ph_tolerance Variety.market_value
      Variety.water_requirement]; try reflexivity;
      try apply parse_ph_tolerance_cases; try apply parse_water_requirement_cases;
      repeat match goal with
             | |- context [if ?c then _ else _] => destruct c
             end; cbn; tauto.
  - unfold V2.crop_variety, row_item in H.
    destruct (CatalogRow.zone row) as [zone |]; [| discriminate].
    destruct (CatalogRow.crop_name row); [| discriminate].
    destruct (CatalogRow.variety_name row); [| discriminate].
    destruct (CatalogRow.carbon_potential row); [| discriminate].
    cbn [bind] in H. injection H as <-.
    apply (loaded_shape_intro _ zone); cbn [Variety.zones Variety.rainfall_range
      Variety.temp_range Variety.ph_tolerance Variety.market_value
      Variety.water_requirement]; try reflexivity;
      try apply parse_ph_tolerance_cases; try apply parse_water_requirement_cases;
      repeat match goal with
             | |- context [if ?c then _ else _] => destruct c
             end; cbn; tauto.
  - unfold V2.agro_variety, row_item in H.
    destruct (CatalogRow.zone row) as [zone |]; [| discriminate].
    destruct (CatalogRow.species_name row); [| discriminate].
    destruct (CatalogRow.variety_name row); [| discriminate].
    destruct (CatalogRow.carbon_potential row); [| discriminate].
    cbn [bind] in H. injection H as <-.
    apply (loaded_shape_intro _ zone); cbn [Variety.zones Variety.rainfall_range
      Variety.temp_range Variety.ph_tolerance Variety.market_value
      Variety.water_requirement]; try reflexivity; try (cbn; tauto).
    repeat match goal with
           | |- context [if ?c then _ else _] => destruct c
           end; cbn; tauto.
Qed.

Lemma loaded_variety_shape (rice_df crops_df agro_df : list CatalogRow.t)
  (v : Variety.t) :
  In v (V2.get_all_varieties
          (V2.init (V2._initialize_complete_database rice_df crops_df agro_df))) ->
  loaded_shape v.
Proof.
  unfold V2.get_all_varieties. cbn [database V2.init V2._initialize_complete_database
    rice_varieties agroforestry_species crop_varieties].
  rewrite !in_app_iff.
  intros [H | [H | H]]; apply load_rows_In in H as (i & row & _ & Hb);
    apply (built_variety_shape i row); tauto.
Qed.

(** X22. Whatever the CSV files hold, every variety that
    [_initialize_complete_database] loads lists exactly one zone, a key
    of the zone catalog, and takes its rainfall and temperature ranges
    from a table that agrees with that zone's catalog entry; its three
    ranges have 0 < min <= max, and its market value and water
    requirement are among the three tiers. *)
Theorem loaded_varieties_are_well_formed
  (rice_df crops_df agro_df : list CatalogRow.t) (v : Variety.t) :
  In v (V2.get_all_varieties
          (V2.init (V2._initialize_complete_database rice_df crops_df agro_df))) ->
  loaded_shape v.
Proof. apply loaded_variety_shape. Qed.

Lemma loaded_varieties_are_well_formed_witness :
  loaded_shape (hd zero_bound_variety (rice_varieties sample_loaded_database)).
Proof.
  apply (loaded_varieties_are_well_formed [sample_broken_row; sample_rice_row] [] []).
  left. reflexivity.
Defined.

(** X23. On a catalog loaded from the CSV files the scorer never divides
    by zero: for every farm profile and every loaded variety the body of
    the routine returns without raising (the handler of v2 is not
    reached), and the score is that value, in [0, 1]. *)
Theorem loaded_catalog_never_hits_the_handler
  (rice_df crops_df agro_df : list CatalogRow.t) (p : EnhancedFarmProfile)
  (v : Variety.t) :
  let self := V2.init (V2._initialize_complete_database rice_df crops_df agro_df) in
  In v (V2.get_all_varieties self) ->
  exists s,
    V1.calculate_enhanced_suitability_score self p v = Returns s
    /\ V2.calculate_enhanced_suitability_score self p v = s
    /\ 0 <= s <= 1.
Proof.
  intros self Hv.
  destruct (loaded_variety_shape rice_df crops_df agro_df v Hv) as (_ & Hr & _).
  unfold ranges_ok in Hr. rewrite !andb_true_iff in Hr.
  destruct Hr as [[Hrain Htemp] Hph].
  apply range_ok_spec in Hrain, Htemp, Hph.
  destruct (v1_score_returns self p v) as [s Hs]; try lra.
  exists s. split; [exact Hs |].
  assert (E : V2.calculate_enhanced_suitability_score self p v = s).
  { rewrite v2_score_is_guarded_v1. now rewrite Hs. }
  split; [exact E |]. rewrite <- E.
  destruct (v2_score_shape self p v) as [E0 | [t E0]]; rewrite E0;
    [lra | apply clamp_unit_interval].
Qed.

Lemma loaded_catalog_never_hits_the_handler_witness :
  exists s,
    V1.calculate_enhanced_suitability_score (V2.init sample_loaded_database)
      frost_profile (hd zero_bound_variety (rice_varieties sample_loaded_database))
    = Returns s
    /\ V2.calculate_enhanced_suitability_score (V2.init sample_loaded_database)
         frost_profile (hd zero_bound_variety (rice_varieties sample_loaded_database))
       = s
    /\ 0 <= s <= 1.
Proof.
  apply (loaded_catalog_never_hits_the_handler [sample_broken_row; sample_rice_row] [] []).
  left. reflexivity.
Defined.


